(** * Submariner agent status controller: deployment health aggregation

    A shallow embedding of [deploymentStatusController] (package
    [submarineragent]) and the properties of one reconciliation pass
    ([sync]): which degraded signals the ordered checks collect, how they are
    merged into the [SubmarinerAgentDegraded] condition, and when the
    condition is published to the hub.

    The Go code threads two local slices through its helpers by pointer and
    talks to four listers and one hub client.  Here the two slices and a
    chronological log of every lister read and hub call form an explicit
    [State]; every Go function is a state transformer over it.

    The generated fake client of cluster management add-ons
    ([FakeClusterManagementAddOns]) is embedded in [Module FakeClient]. *)

From Stdlib Require Import String Ascii List ZArith Lia Bool DecimalString.
Import ListNotations.
Open Scope list_scope.
Open Scope string_scope.

(** ** Library functions the controller calls *)

(** [strings.Join(elems, sep)]. *)
Definition Join (elems : list string) (sep : string) : string :=
  String.concat sep elems.

(** [strings.ReplaceAll(s, old, new)] for a non-empty [old]: non-overlapping
    occurrences are replaced from left to right.  [skip] counts the
    characters of a matched occurrence that are still to be dropped. *)
Fixpoint replaceFrom (skip : nat) (s old new : string) : string :=
  match s with
  | EmptyString => EmptyString
  | String ch rest =>
      match skip with
      | S k => replaceFrom k rest old new
      | O =>
          if String.prefix old s
          then new ++ replaceFrom (String.length old - 1) rest old new
          else String ch (replaceFrom 0 rest old new)
      end
  end.

Definition ReplaceAll (s old new : string) : string := replaceFrom 0 s old new.

(** [strings.Contains(s, substr)]. *)
Fixpoint Contains (s substr : string) : bool :=
  String.prefix substr s ||
  match s with
  | EmptyString => false
  | String _ rest => Contains rest substr
  end.

(** The verb [%d] of [fmt.Sprintf] on an integer. *)
Definition fmt_d (n : Z) : string := NilEmpty.string_of_int (Z.to_int n).

(** [strings.Split(s, "/")]: [cur] is the part read so far. *)
Fixpoint splitSlash (cur : string) (s : string) : list string :=
  match s with
  | EmptyString => [cur]
  | String ch rest =>
      if Ascii.eqb ch "/"
      then cur :: splitSlash EmptyString rest
      else splitSlash (cur ++ String ch EmptyString) rest
  end.

(** [cache.SplitMetaNamespaceKey(key)]; the controller drops its error. *)
Definition SplitMetaNamespaceKey (key : string) : string * string :=
  match splitSlash EmptyString key with
  | [name] => (EmptyString, name)
  | [namespace; name] => (namespace, name)
  | _ => (EmptyString, EmptyString)
  end.

(** ** Resource snapshots *)

Module Subscription.
Record SubscriptionSpec := {
  CatalogSource : string;
  CatalogSourceNamespace : string;
  Channel : string;
  StartingCSV : string
}.
Record SubscriptionStatus := { InstalledCSV : string }.
Record t := { Spec : SubscriptionSpec; Status : SubscriptionStatus }.
End Subscription.

Module Deployment.
Record DeploymentStatus := { AvailableReplicas : Z }.
Record t := { Status : DeploymentStatus }.
End Deployment.

Module DaemonSet.
Record DaemonSetStatus := {
  DesiredNumberScheduled : Z;
  NumberUnavailable : Z
}.
Record t := { Status : DaemonSetStatus }.
End DaemonSet.

Module Submariner.
Record SubmarinerSpec := { GlobalCIDR : string }.
Record SubmarinerStatus := { NetworkPlugin : string }.
Record t := { Spec : SubmarinerSpec; Status : SubmarinerStatus }.
End Submariner.

(** [metav1.Condition], with the fields [sync] sets. *)
Inductive ConditionStatus := ConditionTrue | ConditionFalse | ConditionUnknown.

Record Condition := {
  Type_ : string;
  Status : ConditionStatus;
  Reason : string;
  Message : string
}.

(** ** Constants *)

Definition subscriptionName := "submariner".
Definition operatorName := "submariner-operator".
Definition gatewayName := "submariner-gateway".
Definition routeAgentName := "submariner-routeagent".
Definition globalnetName := "submariner-globalnet".
Definition networkPluginSyncerName := "submariner-networkplugin-syncer".
Definition lighthouseAgentName := "submariner-lighthouse-agent".
Definition lighthouseCoreDNSName := "submariner-lighthouse-coredns".
Definition networkPluginOVNKubernetes := "OVNKubernetes".

Definition submarinerAgentDegraded := "SubmarinerAgentDegraded".

(** ** The apimachinery interface

    Errors, the not-found test and the unstructured converter belong to
    Kubernetes; the controller only calls them, so they are an interface. *)
Class ApiMachinery := {
  error : Type;
  (** [errors.IsNotFound] on a non-nil error. *)
  IsNotFound : error -> bool;
  (** [runtime.Object] as a generic lister returns it. *)
  Object : Type;
  Unstructured : Type;
  (** [runtime.DefaultUnstructuredConverter.ToUnstructured]. *)
  ToUnstructured : Object -> error + Unstructured;
  (** [runtime.DefaultUnstructuredConverter.FromUnstructured] into a
      [Subscription] and into a [Submariner]. *)
  SubscriptionFromUnstructured : Unstructured -> error + Subscription.t;
  SubmarinerFromUnstructured : Unstructured -> error + Submariner.t
}.

(** Every interaction of a pass with its collaborators, in program order. *)
Inductive Call :=
| GetSubscription (namespace name : string)
| GetDeployment (namespace name : string)
| GetDaemonSet (namespace name : string)
| GetSubmariner (namespace name : string)
| UpdateStatus (clusterName : string) (cond : Condition)
| Eventf (reason : string) (conditions : list Condition).

(** The two slices [sync] declares and hands to its helpers by pointer, and
    the log of calls made so far. *)
Record State := {
  degradedConditionReasons : list string;
  degradedConditionMessages : list string;
  calls : list Call
}.

Definition init : State :=
  {| degradedConditionReasons := [];
     degradedConditionMessages := [];
     calls := [] |}.

Section Controller.
Context {AM : ApiMachinery}.

(** A lister's [Get]: the object, or the error ([inl]). *)
Definition Lister (A : Type) := string -> string -> error + A.

(** The hub client, as [sync] uses it: [addon.UpdateStatus] applied to the
    cluster name and to [addon.UpdateConditionFn(&cond)].  That function
    lives in package [pkg/addon]; here its answer is a parameter of the
    controller: the updated condition list and whether it changed, or an
    error. *)
Definition AddOnClient :=
  string -> Condition -> error + (list Condition * bool).

Record deploymentStatusController := {
  addOnClient : AddOnClient;
  daemonSetLister : Lister DaemonSet.t;
  deploymentLister : Lister Deployment.t;
  subscriptionLister : Lister Object;
  submarinerLister : Lister Object;
  clusterName : string;
  namespace : string
}.

(** *** A small monad for Go function bodies

    A body of a function with result type [R] either has executed
    [return r] ([inl r]) or goes on with a value ([inr a]). *)
Definition M (R A : Type) := State -> State * (R + A).

Definition ret {R A} (a : A) : M R A := fun s => (s, inr a).

Definition return_ {R A} (r : R) : M R A := fun s => (s, inl r).

Definition bind {R A B} (m : M R A) (k : A -> M R B) : M R B :=
  fun s =>
    match m s with
    | (s', inl r) => (s', inl r)
    | (s', inr a) => k a s'
    end.

(** A function: its body always ends in a [return]. *)
Definition func {R} (body : M R Empty_set) : State -> State * R :=
  fun s =>
    match body s with
    | (s', inl r) => (s', r)
    | (_, inr e) => match e with end
    end.

(** Calling a function from a body. *)
Definition call {R R'} (f : State -> State * R') : M R R' :=
  fun s => let (s', r) := f s in (s', inr r).

(** [if err != nil { return err }]. *)
Definition ifErr (err : option error) : M (option error) unit :=
  match err with
  | Some _ => return_ err
  | None => ret tt
  end.

Definition appendReason {R} (x : string) : M R unit :=
  fun s =>
    ({| degradedConditionReasons := (degradedConditionReasons s ++ [x])%list;
        degradedConditionMessages := degradedConditionMessages s;
        calls := calls s |}, inr tt).

Definition appendMessage {R} (x : string) : M R unit :=
  fun s =>
    ({| degradedConditionReasons := degradedConditionReasons s;
        degradedConditionMessages := (degradedConditionMessages s ++ [x])%list;
        calls := calls s |}, inr tt).

Definition log {R} (c : Call) : M R unit :=
  fun s =>
    ({| degradedConditionReasons := degradedConditionReasons s;
        degradedConditionMessages := degradedConditionMessages s;
        calls := (calls s ++ [c])%list |}, inr tt).

Definition getReasons {R} : M R (list string) :=
  fun s => (s, inr (degradedConditionReasons s)).

Definition getMessages {R} : M R (list string) :=
  fun s => (s, inr (degradedConditionMessages s)).

(** [degradedConditionReasons := []string{}] and its sibling. *)
Definition declareSlices {R} : M R unit :=
  fun s =>
    ({| degradedConditionReasons := [];
        degradedConditionMessages := [];
        calls := calls s |}, inr tt).
End Controller.

Declare Scope go_scope.
Delimit Scope go_scope with go.
Notation "x <- m ;; k" := (bind m (fun x => k))
  (at level 100, m at next level, right associativity) : go_scope.
Notation "' pat <- m ;; k" := (bind m (fun x => match x with pat => k end))
  (at level 100, pat pattern, m at next level, right associativity) : go_scope.
Notation "m ;; k" := (bind m (fun _ => k))
  (at level 100, right associativity) : go_scope.

Section Checks.
Context {AM : ApiMachinery}.
Variable c : deploymentStatusController.
Local Open Scope go_scope.

(** [c.deploymentLister.Deployments(c.namespace).Get(name)] and the like:
    the read is logged and the lister's answer handed back. *)
Definition Deployments_Get {R} (name : string) : M R (error + Deployment.t) :=
  log (GetDeployment (namespace c) name) ;;
  ret (deploymentLister c (namespace c) name).

Definition DaemonSets_Get {R} (name : string) : M R (error + DaemonSet.t) :=
  log (GetDaemonSet (namespace c) name) ;;
  ret (daemonSetLister c (namespace c) name).

Definition Subscription_Get {R} (name : string) : M R (error + Object) :=
  log (GetSubscription (namespace c) name) ;;
  ret (subscriptionLister c (namespace c) name).

Definition Submariner_Get {R} (namespace name : string) : M R (error + Object) :=
  log (GetSubmariner namespace name) ;;
  ret (submarinerLister c namespace name).

Definition checkDeployment (name reasonName : string)
  : State -> State * option error :=
  func (
    r <- Deployments_Get name ;;
    let msgName := ReplaceAll name "-" " " in
    match r with
    | inl err =>
        if IsNotFound err then
          appendReason ("No" ++ reasonName ++ "Deployment") ;;
          appendMessage ("The " ++ msgName ++ " deployment does not exist")
        else
          return_ (Some err)
    | inr deployment =>
        if (Deployment.AvailableReplicas (Deployment.Status deployment) =? 0)%Z then
          appendReason ("No" ++ reasonName ++ "Available") ;;
          appendMessage ("There are no " ++ msgName ++ " replica available")
        else
          ret tt
    end ;;
    return_ None).

Definition checkDeployments : State -> State * option error :=
  func (
    err <- call (checkDeployment operatorName "Operator") ;;
    ifErr err ;;
    err <- call (checkDeployment lighthouseAgentName "LighthouseAgent") ;;
    ifErr err ;;
    err <- call (checkDeployment lighthouseCoreDNSName "LighthouseCoreDNS") ;;
    ifErr err ;;
    return_ None).

Definition checkOptionalDeployments (submariner : Submariner.t)
  : State -> State * option error :=
  func (
    (if negb (Submariner.GlobalCIDR (Submariner.Spec submariner) =? "") then
       err <- call (checkDeployment globalnetName "Globalnet") ;;
       ifErr err
     else
       ret tt) ;;
    (if Submariner.NetworkPlugin (Submariner.Status submariner)
          =? networkPluginOVNKubernetes then
       err <- call (checkDeployment networkPluginSyncerName "NetworkPluginSyncer") ;;
       ifErr err
     else
       ret tt) ;;
    return_ None).

Definition checkGatewayDaemonSet : State -> State * option error :=
  func (
    r <- DaemonSets_Get gatewayName ;;
    match r with
    | inl err =>
        if IsNotFound err then
          appendReason "NoGatewayDaemonSet" ;;
          appendMessage "The gateway daemon set does not exist"
        else
          return_ (Some err)
    | inr gateways =>
        (if (DaemonSet.DesiredNumberScheduled (DaemonSet.Status gateways) =? 0)%Z then
           appendReason "NoScheduledGateways" ;;
           appendMessage "There are no nodes to run the gateways"
         else
           ret tt) ;;
        (if negb (DaemonSet.NumberUnavailable (DaemonSet.Status gateways) =? 0)%Z then
           appendReason "GatewaysUnavailable" ;;
           appendMessage
             ("There are "
                ++ fmt_d (DaemonSet.NumberUnavailable (DaemonSet.Status gateways))
                ++ " unavailable gateways")
         else
           ret tt)
    end ;;
    return_ None).

Definition checkRouteAgentDaemonSet : State -> State * option error :=
  func (
    r <- DaemonSets_Get routeAgentName ;;
    match r with
    | inl err =>
        if IsNotFound err then
          appendReason "NoRouteAgentDaemonSet" ;;
          appendMessage "The route agents are not found"
        else
          return_ (Some err)
    | inr routeAgent =>
        if negb (DaemonSet.NumberUnavailable (DaemonSet.Status routeAgent) =? 0)%Z then
          appendReason "RouteAgentsUnavailable" ;;
          appendMessage
            ("There are "
               ++ fmt_d (DaemonSet.NumberUnavailable (DaemonSet.Status routeAgent))
               ++ " unavailable route agents")
        else
          ret tt
    end ;;
    return_ None).

Definition checkDaemonSets : State -> State * option error :=
  func (
    err <- call checkGatewayDaemonSet ;;
    ifErr err ;;
    err <- call checkRouteAgentDaemonSet ;;
    ifErr err ;;
    return_ None).

Definition getSubmariner (queueKey : string)
  : State -> State * (option Submariner.t * option error) :=
  func (
    let '(namespace, name) := SplitMetaNamespaceKey queueKey in
    r <- Submariner_Get namespace name ;;
    match r with
    | inl err =>
        if IsNotFound err then return_ (None, None) else return_ (None, Some err)
    | inr runtimeSubmariner =>
        match ToUnstructured runtimeSubmariner with
        | inl err => return_ (None, Some err)
        | inr unstructuredSubmariner =>
            match SubmarinerFromUnstructured unstructuredSubmariner with
            | inl err => return_ (None, Some err)
            | inr submariner => return_ (Some submariner, None)
            end
        end
    end).

(** Lines 99-114 of [sync]: the installed-CSV test on the subscription. *)
Definition checkInstalledCSV {R} (sub : Subscription.t) : M R unit :=
  if Subscription.InstalledCSV (Subscription.Status sub) =? "" then
    let startingCSV := Subscription.StartingCSV (Subscription.Spec sub) in
    let startingCSV := if startingCSV =? "" then "default" else startingCSV in
    let channel := Subscription.Channel (Subscription.Spec sub) in
    let channel := if channel =? "" then "default" else channel in
    appendReason "CSVNotInstalled" ;;
    appendMessage
      ("The submariner-operator CSV (" ++ startingCSV
         ++ ") is not installed from channel (" ++ channel
         ++ ") in catalog source ("
         ++ Subscription.CatalogSourceNamespace (Subscription.Spec sub) ++ "/"
         ++ Subscription.CatalogSource (Subscription.Spec sub) ++ ")")
  else
    ret tt.

(** Lines 137-148 of [sync]: the condition built from the two slices. *)
Definition submarinerAgentCondtion (sub : Subscription.t)
    (degradedConditionReasons degradedConditionMessages : list string)
  : Condition :=
  let cond :=
    {| Type_ := submarinerAgentDegraded;
       Status := ConditionFalse;
       Reason := "SubmarinerAgentDeployed";
       Message := "Submariner ("
                    ++ Subscription.InstalledCSV (Subscription.Status sub)
                    ++ ") is deployed on managed cluster." |} in
  if negb (Nat.eqb (List.length degradedConditionReasons) 0) then
    {| Type_ := Type_ cond;
       Status := ConditionTrue;
       Reason := Join degradedConditionReasons ",";
       Message := Join degradedConditionMessages (String "010"%char EmptyString) |}
  else
    cond.

Definition sync (queueKey : string) : State -> State * option error :=
  func (
    declareSlices ;;
    r <- Subscription_Get subscriptionName ;;
    match r with
    | inl err =>
        if IsNotFound err then return_ None else return_ (Some err)
    | inr runtimeSub =>
        match ToUnstructured runtimeSub with
        | inl err => return_ (Some err)
        | inr unstructuredSub =>
            match SubscriptionFromUnstructured unstructuredSub with
            | inl err => return_ (Some err)
            | inr sub =>
                checkInstalledCSV sub ;;
                err <- call checkDeployments ;;
                ifErr err ;;
                err <- call checkDaemonSets ;;
                ifErr err ;;
                '(submariner, err) <- call (getSubmariner queueKey) ;;
                match submariner with
                | None => return_ err
                | Some submariner =>
                    err <- call (checkOptionalDeployments submariner) ;;
                    ifErr err ;;
                    reasons <- getReasons ;;
                    messages <- getMessages ;;
                    let cond := submarinerAgentCondtion sub reasons messages in
                    log (UpdateStatus (clusterName c) cond) ;;
                    match addOnClient c (clusterName c) cond with
                    | inl err => return_ (Some err)
                    | inr (updatedConditions, updated) =>
                        (if updated : bool then
                           log (Eventf "ManagedClusterAddOnStatusUpdated" updatedConditions)
                         else
                           ret tt) ;;
                        return_ None
                    end
                end
            end
        end
    end).

(** One reconciliation pass for [queueKey], from a fresh log. *)
Definition pass (queueKey : string) : State * option error :=
  sync queueKey init.
End Checks.

(** ** Vocabulary of the properties *)

(** [s] with signals and calls appended. *)
Definition extend (s : State) (rs ms : list string) (cs : list Call) : State :=
  {| degradedConditionReasons := (degradedConditionReasons s ++ rs)%list;
     degradedConditionMessages := (degradedConditionMessages s ++ ms)%list;
     calls := (calls s ++ cs)%list |}.

(** A call that reads a lister. *)
Definition isRead (cl : Call) : bool :=
  match cl with
  | GetSubscription _ _ | GetDeployment _ _ | GetDaemonSet _ _ | GetSubmariner _ _ => true
  | UpdateStatus _ _ | Eventf _ _ => false
  end.

(** The conditions handed to the hub, in order. *)
Fixpoint published (cs : list Call) : list Condition :=
  match cs with
  | [] => []
  | UpdateStatus _ cond :: cs' => cond :: published cs'
  | _ :: cs' => published cs'
  end.

(** [l] is [order] with some entries left out. *)
Inductive Subseq {A : Type} : list A -> list A -> Prop :=
| Subseq_nil : Subseq [] []
| Subseq_skip x l order : Subseq l order -> Subseq l (x :: order)
| Subseq_take x l order : Subseq l order -> Subseq (x :: l) (x :: order).

(** The reason codes in the order in which the checks of a pass can emit
    them. *)
Definition pipelineOrder : list string :=
  [ "CSVNotInstalled";
    "NoOperatorDeployment"; "NoOperatorAvailable";
    "NoLighthouseAgentDeployment"; "NoLighthouseAgentAvailable";
    "NoLighthouseCoreDNSDeployment"; "NoLighthouseCoreDNSAvailable";
    "NoGatewayDaemonSet"; "NoScheduledGateways"; "GatewaysUnavailable";
    "NoRouteAgentDaemonSet"; "RouteAgentsUnavailable";
    "NoGlobalnetDeployment"; "NoGlobalnetAvailable";
    "NoNetworkPluginSyncerDeployment"; "NoNetworkPluginSyncerAvailable" ].

Section Vocabulary.
Context {AM : ApiMachinery}.

(** The error of a read, when it is one other than not-found. *)
Definition hardError {A} (r : error + A) : option error :=
  match r with
  | inl err => if IsNotFound err then None else Some err
  | inr _ => None
  end.

(** A read that reports not-found. *)
Definition notFound {A} (r : error + A) : bool :=
  match r with
  | inl err => IsNotFound err
  | inr _ => false
  end.

(** What the listers of [c] answer to a logged read. *)
Definition readError (c : deploymentStatusController) (cl : Call) : option error :=
  match cl with
  | GetSubscription ns n => hardError (subscriptionLister c ns n)
  | GetDeployment ns n => hardError (deploymentLister c ns n)
  | GetDaemonSet ns n => hardError (daemonSetLister c ns n)
  | GetSubmariner ns n => hardError (submarinerLister c ns n)
  | UpdateStatus _ _ | Eventf _ _ => None
  end.

(** A generic lister's object decoded as [sync] and [getSubmariner] do. *)
Definition decode {A} (from : Unstructured -> error + A) (r : error + Object)
  : error + A :=
  match r with
  | inl err => inl err
  | inr o =>
      match ToUnstructured o with
      | inl err => inl err
      | inr u => from u
      end
  end.

(** The subscription and the configuration resource a pass for [queueKey]
    sees. *)
Definition theSubscription (c : deploymentStatusController) : error + Subscription.t :=
  decode SubscriptionFromUnstructured
    (subscriptionLister c (namespace c) subscriptionName).

Definition theSubmariner (c : deploymentStatusController) (queueKey : string)
  : error + Submariner.t :=
  decode SubmarinerFromUnstructured
    (submarinerLister c (fst (SplitMetaNamespaceKey queueKey))
       (snd (SplitMetaNamespaceKey queueKey))).

(** Two controllers see the same snapshot of the watched resources of
    [queueKey]. *)
Definition sameSnapshot (c1 c2 : deploymentStatusController) (queueKey : string) : Prop :=
  namespace c1 = namespace c2 /\
  subscriptionLister c1 (namespace c1) subscriptionName
    = subscriptionLister c2 (namespace c2) subscriptionName /\
  (forall name,
      In name [operatorName; lighthouseAgentName; lighthouseCoreDNSName;
               globalnetName; networkPluginSyncerName] ->
      deploymentLister c1 (namespace c1) name
        = deploymentLister c2 (namespace c2) name) /\
  (forall name,
      In name [gatewayName; routeAgentName] ->
      daemonSetLister c1 (namespace c1) name
        = daemonSetLister c2 (namespace c2) name) /\
  submarinerLister c1 (fst (SplitMetaNamespaceKey queueKey))
      (snd (SplitMetaNamespaceKey queueKey))
    = submarinerLister c2 (fst (SplitMetaNamespaceKey queueKey))
        (snd (SplitMetaNamespaceKey queueKey)).
(** *** What each check contributes, as a function of the lister's answer

    A signal is a (reason, message) pair.  The lemmas of the next part show
    that the Go functions append exactly these. *)
Definition deploymentSignals (name reasonName : string) (r : error + Deployment.t)
  : list (string * string) :=
  match r with
  | inl err =>
      if IsNotFound err then
        [("No" ++ reasonName ++ "Deployment",
          "The " ++ ReplaceAll name "-" " " ++ " deployment does not exist")]
      else []
  | inr deployment =>
      if (Deployment.AvailableReplicas (Deployment.Status deployment) =? 0)%Z then
        [("No" ++ reasonName ++ "Available",
          "There are no " ++ ReplaceAll name "-" " " ++ " replica available")]
      else []
  end.

Definition gatewaySignals (r : error + DaemonSet.t) : list (string * string) :=
  match r with
  | inl err =>
      if IsNotFound err then
        [("NoGatewayDaemonSet", "The gateway daemon set does not exist")]
      else []
  | inr gateways =>
      List.app
        (if (DaemonSet.DesiredNumberScheduled (DaemonSet.Status gateways) =? 0)%Z then
           [("NoScheduledGateways", "There are no nodes to run the gateways")]
         else [])
        (if (DaemonSet.NumberUnavailable (DaemonSet.Status gateways) =? 0)%Z then []
         else
           [("GatewaysUnavailable",
             "There are "
               ++ fmt_d (DaemonSet.NumberUnavailable (DaemonSet.Status gateways))
               ++ " unavailable gateways")])
  end.

Definition routeAgentSignals (r : error + DaemonSet.t) : list (string * string) :=
  match r with
  | inl err =>
      if IsNotFound err then
        [("NoRouteAgentDaemonSet", "The route agents are not found")]
      else []
  | inr routeAgent =>
      if (DaemonSet.NumberUnavailable (DaemonSet.Status routeAgent) =? 0)%Z then []
      else
        [("RouteAgentsUnavailable",
          "There are "
            ++ fmt_d (DaemonSet.NumberUnavailable (DaemonSet.Status routeAgent))
            ++ " unavailable route agents")]
  end.

Definition orDefault (s : string) : string := if s =? "" then "default" else s.

Definition installSignals (sub : Subscription.t) : list (string * string) :=
  if Subscription.InstalledCSV (Subscription.Status sub) =? "" then
    [("CSVNotInstalled",
      "The submariner-operator CSV ("
        ++ orDefault (Subscription.StartingCSV (Subscription.Spec sub))
        ++ ") is not installed from channel ("
        ++ orDefault (Subscription.Channel (Subscription.Spec sub))
        ++ ") in catalog source ("
        ++ Subscription.CatalogSourceNamespace (Subscription.Spec sub) ++ "/"
        ++ Subscription.CatalogSource (Subscription.Spec sub) ++ ")")]
  else [].

(** [s] with signals and calls appended. *)
Definition emit (s : State) (sigs : list (string * string)) (cs : list Call) : State :=
  extend s (map fst sigs) (map snd sigs) cs.

(** [err := f(); if err != nil { return err }; return g()]. *)
Definition andThen (f g : State -> State * option error)
  : State -> State * option error :=
  fun s =>
    match f s with
    | (s', Some err) => (s', Some err)
    | (s', None) => g s'
    end.

(** A check that is not enabled. *)
Definition skip : State -> State * option error := fun s => (s, None).

(** The footprint of a check of [c]: it only appends; its reasons follow
    [order]; it only reads, in the order of [reads]; and a read that failed
    with an error other than not-found is the check's result. *)
Definition Effect (c : deploymentStatusController)
    (order : list string) (reads : list Call)
    (f : State -> State * option error) : Prop :=
  forall s, exists sigs cs,
    fst (f s) = emit s sigs cs /\
    Subseq (map fst sigs) order /\
    Subseq cs reads /\
    Forall (fun cl => forall e, readError c cl = Some e -> snd (f s) = Some e) cs.

(** A step appends as many reasons as messages. *)
Definition Lockstep {R} (f : State -> State * R) : Prop :=
  forall s, exists rs ms,
    degradedConditionReasons (fst (f s)) = (degradedConditionReasons s ++ rs)%list /\
    degradedConditionMessages (fst (f s)) = (degradedConditionMessages s ++ ms)%list /\
    List.length rs = List.length ms.

(** The reason codes and the reads of the conditional checks that a
    configuration resource enables. *)
Definition optionalOrder (submariner : Submariner.t) : list string :=
  ((if Submariner.GlobalCIDR (Submariner.Spec submariner) =? "" then []
    else ["NoGlobalnetDeployment"; "NoGlobalnetAvailable"])
     ++
   (if Submariner.NetworkPlugin (Submariner.Status submariner)
         =? networkPluginOVNKubernetes
    then ["NoNetworkPluginSyncerDeployment"; "NoNetworkPluginSyncerAvailable"]
    else []))%list.

Definition optionalReads (c : deploymentStatusController) (submariner : Submariner.t)
  : list Call :=
  ((if Submariner.GlobalCIDR (Submariner.Spec submariner) =? "" then []
    else [GetDeployment (namespace c) globalnetName])
     ++
   (if Submariner.NetworkPlugin (Submariner.Status submariner)
         =? networkPluginOVNKubernetes
    then [GetDeployment (namespace c) networkPluginSyncerName]
    else []))%list.

(** The reads of the required checks, in program order. *)
Definition requiredReads (c : deploymentStatusController) : list Call :=
  [ GetDeployment (namespace c) operatorName;
    GetDeployment (namespace c) lighthouseAgentName;
    GetDeployment (namespace c) lighthouseCoreDNSName;
    GetDaemonSet (namespace c) gatewayName;
    GetDaemonSet (namespace c) routeAgentName ].

Definition requiredOrder : list string :=
  [ "NoOperatorDeployment"; "NoOperatorAvailable";
    "NoLighthouseAgentDeployment"; "NoLighthouseAgentAvailable";
    "NoLighthouseCoreDNSDeployment"; "NoLighthouseCoreDNSAvailable";
    "NoGatewayDaemonSet"; "NoScheduledGateways"; "GatewaysUnavailable";
    "NoRouteAgentDaemonSet"; "RouteAgentsUnavailable" ].
(** The state once [sync] has declared its two slices. *)
Definition fresh (s : State) : State :=
  {| degradedConditionReasons := [];
     degradedConditionMessages := [];
     calls := calls s |}.

(** Lines 137-161 of [sync]: the condition is built from the slices and
    handed to the hub; an event follows when the hub reports a change. *)
Definition publish (c : deploymentStatusController) (sub : Subscription.t)
    (s : State) : State * option error :=
  let cond :=
    submarinerAgentCondtion sub
      (degradedConditionReasons s) (degradedConditionMessages s) in
  match addOnClient c (clusterName c) cond with
  | inl err => (emit s [] [UpdateStatus (clusterName c) cond], Some err)
  | inr (updatedConditions, updated) =>
      (emit s []
         (UpdateStatus (clusterName c) cond
            :: if updated : bool
               then [Eventf "ManagedClusterAddOnStatusUpdated" updatedConditions]
               else []),
       None)
  end.

(** The lookup of the configuration resource of [queueKey]. *)
Definition configRead (queueKey : string) : Call :=
  GetSubmariner (fst (SplitMetaNamespaceKey queueKey))
    (snd (SplitMetaNamespaceKey queueKey)).

(** The reason codes and the reads a pass for [queueKey] can produce, in
    program order. *)
Definition passOrder (c : deploymentStatusController) (queueKey : string)
  : list string :=
  ("CSVNotInstalled" :: requiredOrder
     ++ match theSubmariner c queueKey with
        | inr submariner => optionalOrder submariner
        | inl _ => []
        end)%list.

Definition passReads (c : deploymentStatusController) (queueKey : string)
  : list Call :=
  (GetSubscription (namespace c) subscriptionName :: requiredReads c
     ++ configRead queueKey
     :: match theSubmariner c queueKey with
        | inr submariner => optionalReads c submariner
        | inl _ => []
        end)%list.
(** The signals of the required checks, and of the conditional checks a
    configuration resource enables, when every read succeeds or reports
    not-found. *)
Definition requiredSignals (c : deploymentStatusController) : list (string * string) :=
  (deploymentSignals operatorName "Operator"
     (deploymentLister c (namespace c) operatorName)
   ++ deploymentSignals lighthouseAgentName "LighthouseAgent"
        (deploymentLister c (namespace c) lighthouseAgentName)
   ++ deploymentSignals lighthouseCoreDNSName "LighthouseCoreDNS"
        (deploymentLister c (namespace c) lighthouseCoreDNSName)
   ++ gatewaySignals (daemonSetLister c (namespace c) gatewayName)
   ++ routeAgentSignals (daemonSetLister c (namespace c) routeAgentName))%list.

Definition optionalSignals (c : deploymentStatusController) (submariner : Submariner.t)
  : list (string * string) :=
  ((if Submariner.GlobalCIDR (Submariner.Spec submariner) =? "" then []
    else deploymentSignals globalnetName "Globalnet"
           (deploymentLister c (namespace c) globalnetName))
     ++
   (if Submariner.NetworkPlugin (Submariner.Status submariner)
         =? networkPluginOVNKubernetes
    then deploymentSignals networkPluginSyncerName "NetworkPluginSyncer"
           (deploymentLister c (namespace c) networkPluginSyncerName)
    else []))%list.

Definition allSignals (c : deploymentStatusController) (sub : Subscription.t)
    (submariner : Submariner.t) : list (string * string) :=
  (installSignals sub ++ requiredSignals c ++ optionalSignals c submariner)%list.
(** A deployment is there with a replica available; the gateway daemon set
    is there, scheduled on a node and with no pod unavailable; the route
    agent daemon set is there with no pod unavailable. *)
Definition deploymentAvailable (c : deploymentStatusController) (name : string) : bool :=
  match deploymentLister c (namespace c) name with
  | inr d => negb (Deployment.AvailableReplicas (Deployment.Status d) =? 0)%Z
  | inl _ => false
  end.

Definition gatewaysAvailable (c : deploymentStatusController) : bool :=
  match daemonSetLister c (namespace c) gatewayName with
  | inr d =>
      negb (DaemonSet.DesiredNumberScheduled (DaemonSet.Status d) =? 0)%Z
      && (DaemonSet.NumberUnavailable (DaemonSet.Status d) =? 0)%Z
  | inl _ => false
  end.

Definition routeAgentsAvailable (c : deploymentStatusController) : bool :=
  match daemonSetLister c (namespace c) routeAgentName with
  | inr d => (DaemonSet.NumberUnavailable (DaemonSet.Status d) =? 0)%Z
  | inl _ => false
  end.

(** Everything a pass for [queueKey] looks at is deployed: the subscription
    reports an installed CSV, the required deployments and daemon sets are
    available, and so is each conditional deployment that the
    configuration resource enables. *)
Definition allDeployed (c : deploymentStatusController) (queueKey : string) : bool :=
  match theSubscription c, theSubmariner c queueKey with
  | inr sub, inr submariner =>
      negb (Subscription.InstalledCSV (Subscription.Status sub) =? "")
      && deploymentAvailable c operatorName
      && deploymentAvailable c lighthouseAgentName
      && deploymentAvailable c lighthouseCoreDNSName
      && gatewaysAvailable c
      && routeAgentsAvailable c
      && (if Submariner.GlobalCIDR (Submariner.Spec submariner) =? "" then true
          else deploymentAvailable c globalnetName)
      && (if Submariner.NetworkPlugin (Submariner.Status submariner)
               =? networkPluginOVNKubernetes
          then deploymentAvailable c networkPluginSyncerName
          else true)
  | _, _ => false
  end.
End Vocabulary.

(** ** A concrete cluster for examples *)

Module Fixture.
Inductive apiError :=
| NotFound (name : string)
| Internal (msg : string).

Inductive object :=
| SubscriptionObject (sub : Subscription.t)
| SubmarinerObject (submariner : Submariner.t).

#[export] Instance api : ApiMachinery := {|
  error := apiError;
  IsNotFound := fun err => match err with NotFound _ => true | Internal _ => false end;
  Object := object;
  Unstructured := object;
  ToUnstructured := fun o => inr o;
  SubscriptionFromUnstructured := fun u =>
    match u with
    | SubscriptionObject sub => inr sub
    | SubmarinerObject _ => inl (Internal "not a subscription")
    end;
  SubmarinerFromUnstructured := fun u =>
    match u with
    | SubmarinerObject submariner => inr submariner
    | SubscriptionObject _ => inl (Internal "not a submariner")
    end
|}.

(** A lister over the objects of one namespace, listed by name. *)
Fixpoint lookup {A} (objects : list (string * (apiError + A))) (name : string)
  : apiError + A :=
  match objects with
  | [] => inl (NotFound name)
  | (n, r) :: rest => if n =? name then r else lookup rest name
  end.

Definition lister {A} (ns : string) (objects : list (string * (apiError + A)))
  : Lister A :=
  fun namespace name =>
    if namespace =? ns then lookup objects name else inl (NotFound name).

Definition deployment (available : Z) : apiError + Deployment.t :=
  inr {| Deployment.Status := {| Deployment.AvailableReplicas := available |} |}.

Definition daemonSet (desired unavailable : Z) : apiError + DaemonSet.t :=
  inr {| DaemonSet.Status :=
           {| DaemonSet.DesiredNumberScheduled := desired;
              DaemonSet.NumberUnavailable := unavailable |} |}.

Definition subscriptionOf (installedCSV startingCSV channel : string)
  : Subscription.t :=
  {| Subscription.Spec :=
       {| Subscription.CatalogSource := "redhat-operators";
          Subscription.CatalogSourceNamespace := "openshift-marketplace";
          Subscription.Channel := channel;
          Subscription.StartingCSV := startingCSV |};
     Subscription.Status := {| Subscription.InstalledCSV := installedCSV |} |}.

Definition subscription (installedCSV startingCSV channel : string)
  : apiError + object :=
  inr (SubscriptionObject (subscriptionOf installedCSV startingCSV channel)).

Definition submarinerOf (globalCIDR networkPlugin : string) : Submariner.t :=
  {| Submariner.Spec := {| Submariner.GlobalCIDR := globalCIDR |};
     Submariner.Status := {| Submariner.NetworkPlugin := networkPlugin |} |}.

Definition submariner (globalCIDR networkPlugin : string) : apiError + object :=
  inr (SubmarinerObject (submarinerOf globalCIDR networkPlugin)).

(** A hub that stores the condition and reports a change. *)
Definition hub : AddOnClient := fun _ cond => inr ([cond], true).

Definition cluster
    (sub : apiError + object)
    (deployments : list (string * (apiError + Deployment.t)))
    (daemonSets : list (string * (apiError + DaemonSet.t)))
    (config : apiError + object) : deploymentStatusController :=
  {| addOnClient := hub;
     daemonSetLister := lister "submariner-operator" daemonSets;
     deploymentLister := lister "submariner-operator" deployments;
     subscriptionLister := lister "submariner-operator" [("submariner", sub)];
     submarinerLister := lister "submariner-operator" [("submariner", config)];
     clusterName := "cluster1";
     namespace := "submariner-operator" |}.

Definition queueKey := "submariner-operator/submariner".

Definition requiredDeployments : list (string * (apiError + Deployment.t)) :=
  [ (operatorName, deployment 1);
    (lighthouseAgentName, deployment 1);
    (lighthouseCoreDNSName, deployment 1) ].

Definition daemonSets : list (string * (apiError + DaemonSet.t)) :=
  [ (gatewayName, daemonSet 1 0); (routeAgentName, daemonSet 3 0) ].

(** Everything deployed and available; no Globalnet, no OVN. *)
Definition healthy : deploymentStatusController :=
  cluster (subscription "submariner.v0.12.0" "" "")
    requiredDeployments daemonSets (submariner "" "").

(** The operator deployment is missing and the lighthouse agent has no
    replica available. *)
Definition noOperator : deploymentStatusController :=
  cluster (subscription "submariner.v0.12.0" "" "")
    [ (lighthouseAgentName, deployment 0);
      (lighthouseCoreDNSName, deployment 1) ]
    daemonSets (submariner "" "").

(** The gateway daemon set cannot be read; the operator is missing. *)
Definition brokenGateway : deploymentStatusController :=
  cluster (subscription "submariner.v0.12.0" "" "")
    [ (lighthouseAgentName, deployment 1);
      (lighthouseCoreDNSName, deployment 1) ]
    [ (gatewayName, inl (Internal "decode failure"));
      (routeAgentName, daemonSet 3 0) ]
    (submariner "" "").

(** The subscription is gone. *)
Definition noSubscription : deploymentStatusController :=
  cluster (inl (NotFound "submariner")) [] [] (submariner "" "").

(** The configuration resource is gone. *)
Definition noConfig : deploymentStatusController :=
  cluster (subscription "submariner.v0.12.0" "" "")
    requiredDeployments daemonSets (inl (NotFound "submariner")).

(** Nothing installed yet: no CSV, no starting version, no channel. *)
Definition notInstalled : deploymentStatusController :=
  cluster (subscription "" "" "") requiredDeployments daemonSets (submariner "" "").

(** No node is labelled for gateways and two gateway pods are down. *)
Definition gatewaysDown : deploymentStatusController :=
  cluster (subscription "submariner.v0.12.0" "" "")
    requiredDeployments
    [ (gatewayName, daemonSet 0 2); (routeAgentName, daemonSet 3 0) ]
    (submariner "" "").

(** The cluster of [noOperator] seen by another controller: another hub,
    which is down, another cluster name, and one more deployment that no
    check looks at. *)
Definition noOperatorElsewhere : deploymentStatusController :=
  {| addOnClient := fun _ _ => inl (Internal "hub unreachable");
     daemonSetLister := lister "submariner-operator" daemonSets;
     deploymentLister :=
       lister "submariner-operator"
         [ (lighthouseAgentName, deployment 0);
           (lighthouseCoreDNSName, deployment 1);
           ("submariner-metrics-proxy", deployment 0) ];
     subscriptionLister :=
       lister "submariner-operator"
         [("submariner", subscription "submariner.v0.12.0" "" "")];
     submarinerLister :=
       lister "submariner-operator" [("submariner", submariner "" "")];
     clusterName := "cluster2";
     namespace := "submariner-operator" |}.

(** The route agent daemon set is scheduled on no node and has no pod
    unavailable. *)
Definition idleRouteAgents : deploymentStatusController :=
  cluster (subscription "submariner.v0.12.0" "" "")
    requiredDeployments
    [ (gatewayName, daemonSet 1 0); (routeAgentName, daemonSet 0 0) ]
    (submariner "" "").

(** Globalnet and OVN are in use, and neither conditional deployment is
    there. *)
Definition conditionalMissing : deploymentStatusController :=
  cluster (subscription "submariner.v0.12.0" "" "")
    requiredDeployments daemonSets
    (submariner "242.0.0.0/8" "OVNKubernetes").

(** A network plugin other than OVN, spelled in lower case; the syncer
    deployment is not there. *)
Definition otherPlugin : deploymentStatusController :=
  cluster (subscription "submariner.v0.12.0" "" "")
    requiredDeployments daemonSets
    (submariner "" "ovnkubernetes").

(** An apimachinery whose converter loses every object, with an error of the
    not-found kind. *)
Definition lossy : ApiMachinery := {|
  error := apiError;
  IsNotFound := fun err => match err with NotFound _ => true | Internal _ => false end;
  Object := object;
  Unstructured := object;
  ToUnstructured := fun _ => inl (NotFound "field");
  SubscriptionFromUnstructured := fun _ => inl (Internal "unreachable");
  SubmarinerFromUnstructured := fun _ => inl (Internal "unreachable")
|}.

(** The healthy cluster read through the lossy converter. *)
Definition unconvertible : @deploymentStatusController lossy :=
  @Build_deploymentStatusController lossy
    hub
    (lister "submariner-operator" daemonSets)
    (lister "submariner-operator" requiredDeployments)
    (lister "submariner-operator"
       [("submariner", subscription "submariner.v0.12.0" "" "")])
    (lister "submariner-operator" [("submariner", submariner "" "")])
    "cluster1"
    "submariner-operator".
End Fixture.


(** ** More vocabulary: the order of reads, events, queue keys *)

(** [l] is a beginning of [order]. *)
Definition Prefix {A : Type} (l order : list A) : Prop :=
  exists rest, order = (l ++ rest)%list.

(** The events a pass has recorded, in order. *)
Fixpoint events (cs : list Call) : list (string * list Condition) :=
  match cs with
  | [] => []
  | Eventf reason conditions :: cs' => (reason, conditions) :: events cs'
  | _ :: cs' => events cs'
  end.

(** A string without the separator of queue keys. *)
Fixpoint noSlash (s : string) : bool :=
  match s with
  | EmptyString => true
  | String ch rest => negb (Ascii.eqb ch "/") && noSlash rest
  end.

Section MoreVocabulary.
Context {AM : ApiMachinery}.

(** The reads of a function of [c]: it makes a beginning of [reads], and all
    of them when it returns no error. *)
Definition Runs {R} (errOf : R -> option error) (reads : list Call)
    (f : State -> State * R) : Prop :=
  forall s, exists cs,
    calls (fst (f s)) = (calls s ++ cs)%list /\
    Prefix cs reads /\
    (errOf (snd (f s)) = None -> cs = reads).

(** An error that a function of [c] returns is the error of one of the
    reads in its log. *)
Definition Blames (c : deploymentStatusController)
    (f : State -> State * option error) : Prop :=
  forall s e, snd (f s) = Some e ->
              exists cl, In cl (calls (fst (f s))) /\ readError c cl = Some e.
End MoreVocabulary.

(** A signal with a reason and a message. *)
Definition filled (p : string * string) : Prop := fst p <> "" /\ snd p <> "".

(** ** The fake client of cluster management add-ons

    [FakeClusterManagementAddOns] (generated by client-gen) hands every call
    to an object tracker, [c.Fake], as an action, and passes the tracker's
    answer on.  The tracker, the add-on type, list metadata, list options and
    label selectors belong to other packages; they are an interface here. *)
Module FakeClient.

Class Machinery := {
  error : Type;
  (** [v1alpha1.ClusterManagementAddOn] and its zero value. *)
  AddOn : Type;
  emptyAddOn : AddOn;
  (** [metav1.ListMeta] and its zero value. *)
  ListMeta : Type;
  emptyListMeta : ListMeta;
  (** [labels.Set(item.Labels)]. *)
  LabelSet : Type;
  LabelsOf : AddOn -> LabelSet;
  (** [labels.Selector], its method [Matches], and [labels.Everything()]. *)
  Selector : Type;
  Matches : Selector -> LabelSet -> bool;
  Everything : Selector;
  (** [metav1.ListOptions], and the label selector that
      [testing.ExtractFromListOptions] reads from them ([None]: nil). *)
  ListOptions : Type;
  ExtractFromListOptions : ListOptions -> option Selector;
  (** The other option types and [watch.Interface]. *)
  GetOptions : Type;
  CreateOptions : Type;
  UpdateOptions : Type;
  DeleteOptions : Type;
  PatchOptions : Type;
  Watcher : Type
}.

(** [metav1.TypeMeta]. *)
Record TypeMeta := { Kind : string; APIVersion : string }.

Record GroupVersionResource := { Group : string; Version : string; Resource : string }.

Record GroupVersionKind := { KGroup : string; KVersion : string; KKind : string }.

Definition clustermanagementaddonsResource : GroupVersionResource :=
  {| Group := "addon.open-cluster-management.io";
     Version := "v1alpha1";
     Resource := "clustermanagementaddons" |}.

Definition clustermanagementaddonsKind : GroupVersionKind :=
  {| KGroup := "addon.open-cluster-management.io";
     KVersion := "v1alpha1";
     KKind := "ClusterManagementAddOn" |}.

(** What a method does: it returns, or a type assertion panics. *)
Inductive Outcome (A : Type) :=
| Returns (result : A)
| Panics.
Arguments Returns {A} result.
Arguments Panics {A}.

Section Client.
Context {FM : Machinery}.

(** [v1alpha1.ClusterManagementAddOnList]. *)
Record ClusterManagementAddOnList := {
  ListTypeMeta : TypeMeta;
  ListListMeta : ListMeta;
  Items : list AddOn
}.

(** A [runtime.Object] by its dynamic type. *)
Inductive Object :=
| AddOnObject (addOn : AddOn)
| ListObject (list : ClusterManagementAddOnList)
| OtherObject.

(** The actions of package [testing] that this client builds. *)
Inductive Action :=
| RootGetAction (resource : GroupVersionResource) (name : string)
| RootListAction (resource : GroupVersionResource) (kind : GroupVersionKind)
    (opts : ListOptions)
| RootWatchAction (resource : GroupVersionResource) (opts : ListOptions)
| RootCreateAction (resource : GroupVersionResource) (object : AddOn)
| RootUpdateAction (resource : GroupVersionResource) (object : AddOn)
| RootUpdateSubresourceAction (resource : GroupVersionResource) (subresource : string)
    (object : AddOn)
| RootDeleteAction (resource : GroupVersionResource) (name : string)
| RootDeleteCollectionAction (resource : GroupVersionResource) (opts : ListOptions)
| RootPatchSubresourceAction (resource : GroupVersionResource) (name : string)
    (pt : string) (data : string) (subresources : list string).

(** The tracker: [Invokes(action, defaultReturnObj)] and [InvokesWatch]. *)
Record FakeAddonV1alpha1 := {
  Invokes : Action -> Object -> option Object * option error;
  InvokesWatch : Action -> option Watcher * option error
}.

Record FakeClusterManagementAddOns := { Fake : FakeAddonV1alpha1 }.

(** [if obj == nil { return nil, err }], then the type assertion of [obj] to
    a pointer to an add-on, returned with [err]. *)
Definition asAddOn (r : option Object * option error)
  : Outcome (option AddOn * option error) :=
  match r with
  | (None, err) => Returns (None, err)
  | (Some (AddOnObject addOn), err) => Returns (Some addOn, err)
  | (Some _, _) => Panics
  end.

(** [&v1alpha1.ClusterManagementAddOnList{}]. *)
Definition emptyList : ClusterManagementAddOnList :=
  {| ListTypeMeta := {| Kind := ""; APIVersion := "" |};
     ListListMeta := emptyListMeta;
     Items := [] |}.

(** The selector [List] filters with: that of the options, or
    [labels.Everything()] when they give none. *)
Definition selectorOf (opts : ListOptions) : Selector :=
  match ExtractFromListOptions opts with
  | None => Everything
  | Some label => label
  end.

Definition Get (c : FakeClusterManagementAddOns) (name : string) (options : GetOptions)
  : Outcome (option AddOn * option error) :=
  asAddOn (Invokes (Fake c) (RootGetAction clustermanagementaddonsResource name)
             (AddOnObject emptyAddOn)).

(** The loop of [List]: the items that match, appended one by one. *)
Fixpoint appendMatching (label : Selector) (items : list AddOn) (acc : list AddOn)
  : list AddOn :=
  match items with
  | [] => acc
  | item :: rest =>
      appendMatching label rest
        (if Matches label (LabelsOf item) then (acc ++ [item])%list else acc)
  end.

Definition List (c : FakeClusterManagementAddOns) (opts : ListOptions)
  : Outcome (option ClusterManagementAddOnList * option error) :=
  match Invokes (Fake c)
          (RootListAction clustermanagementaddonsResource clustermanagementaddonsKind opts)
          (ListObject emptyList) with
  | (None, err) => Returns (None, err)
  | (Some obj, err) =>
      let label := selectorOf opts in
      match obj with
      | ListObject objList =>
          Returns
            (Some {| ListTypeMeta := {| Kind := ""; APIVersion := "" |};
                     ListListMeta := ListListMeta objList;
                     Items := appendMatching label (Items objList) [] |},
             err)
      | _ => Panics
      end
  end.

Definition Watch (c : FakeClusterManagementAddOns) (opts : ListOptions)
  : option Watcher * option error :=
  InvokesWatch (Fake c) (RootWatchAction clustermanagementaddonsResource opts).

Definition Create (c : FakeClusterManagementAddOns) (clusterManagementAddOn : AddOn)
    (opts : CreateOptions) : Outcome (option AddOn * option error) :=
  asAddOn (Invokes (Fake c)
             (RootCreateAction clustermanagementaddonsResource clusterManagementAddOn)
             (AddOnObject emptyAddOn)).

Definition Update (c : FakeClusterManagementAddOns) (clusterManagementAddOn : AddOn)
    (opts : UpdateOptions) : Outcome (option AddOn * option error) :=
  asAddOn (Invokes (Fake c)
             (RootUpdateAction clustermanagementaddonsResource clusterManagementAddOn)
             (AddOnObject emptyAddOn)).

Definition UpdateStatus (c : FakeClusterManagementAddOns) (clusterManagementAddOn : AddOn)
    (opts : UpdateOptions) : Outcome (option AddOn * option error) :=
  asAddOn (Invokes (Fake c)
             (RootUpdateSubresourceAction clustermanagementaddonsResource "status"
                clusterManagementAddOn)
             (AddOnObject emptyAddOn)).

Definition Delete (c : FakeClusterManagementAddOns) (name : string) (opts : DeleteOptions)
  : option error :=
  snd (Invokes (Fake c) (RootDeleteAction clustermanagementaddonsResource name)
         (AddOnObject emptyAddOn)).

Definition DeleteCollection (c : FakeClusterManagementAddOns) (opts : DeleteOptions)
    (listOpts : ListOptions) : option error :=
  snd (Invokes (Fake c)
         (RootDeleteCollectionAction clustermanagementaddonsResource listOpts)
         (ListObject emptyList)).

Definition Patch (c : FakeClusterManagementAddOns) (name : string) (pt : string)
    (data : string) (opts : PatchOptions) (subresources : list string)
  : Outcome (option AddOn * option error) :=
  asAddOn (Invokes (Fake c)
             (RootPatchSubresourceAction clustermanagementaddonsResource name pt data
                subresources)
             (AddOnObject emptyAddOn)).
End Client.

(** *** A concrete tracker for examples: add-ons are a name with labels, a
    selector is one label that must be present. *)
Definition hasLabel (label : string * string) (labels : list (string * string)) : bool :=
  existsb (fun l => (fst l =? fst label) && (snd l =? snd label)) labels.

#[global] Instance simple : Machinery := {|
  error := string;
  AddOn := string * list (string * string);
  emptyAddOn := ("", []);
  ListMeta := string;
  emptyListMeta := "";
  LabelSet := list (string * string);
  LabelsOf := snd;
  Selector := option (string * string);
  Matches := fun sel labels =>
    match sel with
    | None => true
    | Some label => hasLabel label labels
    end;
  Everything := None;
  ListOptions := option (string * string);
  ExtractFromListOptions := fun opts =>
    match opts with
    | None => None
    | Some label => Some (Some label)
    end;
  GetOptions := unit;
  CreateOptions := unit;
  UpdateOptions := unit;
  DeleteOptions := unit;
  PatchOptions := unit;
  Watcher := unit
|}.

Definition threeAddOns : ClusterManagementAddOnList :=
  {| ListTypeMeta := {| Kind := "ClusterManagementAddOnList"; APIVersion := "v1alpha1" |};
     ListListMeta := "resourceVersion 7";
     Items := [ ("submariner", [("team", "net")]);
                ("observability", [("team", "obs")]);
                ("lighthouse", [("tier", "dns"); ("team", "net")]) ] |}.

(** A tracker that answers every action with the three add-ons. *)
Definition listing : FakeClusterManagementAddOns :=
  {| Fake := {| Invokes := fun _ _ => (Some (ListObject threeAddOns), None);
                InvokesWatch := fun _ => (Some tt, None) |} |}.
End FakeClient.

(** ** Proof steps *)

(** Unfold the monad of Go bodies and the logged reads. *)
Ltac run :=
  cbv beta iota zeta delta
    [func bind call ifErr ret return_ appendReason appendMessage log
     getReasons getMessages declareSlices Deployments_Get DaemonSets_Get
     Subscription_Get Submariner_Get].

(** Two states that differ by the bracketing of their appends. *)
Ltac same_state :=
  repeat match goal with s : State |- _ => destruct s end;
  cbv beta iota zeta; unfold emit, extend; simpl;
  rewrite ?app_nil_r, <- ?app_assoc; reflexivity.

(** * Properties *)

(** ** Strings *)

Lemma append_assoc (a b c : string) : (a ++ b) ++ c = a ++ (b ++ c).
Proof.
  induction a as [|ch a IH]; simpl; [reflexivity | now rewrite IH].
Qed.

Lemma append_nil_r (a : string) : a ++ "" = a.
Proof.
  induction a as [|ch a IH]; simpl; [reflexivity | now rewrite IH].
Qed.

Lemma prefix_append (a b : string) : String.prefix a (a ++ b) = true.
Proof.
  induction a as [|ch a IH]; simpl.
  - now destruct b.
  - destruct (ascii_dec ch ch) as [_|ne]; [exact IH | now destruct ne].
Qed.

Lemma Contains_here (s substr : string) :
  String.prefix substr s = true -> Contains s substr = true.
Proof.
  intros H. destruct s; cbn [Contains]; rewrite H; reflexivity.
Qed.

(** A string contains each of its infixes. *)
Lemma Contains_infix (a substr b : string) :
  Contains (a ++ substr ++ b) substr = true.
Proof.
  induction a as [|ch a IH].
  - simpl. apply Contains_here, prefix_append.
  - change (String ch a ++ substr ++ b) with (String ch (a ++ substr ++ b)).
    cbn [Contains]. rewrite IH. apply orb_true_r.
Qed.

Lemma Join_cons (x : string) (l : list string) (sep : string) :
  l <> [] -> Join (x :: l) sep = x ++ sep ++ Join l sep.
Proof.
  destruct l; [congruence | reflexivity].
Qed.

(** Two neighbours of the list are neighbours, with the separator between
    them, in the joined string. *)
Lemma Join_neighbours (pre : list string) (x y : string) (rest : list string)
    (sep : string) :
  exists a b, Join (pre ++ x :: y :: rest)%list sep = a ++ (x ++ sep ++ y) ++ b.
Proof.
  induction pre as [|p pre [a [b IH]]].
  - exists "". simpl app. rewrite Join_cons by discriminate.
    destruct rest as [|z rest].
    + exists "". simpl. now rewrite append_nil_r.
    + exists (sep ++ Join (z :: rest) sep).
      rewrite Join_cons by discriminate.
      simpl. now rewrite !append_assoc.
  - exists (p ++ sep ++ a), b.
    change ((p :: pre) ++ x :: y :: rest)%list with (p :: (pre ++ x :: y :: rest))%list.
    rewrite Join_cons by (destruct pre; discriminate).
    rewrite IH. now rewrite !append_assoc.
Qed.

Lemma Join_member (pre : list string) (x : string) (rest : list string) (sep : string) :
  exists a b, Join (pre ++ x :: rest)%list sep = a ++ x ++ b.
Proof.
  induction pre as [|p pre [a [b IH]]].
  - exists "". simpl app. destruct rest as [|z rest].
    + exists "". simpl. now rewrite append_nil_r.
    + exists (sep ++ Join (z :: rest) sep). now rewrite Join_cons by discriminate.
  - exists (p ++ sep ++ a), b.
    change ((p :: pre) ++ x :: rest)%list with (p :: (pre ++ x :: rest))%list.
    rewrite Join_cons by (destruct pre; discriminate).
    rewrite IH. now rewrite !append_assoc.
Qed.

(** ** Lists in a fixed order *)

Lemma Subseq_nil_l {A} (order : list A) : Subseq [] order.
Proof.
  induction order; constructor; assumption.
Qed.

Lemma Subseq_refl {A} (l : list A) : Subseq l l.
Proof.
  induction l; constructor; assumption.
Qed.

Lemma Subseq_app {A} (l1 o1 l2 o2 : list A) :
  Subseq l1 o1 -> Subseq l2 o2 -> Subseq (l1 ++ l2)%list (o1 ++ o2)%list.
Proof.
  induction 1; intros H2; simpl.
  - assumption.
  - apply Subseq_skip. auto.
  - apply Subseq_take. auto.
Qed.

Lemma Subseq_trans {A} (l m n : list A) :
  Subseq l m -> Subseq m n -> Subseq l n.
Proof.
  intros Hlm Hmn. revert l Hlm.
  induction Hmn; intros l' Hlm.
  - assumption.
  - constructor. auto.
  - inversion Hlm; subst; [apply Subseq_skip | apply Subseq_take]; auto.
Qed.

Lemma Subseq_In {A} (l order : list A) (x : A) :
  Subseq l order -> In x l -> In x order.
Proof.
  induction 1; simpl; intuition.
Qed.

(** ** What the checks do to the state *)

Section Footprints.
Context {AM : ApiMachinery}.
Variable c : deploymentStatusController.

Lemma emit_nil (s : State) : emit s [] [] = s.
Proof.
  destruct s. unfold emit, extend. simpl. now rewrite !app_nil_r.
Qed.

Lemma emit_emit (s : State) sigs1 cs1 sigs2 cs2 :
  emit (emit s sigs1 cs1) sigs2 cs2 = emit s (sigs1 ++ sigs2)%list (cs1 ++ cs2)%list.
Proof.
  unfold emit, extend. simpl. now rewrite !map_app, !app_assoc.
Qed.

(** [checkDeployment] reads one deployment, appends its signals and
    returns the read's error when it is not a not-found. *)
Lemma checkDeployment_run (name reasonName : string) (s : State) :
  checkDeployment c name reasonName s =
    (emit s (deploymentSignals name reasonName (deploymentLister c (namespace c) name))
       [GetDeployment (namespace c) name],
     hardError (deploymentLister c (namespace c) name)).
Proof.
  unfold checkDeployment, deploymentSignals, hardError. run.
  destruct (deploymentLister c (namespace c) name) as [err|deployment]; cbv beta iota zeta.
  - destruct (IsNotFound err); same_state.
  - destruct (Deployment.AvailableReplicas (Deployment.Status deployment) =? 0)%Z;
      same_state.
Qed.

Lemma checkGatewayDaemonSet_run (s : State) :
  checkGatewayDaemonSet c s =
    (emit s (gatewaySignals (daemonSetLister c (namespace c) gatewayName))
       [GetDaemonSet (namespace c) gatewayName],
     hardError (daemonSetLister c (namespace c) gatewayName)).
Proof.
  unfold checkGatewayDaemonSet, gatewaySignals, hardError. run.
  destruct (daemonSetLister c (namespace c) gatewayName) as [err|gateways]; cbv beta iota zeta.
  - destruct (IsNotFound err); same_state.
  - destruct (DaemonSet.DesiredNumberScheduled (DaemonSet.Status gateways) =? 0)%Z;
      destruct (DaemonSet.NumberUnavailable (DaemonSet.Status gateways) =? 0)%Z;
      same_state.
Qed.

Lemma checkRouteAgentDaemonSet_run (s : State) :
  checkRouteAgentDaemonSet c s =
    (emit s (routeAgentSignals (daemonSetLister c (namespace c) routeAgentName))
       [GetDaemonSet (namespace c) routeAgentName],
     hardError (daemonSetLister c (namespace c) routeAgentName)).
Proof.
  unfold checkRouteAgentDaemonSet, routeAgentSignals, hardError. run.
  destruct (daemonSetLister c (namespace c) routeAgentName) as [err|routeAgent]; cbv beta iota zeta.
  - destruct (IsNotFound err); same_state.
  - destruct (DaemonSet.NumberUnavailable (DaemonSet.Status routeAgent) =? 0)%Z;
      same_state.
Qed.

(** The installed-CSV test appends [installSignals] and reads nothing. *)
Lemma checkInstalledCSV_run (sub : Subscription.t) (s : State) :
  @checkInstalledCSV (option error) sub s = (emit s (installSignals sub) [], inr tt).
Proof.
  unfold checkInstalledCSV, installSignals, orDefault. run.
  destruct (Subscription.InstalledCSV (Subscription.Status sub) =? "");
    same_state.
Qed.

(** The helpers that chain checks are [andThen] chains. *)
Lemma checkDeployments_run (s : State) :
  checkDeployments c s =
    andThen (checkDeployment c operatorName "Operator")
      (andThen (checkDeployment c lighthouseAgentName "LighthouseAgent")
         (checkDeployment c lighthouseCoreDNSName "LighthouseCoreDNS")) s.
Proof.
  unfold checkDeployments, andThen. run.
  destruct (checkDeployment c operatorName "Operator" s) as [s1 [e|]]; [reflexivity|].
  destruct (checkDeployment c lighthouseAgentName "LighthouseAgent" s1) as [s2 [e|]];
    [reflexivity|].
  destruct (checkDeployment c lighthouseCoreDNSName "LighthouseCoreDNS" s2)
    as [s3 [e|]]; reflexivity.
Qed.

Lemma checkDaemonSets_run (s : State) :
  checkDaemonSets c s = andThen (checkGatewayDaemonSet c) (checkRouteAgentDaemonSet c) s.
Proof.
  unfold checkDaemonSets, andThen. run.
  destruct (checkGatewayDaemonSet c s) as [s1 [e|]]; [reflexivity|].
  destruct (checkRouteAgentDaemonSet c s1) as [s2 [e|]]; reflexivity.
Qed.

Lemma checkOptionalDeployments_run (submariner : Submariner.t) (s : State) :
  checkOptionalDeployments c submariner s =
    andThen
      (if Submariner.GlobalCIDR (Submariner.Spec submariner) =? "" then skip
       else checkDeployment c globalnetName "Globalnet")
      (if Submariner.NetworkPlugin (Submariner.Status submariner)
            =? networkPluginOVNKubernetes
       then checkDeployment c networkPluginSyncerName "NetworkPluginSyncer"
       else skip) s.
Proof.
  unfold checkOptionalDeployments, andThen, skip. run.
  destruct (Submariner.GlobalCIDR (Submariner.Spec submariner) =? "");
    destruct (Submariner.NetworkPlugin (Submariner.Status submariner)
                =? networkPluginOVNKubernetes);
    cbn [negb]; cbv beta iota zeta;
    repeat match goal with
      | |- context [checkDeployment c ?n ?r ?s0] =>
          destruct (checkDeployment c n r s0) as [? [?|]]; cbv beta iota zeta
      end;
    reflexivity.
Qed.
End Footprints.

Section PassStructure.
Context {AM : ApiMachinery}.
Variable c : deploymentStatusController.

Lemma getSubmariner_run (queueKey : string) (s : State) :
  getSubmariner c queueKey s =
    (emit s [] [configRead queueKey],
     match theSubmariner c queueKey with
     | inr submariner => (Some submariner, None)
     | inl err =>
         (None,
          if notFound (submarinerLister c (fst (SplitMetaNamespaceKey queueKey))
                         (snd (SplitMetaNamespaceKey queueKey)))
          then None else Some err)
     end).
Proof.
  unfold getSubmariner, theSubmariner, configRead, decode, notFound.
  destruct (SplitMetaNamespaceKey queueKey) as [ns name]. run. cbn [fst snd].
  assert (Hs : forall cl,
             {| degradedConditionReasons := degradedConditionReasons s;
                degradedConditionMessages := degradedConditionMessages s;
                calls := (calls s ++ [cl])%list |} = emit s [] [cl]).
  { intros cl. unfold emit, extend. simpl. now rewrite !app_nil_r. }
  rewrite Hs.
  destruct (submarinerLister c ns name) as [err|o]; cbv beta iota zeta.
  - destruct (IsNotFound err); reflexivity.
  - destruct (ToUnstructured o) as [err|u]; [reflexivity|].
    destruct (SubmarinerFromUnstructured u) as [err|submariner]; reflexivity.
Qed.

(** [sync], exit by exit. *)
Lemma sync_run (queueKey : string) (s : State) :
  sync c queueKey s =
    let s1 := emit (fresh s) [] [GetSubscription (namespace c) subscriptionName] in
    match theSubscription c with
    | inl err =>
        (s1, if notFound (subscriptionLister c (namespace c) subscriptionName)
             then None else Some err)
    | inr sub =>
        match andThen (checkDeployments c) (checkDaemonSets c)
                (emit s1 (installSignals sub) []) with
        | (s2, Some err) => (s2, Some err)
        | (s2, None) =>
            let s3 := emit s2 [] [configRead queueKey] in
            match theSubmariner c queueKey with
            | inl err =>
                (s3, if notFound (submarinerLister c
                                    (fst (SplitMetaNamespaceKey queueKey))
                                    (snd (SplitMetaNamespaceKey queueKey)))
                     then None else Some err)
            | inr submariner =>
                match checkOptionalDeployments c submariner s3 with
                | (s4, Some err) => (s4, Some err)
                | (s4, None) => publish c sub s4
                end
            end
        end
    end.
Proof.
  unfold sync, theSubscription, decode, notFound, andThen. run.
  assert (Hs : {| degradedConditionReasons :=
                    degradedConditionReasons (fresh s);
                  degradedConditionMessages :=
                    degradedConditionMessages (fresh s);
                  calls := (calls (fresh s)
                              ++ [GetSubscription (namespace c) subscriptionName])%list |}
               = emit (fresh s) [] [GetSubscription (namespace c) subscriptionName]).
  { reflexivity. }
  change {| degradedConditionReasons := [];
            degradedConditionMessages := [];
            calls := calls s |} with (fresh s).
  rewrite Hs.
  set (s1 := emit (fresh s) [] [GetSubscription (namespace c) subscriptionName]).
  destruct (subscriptionLister c (namespace c) subscriptionName) as [err|o];
    cbv beta iota zeta.
  { destruct (IsNotFound err); reflexivity. }
  destruct (ToUnstructured o) as [err|u]; [reflexivity|].
  destruct (SubscriptionFromUnstructured u) as [err|sub]; [reflexivity|].
  rewrite checkInstalledCSV_run.
  destruct (checkDeployments c (emit s1 (installSignals sub) [])) as [s2 [err|]];
    [reflexivity|].
  destruct (checkDaemonSets c s2) as [s3 [err|]]; [reflexivity|].
  rewrite getSubmariner_run.
  destruct (theSubmariner c queueKey) as [err|submariner]; [reflexivity|].
  destruct (checkOptionalDeployments c submariner (emit s3 [] [configRead queueKey]))
    as [s4 [err|]]; [reflexivity|].
  unfold publish.
  assert (Hp : forall cl,
             {| degradedConditionReasons := degradedConditionReasons s4;
                degradedConditionMessages := degradedConditionMessages s4;
                calls := (calls s4 ++ [cl])%list |} = emit s4 [] [cl]).
  { intros cl. unfold emit, extend. simpl. now rewrite !app_nil_r. }
  rewrite Hp.
  destruct (addOnClient c (clusterName c)
              (submarinerAgentCondtion sub (degradedConditionReasons s4)
                 (degradedConditionMessages s4))) as [err|[conds updated]].
  - reflexivity.
  - destruct updated; f_equal; unfold emit, extend; simpl;
      rewrite ?app_nil_r, <- ?app_assoc; reflexivity.
Qed.
End PassStructure.

Section Effects.
Context {AM : ApiMachinery}.
Variable c : deploymentStatusController.

Lemma andThen_ext (f f' g g' : State -> State * option error) :
  (forall s, f s = f' s) -> (forall s, g s = g' s) ->
  forall s, andThen f g s = andThen f' g' s.
Proof.
  intros Hf Hg s. unfold andThen. rewrite Hf.
  destruct (f' s) as [s1 [e|]]; [reflexivity | apply Hg].
Qed.

Lemma Effect_ext order reads f g :
  (forall s, f s = g s) -> Effect c order reads f -> Effect c order reads g.
Proof.
  intros Hfg Hf s. rewrite <- Hfg. apply Hf.
Qed.

Lemma Effect_skip : Effect c [] [] skip.
Proof.
  intros s. exists [], []. unfold skip. simpl.
  rewrite emit_nil. repeat split; constructor.
Qed.

Lemma Effect_andThen order1 reads1 order2 reads2 f g :
  Effect c order1 reads1 f -> Effect c order2 reads2 g ->
  Effect c (order1 ++ order2)%list (reads1 ++ reads2)%list (andThen f g).
Proof.
  intros Hf Hg s.
  destruct (Hf s) as (sigs1 & cs1 & E1 & O1 & R1 & F1).
  unfold andThen. destruct (f s) as [s1 [e|]]; simpl in E1, F1; subst s1.
  - exists sigs1, cs1. simpl. repeat split.
    + rewrite <- (app_nil_r (map fst sigs1)).
      apply Subseq_app; [assumption | apply Subseq_nil_l].
    + rewrite <- (app_nil_r cs1).
      apply Subseq_app; [assumption | apply Subseq_nil_l].
    + assumption.
  - destruct (Hg (emit s sigs1 cs1)) as (sigs2 & cs2 & E2 & O2 & R2 & F2).
    exists (sigs1 ++ sigs2)%list, (cs1 ++ cs2)%list. repeat split.
    + rewrite E2. apply emit_emit.
    + rewrite map_app. now apply Subseq_app.
    + now apply Subseq_app.
    + apply Forall_app. split; [|assumption].
      eapply Forall_impl; [|exact F1].
      intros cl H e He. specialize (H e He). discriminate.
Qed.

Lemma deploymentSignals_order (name reasonName : string) r :
  Subseq (map fst (deploymentSignals name reasonName r))
    ["No" ++ reasonName ++ "Deployment"; "No" ++ reasonName ++ "Available"].
Proof.
  unfold deploymentSignals.
  destruct r as [err|d];
    [destruct (IsNotFound err)
    |destruct (Deployment.AvailableReplicas (Deployment.Status d) =? 0)%Z];
    cbn [map fst].
  - apply Subseq_take, Subseq_nil_l.
  - apply Subseq_nil_l.
  - apply Subseq_skip, Subseq_take, Subseq_nil.
  - apply Subseq_nil_l.
Qed.

Lemma gatewaySignals_order r :
  Subseq (map fst (gatewaySignals r))
    ["NoGatewayDaemonSet"; "NoScheduledGateways"; "GatewaysUnavailable"].
Proof.
  unfold gatewaySignals.
  destruct r as [err|d];
    [destruct (IsNotFound err)
    |destruct (DaemonSet.DesiredNumberScheduled (DaemonSet.Status d) =? 0)%Z;
     destruct (DaemonSet.NumberUnavailable (DaemonSet.Status d) =? 0)%Z];
    cbn [map fst List.app].
  - apply Subseq_take, Subseq_nil_l.
  - apply Subseq_nil_l.
  - apply Subseq_skip, Subseq_take, Subseq_nil_l.
  - apply Subseq_skip, Subseq_take, Subseq_take, Subseq_nil.
  - apply Subseq_nil_l.
  - apply Subseq_skip, Subseq_skip, Subseq_take, Subseq_nil.
Qed.

Lemma routeAgentSignals_order r :
  Subseq (map fst (routeAgentSignals r))
    ["NoRouteAgentDaemonSet"; "RouteAgentsUnavailable"].
Proof.
  unfold routeAgentSignals.
  destruct r as [err|d];
    [destruct (IsNotFound err)
    |destruct (DaemonSet.NumberUnavailable (DaemonSet.Status d) =? 0)%Z];
    cbn [map fst].
  - apply Subseq_take, Subseq_nil_l.
  - apply Subseq_nil_l.
  - apply Subseq_nil_l.
  - apply Subseq_skip, Subseq_take, Subseq_nil.
Qed.

Lemma requiredSignals_order : Subseq (map fst (requiredSignals c)) requiredOrder.
Proof.
  unfold requiredSignals. rewrite !map_app.
  apply (Subseq_app _ ["NoOperatorDeployment"; "NoOperatorAvailable"]);
    [apply (deploymentSignals_order operatorName "Operator")|].
  apply (Subseq_app _ ["NoLighthouseAgentDeployment"; "NoLighthouseAgentAvailable"]);
    [apply (deploymentSignals_order lighthouseAgentName "LighthouseAgent")|].
  apply (Subseq_app _ ["NoLighthouseCoreDNSDeployment"; "NoLighthouseCoreDNSAvailable"]);
    [apply (deploymentSignals_order lighthouseCoreDNSName "LighthouseCoreDNS")|].
  apply (Subseq_app _ ["NoGatewayDaemonSet"; "NoScheduledGateways"; "GatewaysUnavailable"]);
    [apply gatewaySignals_order | apply routeAgentSignals_order].
Qed.

Lemma optionalSignals_order (submariner : Submariner.t) :
  Subseq (map fst (optionalSignals c submariner)) (optionalOrder submariner).
Proof.
  unfold optionalSignals, optionalOrder. rewrite map_app.
  apply Subseq_app.
  - destruct (Submariner.GlobalCIDR (Submariner.Spec submariner) =? "");
      [apply Subseq_nil | apply (deploymentSignals_order globalnetName "Globalnet")].
  - destruct (Submariner.NetworkPlugin (Submariner.Status submariner)
                =? networkPluginOVNKubernetes);
      [apply (deploymentSignals_order networkPluginSyncerName "NetworkPluginSyncer")
      |apply Subseq_nil].
Qed.

Lemma Effect_checkDeployment (name reasonName : string) :
  Effect c ["No" ++ reasonName ++ "Deployment"; "No" ++ reasonName ++ "Available"]
    [GetDeployment (namespace c) name]
    (checkDeployment c name reasonName).
Proof.
  intros s. rewrite checkDeployment_run.
  exists (deploymentSignals name reasonName (deploymentLister c (namespace c) name)),
    [GetDeployment (namespace c) name].
  repeat split.
  - apply deploymentSignals_order.
  - apply Subseq_refl.
  - constructor; [|constructor]. intros e He. exact He.
Qed.

Lemma Effect_checkGatewayDaemonSet :
  Effect c ["NoGatewayDaemonSet"; "NoScheduledGateways"; "GatewaysUnavailable"]
    [GetDaemonSet (namespace c) gatewayName]
    (checkGatewayDaemonSet c).
Proof.
  intros s. rewrite checkGatewayDaemonSet_run.
  exists (gatewaySignals (daemonSetLister c (namespace c) gatewayName)),
    [GetDaemonSet (namespace c) gatewayName].
  repeat split.
  - apply gatewaySignals_order.
  - apply Subseq_refl.
  - constructor; [|constructor]. intros e He. exact He.
Qed.

Lemma Effect_checkRouteAgentDaemonSet :
  Effect c ["NoRouteAgentDaemonSet"; "RouteAgentsUnavailable"]
    [GetDaemonSet (namespace c) routeAgentName]
    (checkRouteAgentDaemonSet c).
Proof.
  intros s. rewrite checkRouteAgentDaemonSet_run.
  exists (routeAgentSignals (daemonSetLister c (namespace c) routeAgentName)),
    [GetDaemonSet (namespace c) routeAgentName].
  repeat split.
  - apply routeAgentSignals_order.
  - apply Subseq_refl.
  - constructor; [|constructor]. intros e He. exact He.
Qed.

(** The required checks: three deployments, then two daemon sets. *)
Lemma Effect_required :
  Effect c requiredOrder (requiredReads c)
    (andThen (checkDeployments c) (checkDaemonSets c)).
Proof.
  eapply Effect_ext with
    (f := andThen
            (andThen (checkDeployment c operatorName "Operator")
               (andThen (checkDeployment c lighthouseAgentName "LighthouseAgent")
                  (checkDeployment c lighthouseCoreDNSName "LighthouseCoreDNS")))
            (andThen (checkGatewayDaemonSet c) (checkRouteAgentDaemonSet c))).
  - apply andThen_ext; intros s; symmetry;
      [apply checkDeployments_run | apply checkDaemonSets_run].
  - exact (Effect_andThen _ _ _ _ _ _
             (Effect_andThen _ _ _ _ _ _
                (Effect_checkDeployment operatorName "Operator")
                (Effect_andThen _ _ _ _ _ _
                   (Effect_checkDeployment lighthouseAgentName "LighthouseAgent")
                   (Effect_checkDeployment lighthouseCoreDNSName "LighthouseCoreDNS")))
             (Effect_andThen _ _ _ _ _ _
                Effect_checkGatewayDaemonSet Effect_checkRouteAgentDaemonSet)).
Qed.

(** The conditional checks a configuration resource enables. *)
Lemma Effect_optional (submariner : Submariner.t) :
  Effect c (optionalOrder submariner) (optionalReads c submariner)
    (checkOptionalDeployments c submariner).
Proof.
  eapply Effect_ext; [intros s; symmetry; apply checkOptionalDeployments_run|].
  unfold optionalOrder, optionalReads.
  apply Effect_andThen.
  - destruct (Submariner.GlobalCIDR (Submariner.Spec submariner) =? "").
    + apply Effect_skip.
    + apply (Effect_checkDeployment globalnetName "Globalnet").
  - destruct (Submariner.NetworkPlugin (Submariner.Status submariner)
                =? networkPluginOVNKubernetes).
    + apply (Effect_checkDeployment networkPluginSyncerName "NetworkPluginSyncer").
    + apply Effect_skip.
Qed.

(** When no required read fails, the required checks append exactly
    [requiredSignals] and make every required read. *)
Lemma required_ok (s : State) :
  match andThen (checkDeployments c) (checkDaemonSets c) s with
  | (s', None) =>
      s' = emit s (requiredSignals c) (requiredReads c) /\
      Forall (fun cl => readError c cl = None) (requiredReads c)
  | (_, Some _) => True
  end.
Proof.
  rewrite (andThen_ext _
             (andThen (checkDeployment c operatorName "Operator")
                (andThen (checkDeployment c lighthouseAgentName "LighthouseAgent")
                   (checkDeployment c lighthouseCoreDNSName "LighthouseCoreDNS")))
             _ (andThen (checkGatewayDaemonSet c) (checkRouteAgentDaemonSet c))
             (checkDeployments_run c) (checkDaemonSets_run c)).
  unfold andThen.
  rewrite checkDeployment_run.
  destruct (hardError (deploymentLister c (namespace c) operatorName)) eqn:E1;
    [exact I|]; cbv beta iota zeta.
  rewrite checkDeployment_run.
  destruct (hardError (deploymentLister c (namespace c) lighthouseAgentName)) eqn:E2;
    [exact I|]; cbv beta iota zeta.
  rewrite checkDeployment_run.
  destruct (hardError (deploymentLister c (namespace c) lighthouseCoreDNSName)) eqn:E3;
    [exact I|]; cbv beta iota zeta.
  rewrite checkGatewayDaemonSet_run.
  destruct (hardError (daemonSetLister c (namespace c) gatewayName)) eqn:E4;
    [exact I|]; cbv beta iota zeta.
  rewrite checkRouteAgentDaemonSet_run.
  destruct (hardError (daemonSetLister c (namespace c) routeAgentName)) eqn:E5;
    [exact I|]; cbv beta iota zeta.
  split.
  - rewrite !emit_emit. unfold requiredSignals, requiredReads.
    rewrite <- ?app_assoc. reflexivity.
  - unfold requiredReads. repeat constructor; assumption.
Qed.

Lemma optional_ok (submariner : Submariner.t) (s : State) :
  match checkOptionalDeployments c submariner s with
  | (s', None) =>
      s' = emit s (optionalSignals c submariner) (optionalReads c submariner) /\
      Forall (fun cl => readError c cl = None) (optionalReads c submariner)
  | (_, Some _) => True
  end.
Proof.
  rewrite checkOptionalDeployments_run.
  unfold andThen, skip, optionalSignals, optionalReads.
  destruct (Submariner.GlobalCIDR (Submariner.Spec submariner) =? "");
    destruct (Submariner.NetworkPlugin (Submariner.Status submariner)
                =? networkPluginOVNKubernetes);
    rewrite ?checkDeployment_run; cbv beta iota zeta.
  - destruct (hardError (deploymentLister c (namespace c) networkPluginSyncerName))
      eqn:E2; [exact I|]; cbv beta iota zeta.
    split; [reflexivity | repeat constructor; assumption].
  - split; [now rewrite emit_nil | constructor].
  - destruct (hardError (deploymentLister c (namespace c) globalnetName)) eqn:E1;
      [exact I|]; cbv beta iota zeta.
    rewrite ?checkDeployment_run.
    destruct (hardError (deploymentLister c (namespace c) networkPluginSyncerName))
      eqn:E2; [exact I|]; cbv beta iota zeta.
    split; [now rewrite emit_emit | repeat constructor; assumption].
  - destruct (hardError (deploymentLister c (namespace c) globalnetName)) eqn:E1;
      [exact I|]; cbv beta iota zeta.
    split; [now rewrite app_nil_r | repeat constructor; assumption].
Qed.
End Effects.

Section PassSummary.
Context {AM : ApiMachinery}.
Variable c : deploymentStatusController.

Lemma decode_found {A} (from : Unstructured -> error + A) r a :
  decode from r = inr a -> hardError r = None /\ notFound r = false.
Proof.
  destruct r; simpl; [discriminate | auto].
Qed.

Lemma decode_failed {A} (from : Unstructured -> error + A) r e :
  hardError r = Some e -> decode from r = inl e /\ notFound r = false.
Proof.
  destruct r as [err|o]; simpl; [|discriminate].
  destruct (IsNotFound err); [discriminate|].
  intros [= ->]. auto.
Qed.

Lemma Subseq_install (sub : Subscription.t) :
  Subseq (map fst (installSignals sub)) ["CSVNotInstalled"].
Proof.
  unfold installSignals.
  destruct (Subscription.InstalledCSV (Subscription.Status sub) =? "");
    cbn [map fst]; [apply Subseq_refl | apply Subseq_nil_l].
Qed.

Lemma emit_init sigs cs :
  emit init sigs cs =
    {| degradedConditionReasons := map fst sigs;
       degradedConditionMessages := map snd sigs;
       calls := cs |}.
Proof. reflexivity. Qed.

(** The shape of every pass: the signals follow the pipeline order and
    start with those of the installed-CSV test, the reads come first and in
    program order, a read that fails with an error other than not-found
    ends the pass with that error, and whatever follows the reads is one
    status update, built from the signals of all the checks, and at most
    one event. *)
Lemma pass_summary (queueKey : string) :
  exists sigs reads tail,
    fst (pass c queueKey) = emit init sigs (reads ++ tail)%list /\
    Subseq (map fst sigs) (passOrder c queueKey) /\
    Subseq reads (passReads c queueKey) /\
    Forall (fun cl => forall e, readError c cl = Some e ->
                                snd (pass c queueKey) = Some e /\ tail = []) reads /\
    (forall sub, theSubscription c = inr sub ->
                 exists rest, sigs = (installSignals sub ++ rest)%list) /\
    (tail = [] \/
     exists sub submariner evs,
       theSubscription c = inr sub /\
       theSubmariner c queueKey = inr submariner /\
       sigs = allSignals c sub submariner /\
       reads = passReads c queueKey /\
       tail = UpdateStatus (clusterName c)
                (submarinerAgentCondtion sub (map fst sigs) (map snd sigs)) :: evs /\
       (evs = [] \/
        exists conds, evs = [Eventf "ManagedClusterAddOnStatusUpdated" conds])).
Proof.
  unfold pass. rewrite sync_run. cbv zeta.
  change (fresh init) with init.
  unfold passOrder, passReads.
  set (sread := GetSubscription (namespace c) subscriptionName).
  assert (Hsread : readError c sread
                   = hardError (subscriptionLister c (namespace c) subscriptionName))
    by reflexivity.
  assert (Hcread : readError c (configRead queueKey)
                   = hardError (submarinerLister c
                                  (fst (SplitMetaNamespaceKey queueKey))
                                  (snd (SplitMetaNamespaceKey queueKey))))
    by reflexivity.
  destruct (theSubscription c) as [err|sub] eqn:Hsub.
  { (* the subscription is not there or unreadable *)
    exists [], [sread], []. repeat split.
    - apply Subseq_nil_l.
    - apply Subseq_take, Subseq_nil_l.
    - constructor; [|constructor]. intros e He. rewrite Hsread in He.
      destruct (decode_failed SubscriptionFromUnstructured _ _ He) as [Hd Hn].
      unfold theSubscription in Hsub. rewrite Hd in Hsub.
      injection Hsub as <-. cbn [snd]. rewrite Hn. auto.
    - discriminate.
    - now left. }
  destruct (decode_found _ _ _ Hsub) as [Hsok _].
  assert (Hpre : forall rest sub',
             @inr error _ sub = inr sub' ->
             exists rest', (installSignals sub ++ rest)%list
                           = (installSignals sub' ++ rest')%list).
  { intros rest sub' [= <-]. now exists rest. }
  set (s1 := emit (emit init [] [sread]) (installSignals sub) []).
  destruct (andThen (checkDeployments c) (checkDaemonSets c) s1)
    as [s2 [err|]] eqn:Hreq.
  { (* a required check failed *)
    destruct (Effect_required c s1) as (sigs & cs & E & O & R & F).
    rewrite Hreq in E, F. cbn [fst snd] in E, F. subst s2 s1.
    exists (installSignals sub ++ sigs)%list, (sread :: cs), []. repeat split.
    - cbn [fst]. rewrite !emit_emit. now rewrite !app_nil_r.
    - rewrite map_app.
      apply (Subseq_app _ ["CSVNotInstalled"]); [apply Subseq_install|].
      rewrite <- (app_nil_r (map fst sigs)).
      apply Subseq_app; [assumption | apply Subseq_nil_l].
    - apply Subseq_take. rewrite <- (app_nil_r cs).
      apply Subseq_app; [assumption | apply Subseq_nil_l].
    - constructor.
      + intros e He. congruence.
      + eapply Forall_impl; [|exact F]. cbn [snd]. auto.
    - apply Hpre.
    - now left. }
  pose proof (required_ok c s1) as Hok. rewrite Hreq in Hok.
  destruct Hok as [-> Freq]. subst s1.
  set (sigs := requiredSignals c). set (cs := requiredReads c).
  assert (O : Subseq (map fst sigs) requiredOrder) by apply requiredSignals_order.
  assert (Fcs : Forall (fun cl => forall e, readError c cl = Some e -> False) cs).
  { eapply Forall_impl; [|exact Freq]. intros cl H e He. congruence. }
  destruct (theSubmariner c queueKey) as [err|submariner] eqn:Hcfg.
  { (* the configuration resource is not there or unreadable *)
    exists (installSignals sub ++ sigs)%list, (sread :: cs ++ [configRead queueKey])%list, [].
    repeat split.
    - cbn [fst]. rewrite !emit_emit. now rewrite !app_nil_r.
    - rewrite map_app.
      apply (Subseq_app _ ["CSVNotInstalled"]); [apply Subseq_install|].
      rewrite <- (app_nil_r (map fst sigs)).
      apply Subseq_app; [assumption | apply Subseq_nil_l].
    - apply Subseq_take, Subseq_app; [apply Subseq_refl|].
      apply Subseq_take, Subseq_nil.
    - constructor; [intros e He; congruence|].
      apply Forall_app. split.
      + eapply Forall_impl; [|exact Fcs]. intros cl H e He. destruct (H e He).
      + constructor; [|constructor]. intros e He. rewrite Hcread in He.
        destruct (decode_failed SubmarinerFromUnstructured _ _ He) as [Hd Hn].
        unfold theSubmariner in Hcfg. rewrite Hd in Hcfg.
        injection Hcfg as <-. cbn [snd]. rewrite Hn. auto.
    - apply Hpre.
    - now left. }
  destruct (decode_found _ _ _ Hcfg) as [Hcok _].
  set (s3 := emit (emit (emit (emit init [] [sread]) (installSignals sub) []) sigs cs)
               [] [configRead queueKey]).
  destruct (checkOptionalDeployments c submariner s3) as [s4 [err|]] eqn:Hopt.
  { (* a conditional check failed *)
    destruct (Effect_optional c submariner s3) as (sigs' & cs' & E' & O' & R' & F').
    rewrite Hopt in E', F'. cbn [fst snd] in E', F'. subst s4 s3.
    exists (installSignals sub ++ sigs ++ sigs')%list,
      (sread :: cs ++ configRead queueKey :: cs')%list, [].
    repeat split.
    - cbn [fst]. rewrite !emit_emit. rewrite ?app_nil_r. cbn [List.app].
      rewrite <- ?app_assoc; reflexivity.
    - rewrite !map_app.
      apply (Subseq_app _ ["CSVNotInstalled"]); [apply Subseq_install|].
      now apply Subseq_app.
    - apply Subseq_take, Subseq_app; [apply Subseq_refl|]. now apply Subseq_take.
    - constructor; [intros e He; congruence|].
      apply Forall_app. split.
      + eapply Forall_impl; [|exact Fcs]. intros cl H e He. destruct (H e He).
      + constructor; [intros e He; congruence|].
        eapply Forall_impl; [|exact F']. cbn [snd]. auto.
    - intros sub' Hsub'. rewrite app_assoc. rewrite <- app_assoc. now apply Hpre.
    - now left. }
  (* all checks passed: the condition is published *)
  pose proof (optional_ok c submariner s3) as Hok. rewrite Hopt in Hok.
  destruct Hok as [-> Fopt].
  assert (Hstate :
            emit s3 (optionalSignals c submariner) (optionalReads c submariner)
            = emit init (allSignals c sub submariner)
                (sread :: cs ++ configRead queueKey :: optionalReads c submariner)%list).
  { subst s3. rewrite !emit_emit. rewrite ?app_nil_r. cbn [List.app].
    unfold allSignals. rewrite <- ?app_assoc; reflexivity. }
  rewrite Hstate. unfold publish.
  set (sigs0 := allSignals c sub submariner).
  set (reads := (sread :: cs ++ configRead queueKey :: optionalReads c submariner)%list).
  assert (Hreads : Forall (fun cl => forall e, readError c cl = Some e -> False) reads).
  { subst reads. constructor; [intros e He; congruence|].
    apply Forall_app. split; [assumption|].
    constructor; [intros e He; congruence|].
    eapply Forall_impl; [|exact Fopt]. intros cl H e He. congruence. }
  assert (Horder : Subseq (map fst sigs0)
                     ("CSVNotInstalled" :: requiredOrder ++ optionalOrder submariner)).
  { subst sigs0. unfold allSignals. rewrite !map_app.
    apply (Subseq_app _ ["CSVNotInstalled"]); [apply Subseq_install|].
    apply Subseq_app; [assumption | apply optionalSignals_order]. }
  change (degradedConditionReasons (emit init sigs0 reads)) with (map fst sigs0).
  change (degradedConditionMessages (emit init sigs0 reads)) with (map snd sigs0).
  set (cond := submarinerAgentCondtion sub (map fst sigs0) (map snd sigs0)).
  destruct (addOnClient c (clusterName c) cond) as [err|[conds updated]].
  - exists sigs0, reads, [UpdateStatus (clusterName c) cond]. repeat split; trivial.
    + cbn [fst]. rewrite emit_emit. now rewrite app_nil_r.
    + apply Subseq_refl.
    + eapply Forall_impl; [|exact Hreads]. intros cl H e He. destruct (H e He).
    + intros sub' Hsub'. apply Hpre. assumption.
    + right. exists sub, submariner, []. auto 10.
  - exists sigs0, reads,
      (UpdateStatus (clusterName c) cond
         :: if updated
            then [Eventf "ManagedClusterAddOnStatusUpdated" conds] else []).
    repeat split; trivial.
    + cbn [fst]. rewrite emit_emit. now rewrite app_nil_r.
    + apply Subseq_refl.
    + eapply Forall_impl; [|exact Hreads]. intros cl H e He. destruct (H e He).
    + intros sub' Hsub'. apply Hpre. assumption.
    + right. exists sub, submariner,
        (if updated then [Eventf "ManagedClusterAddOnStatusUpdated" conds] else []).
      repeat split; trivial.
      destruct updated; [right; eauto | now left].
Qed.
End PassSummary.

(** ** Reading the log of a pass *)

Section Log.
Context {AM : ApiMachinery}.
Variable c : deploymentStatusController.

Lemma optionalReads_isRead (submariner : Submariner.t) (cl : Call) :
  In cl (optionalReads c submariner) -> isRead cl = true.
Proof.
  unfold optionalReads.
  destruct (Submariner.GlobalCIDR (Submariner.Spec submariner) =? "");
    destruct (Submariner.NetworkPlugin (Submariner.Status submariner)
                =? networkPluginOVNKubernetes);
    simpl; intuition (subst; reflexivity).
Qed.

Lemma passReads_isRead (queueKey : string) (cl : Call) :
  In cl (passReads c queueKey) -> isRead cl = true.
Proof.
  unfold passReads, requiredReads. simpl.
  intros [<-|[<-|[<-|[<-|[<-|[<-|[<-|H]]]]]]]; try reflexivity.
  destruct (theSubmariner c queueKey); [destruct H|].
  eapply optionalReads_isRead; eassumption.
Qed.

Lemma published_app (cs1 cs2 : list Call) :
  published (cs1 ++ cs2)%list = (published cs1 ++ published cs2)%list.
Proof.
  induction cs1 as [|cl cs1 IH]; [reflexivity|].
  destruct cl; simpl; now rewrite IH.
Qed.

Lemma published_reads (cs : list Call) :
  (forall cl, In cl cs -> isRead cl = true) -> published cs = [].
Proof.
  induction cs as [|cl cs IH]; intros H; [reflexivity|].
  assert (Hcl : isRead cl = true) by (apply H; now left).
  destruct cl; try discriminate; simpl; apply IH; intros; apply H; now right.
Qed.

(** A status update found in the log of a pass is the condition built from
    the signals of all the checks, each of which has run to its end. *)
Lemma pass_published (queueKey cn : string) (cond : Condition) :
  In (UpdateStatus cn cond) (calls (fst (pass c queueKey))) ->
  exists sub submariner,
    theSubscription c = inr sub /\
    theSubmariner c queueKey = inr submariner /\
    degradedConditionReasons (fst (pass c queueKey))
      = map fst (allSignals c sub submariner) /\
    degradedConditionMessages (fst (pass c queueKey))
      = map snd (allSignals c sub submariner) /\
    cn = clusterName c /\
    cond = submarinerAgentCondtion sub
             (map fst (allSignals c sub submariner))
             (map snd (allSignals c sub submariner)).
Proof.
  destruct (pass_summary c queueKey)
    as (sigs & reads & tail & E & _ & R & _ & _ & T).
  rewrite E. rewrite emit_init. cbn [calls degradedConditionReasons
                                      degradedConditionMessages].
  intros H. apply in_app_or in H. destruct H as [H|H].
  - apply (Subseq_In _ _ _ R), passReads_isRead in H. discriminate.
  - destruct T as [->|(sub & submariner & evs & Hs & Hc & -> & _ & -> & Hev)];
      [destruct H|].
    exists sub, submariner. destruct H as [H|H].
    + injection H as <- <-. auto 10.
    + destruct Hev as [->|[conds ->]]; [destruct H|].
      destruct H as [H|[]]; discriminate.
Qed.

(** The condition of a pass with signals, and of one without. *)
Lemma condition_degraded (sub : Subscription.t) (rs ms : list string) :
  rs <> [] ->
  submarinerAgentCondtion sub rs ms =
    {| Type_ := "SubmarinerAgentDegraded";
       Status := ConditionTrue;
       Reason := Join rs ",";
       Message := Join ms (String "010"%char EmptyString) |}.
Proof.
  destruct rs; [congruence | reflexivity].
Qed.

Lemma condition_deployed (sub : Subscription.t) (ms : list string) :
  submarinerAgentCondtion sub [] ms =
    {| Type_ := "SubmarinerAgentDegraded";
       Status := ConditionFalse;
       Reason := "SubmarinerAgentDeployed";
       Message := "Submariner ("
                    ++ Subscription.InstalledCSV (Subscription.Status sub)
                    ++ ") is deployed on managed cluster." |}.
Proof. reflexivity. Qed.
End Log.

(** ** The condition and the signals *)

(** C2. In every pass that hands a condition to the hub, the condition's
    status is True exactly when the collected signal list is not empty; then
    its reason is the reasons joined by commas and its message the messages
    joined by newlines; with no signal the status stays False. *)
Theorem status_true_iff_signals `{AM : ApiMachinery}
    (c : deploymentStatusController) (queueKey cn : string) (cond : Condition) :
  In (UpdateStatus cn cond) (calls (fst (pass c queueKey))) ->
  (Status cond = ConditionTrue
   <-> degradedConditionReasons (fst (pass c queueKey)) <> []) /\
  (degradedConditionReasons (fst (pass c queueKey)) <> [] ->
   Reason cond = Join (degradedConditionReasons (fst (pass c queueKey))) "," /\
   Message cond = Join (degradedConditionMessages (fst (pass c queueKey)))
                    (String "010"%char EmptyString)) /\
  (degradedConditionReasons (fst (pass c queueKey)) = [] ->
   Status cond = ConditionFalse).
Proof.
  intros H.
  destruct (pass_published c queueKey cn cond H)
    as (sub & submariner & _ & _ & -> & -> & _ & ->).
  destruct (map fst (allSignals c sub submariner)) as [|r rs] eqn:Hrs.
  - rewrite condition_deployed. cbn [Status]. repeat split; congruence.
  - rewrite condition_degraded by discriminate. cbn [Status Reason Message].
    repeat split; congruence.
Qed.

Lemma status_true_iff_signals_witness :
  In (UpdateStatus "cluster1"
        {| Type_ := "SubmarinerAgentDegraded";
           Status := ConditionTrue;
           Reason := "NoOperatorDeployment,NoLighthouseAgentAvailable";
           Message :=
             Join ["The submariner operator deployment does not exist";
                   "There are no submariner lighthouse agent replica available"]
               (String "010"%char EmptyString) |})
     (calls (fst (pass Fixture.noOperator Fixture.queueKey))) /\
  (ConditionTrue = ConditionTrue
   <-> degradedConditionReasons (fst (pass Fixture.noOperator Fixture.queueKey)) <> []).
Proof.
  assert (H : In (UpdateStatus "cluster1"
                    {| Type_ := "SubmarinerAgentDegraded";
                       Status := ConditionTrue;
                       Reason := "NoOperatorDeployment,NoLighthouseAgentAvailable";
                       Message :=
                         Join ["The submariner operator deployment does not exist";
                               "There are no submariner lighthouse agent replica available"]
                           (String "010"%char EmptyString) |})
                 (calls (fst (pass Fixture.noOperator Fixture.queueKey)))).
  { vm_compute. do 7 right. left. reflexivity. }
  split; [exact H|].
  exact (proj1 (status_true_iff_signals Fixture.noOperator Fixture.queueKey _ _ H)).
Defined.

(** C10. A gateway daemon set with no scheduled node and with unavailable
    pods yields both [NoScheduledGateways] and [GatewaysUnavailable], in that
    order, in one run of the gateway check. *)
Theorem gateway_both_signals `{AM : ApiMachinery}
    (c : deploymentStatusController) (s : State) (gateways : DaemonSet.t) :
  daemonSetLister c (namespace c) gatewayName = inr gateways ->
  DaemonSet.DesiredNumberScheduled (DaemonSet.Status gateways) = 0%Z ->
  DaemonSet.NumberUnavailable (DaemonSet.Status gateways) <> 0%Z ->
  checkGatewayDaemonSet c s =
    (extend s
       ["NoScheduledGateways"; "GatewaysUnavailable"]
       ["There are no nodes to run the gateways";
        "There are "
          ++ fmt_d (DaemonSet.NumberUnavailable (DaemonSet.Status gateways))
          ++ " unavailable gateways"]
       [GetDaemonSet (namespace c) gatewayName],
     None).
Proof.
  intros Hget Hdesired Hunavailable.
  rewrite checkGatewayDaemonSet_run, Hget.
  unfold gatewaySignals, hardError. rewrite Hdesired.
  apply Z.eqb_neq in Hunavailable. rewrite Hunavailable.
  reflexivity.
Qed.

Lemma gateway_both_signals_witness :
  checkGatewayDaemonSet Fixture.gatewaysDown init =
    ({| degradedConditionReasons := ["NoScheduledGateways"; "GatewaysUnavailable"];
        degradedConditionMessages :=
          ["There are no nodes to run the gateways";
           "There are 2 unavailable gateways"];
        calls := [GetDaemonSet "submariner-operator" "submariner-gateway"] |},
     None).
Proof.
  exact (gateway_both_signals Fixture.gatewaysDown init
           {| DaemonSet.Status :=
                {| DaemonSet.DesiredNumberScheduled := 0;
                   DaemonSet.NumberUnavailable := 2 |} |}
           eq_refl eq_refl (fun H : 2%Z = 0%Z => Z.neq_sym _ _ (Z.lt_neq 0 2 eq_refl) H)).
Defined.

(** ** Errors *)

(** C3. When a read of a pass fails with an error other than not-found, the
    pass returns that very error, hands no condition to the hub and records
    no event, whatever signals it had collected before. *)
Theorem read_error_aborts `{AM : ApiMachinery}
    (c : deploymentStatusController) (queueKey : string) (cl : Call) (err : error) :
  In cl (calls (fst (pass c queueKey))) ->
  readError c cl = Some err ->
  snd (pass c queueKey) = Some err /\
  published (calls (fst (pass c queueKey))) = [] /\
  (forall cl', In cl' (calls (fst (pass c queueKey))) -> isRead cl' = true).
Proof.
  destruct (pass_summary c queueKey)
    as (sigs & reads & tail & E & _ & R & F & _ & T).
  rewrite E, emit_init. cbn [calls].
  intros Hin Herr.
  assert (Hreads : forall cl', In cl' reads -> isRead cl' = true).
  { intros cl' H. eapply passReads_isRead, Subseq_In; eassumption. }
  apply in_app_or in Hin. destruct Hin as [Hin|Hin].
  - rewrite Forall_forall in F. destruct (F cl Hin err Herr) as [Hret ->].
    rewrite app_nil_r. auto using published_reads.
  - exfalso.
    destruct T as [->|(sub & submariner & evs & _ & _ & _ & _ & -> & Hev)];
      [destruct Hin|].
    destruct Hin as [<-|Hin]; [discriminate|].
    destruct Hev as [->|[conds ->]]; [destruct Hin|].
    destruct Hin as [<-|[]]. discriminate.
Qed.

Lemma read_error_aborts_witness :
  In (GetDaemonSet "submariner-operator" "submariner-gateway")
     (calls (fst (pass Fixture.brokenGateway Fixture.queueKey))) /\
  readError Fixture.brokenGateway
    (GetDaemonSet "submariner-operator" "submariner-gateway")
    = Some (Fixture.Internal "decode failure") /\
  snd (pass Fixture.brokenGateway Fixture.queueKey)
    = Some (Fixture.Internal "decode failure") /\
  published (calls (fst (pass Fixture.brokenGateway Fixture.queueKey))) = [].
Proof.
  assert (Hin : In (GetDaemonSet "submariner-operator" "submariner-gateway")
                  (calls (fst (pass Fixture.brokenGateway Fixture.queueKey)))).
  { vm_compute. do 4 right. left. reflexivity. }
  assert (Herr : readError Fixture.brokenGateway
                   (GetDaemonSet "submariner-operator" "submariner-gateway")
                 = Some (Fixture.Internal "decode failure")) by reflexivity.
  destruct (read_error_aborts Fixture.brokenGateway Fixture.queueKey _ _ Hin Herr)
    as (Hret & Hpub & _).
  auto.
Defined.

(** ** The two slices *)

Section LockstepLemmas.
Context {AM : ApiMachinery}.
Variable c : deploymentStatusController.

Lemma emit_Lockstep {R} (f : State -> State * R) :
  (forall s, exists sigs cs, fst (f s) = emit s sigs cs) -> Lockstep f.
Proof.
  intros H s. destruct (H s) as (sigs & cs & ->).
  exists (map fst sigs), (map snd sigs).
  repeat split. now rewrite !length_map.
Qed.

Lemma Effect_Lockstep order reads f : Effect c order reads f -> Lockstep f.
Proof.
  intros H. apply emit_Lockstep. intros s.
  destruct (H s) as (sigs & cs & E & _). eauto.
Qed.
End LockstepLemmas.

(** C9. Every check appends as many reasons as messages (one of each, two
    of each, or none), so the two slices have the same length after each
    check; at the end of a pass they are the first and the second components
    of one list of (reason, message) signals. *)
Theorem slices_in_lockstep `{AM : ApiMachinery} (c : deploymentStatusController) :
  (forall name reasonName, Lockstep (checkDeployment c name reasonName)) /\
  Lockstep (checkGatewayDaemonSet c) /\
  Lockstep (checkRouteAgentDaemonSet c) /\
  (forall sub, Lockstep (@checkInstalledCSV (option error) sub)) /\
  Lockstep (checkDeployments c) /\
  Lockstep (checkDaemonSets c) /\
  (forall submariner, Lockstep (checkOptionalDeployments c submariner)) /\
  (forall queueKey,
      List.length (degradedConditionReasons (fst (pass c queueKey)))
        = List.length (degradedConditionMessages (fst (pass c queueKey))) /\
      exists sigs,
        degradedConditionReasons (fst (pass c queueKey)) = map fst sigs /\
        degradedConditionMessages (fst (pass c queueKey)) = map snd sigs).
Proof.
  repeat split.
  - intros name reasonName. eapply Effect_Lockstep, Effect_checkDeployment.
  - eapply Effect_Lockstep, Effect_checkGatewayDaemonSet.
  - eapply Effect_Lockstep, Effect_checkRouteAgentDaemonSet.
  - intros sub. apply emit_Lockstep. intros s.
    rewrite checkInstalledCSV_run. cbn [fst]. eauto.
  - eapply Effect_Lockstep, Effect_ext;
      [intros s; symmetry; apply checkDeployments_run|].
    apply Effect_andThen; [|apply Effect_andThen]; apply Effect_checkDeployment.
  - eapply Effect_Lockstep, Effect_ext;
      [intros s; symmetry; apply checkDaemonSets_run|].
    apply Effect_andThen;
      [apply Effect_checkGatewayDaemonSet | apply Effect_checkRouteAgentDaemonSet].
  - intros submariner. eapply Effect_Lockstep, Effect_optional.
  - destruct (pass_summary c queueKey) as (sigs & reads & tail & -> & _).
    rewrite emit_init. cbn [degradedConditionReasons degradedConditionMessages].
    now rewrite !length_map.
  - destruct (pass_summary c queueKey) as (sigs & reads & tail & -> & _).
    exists sigs. now rewrite emit_init.
Qed.

(** ** Silent exits *)

Section SilentExits.
Context {AM : ApiMachinery}.
Variable c : deploymentStatusController.

Lemma notFound_decode {A} (from : Unstructured -> error + A) r :
  notFound r = true -> exists err, decode from r = inl err.
Proof.
  destruct r as [err|o]; simpl; [eauto | discriminate].
Qed.

Lemma requiredReads_no_config (queueKey : string) :
  ~ In (configRead queueKey) (requiredReads c).
Proof.
  unfold requiredReads, configRead. simpl. intuition discriminate.
Qed.

(** The subscription is not found: nothing but its read happens. *)
Lemma pass_no_subscription (queueKey : string) :
  notFound (subscriptionLister c (namespace c) subscriptionName) = true ->
  pass c queueKey =
    ({| degradedConditionReasons := [];
        degradedConditionMessages := [];
        calls := [GetSubscription (namespace c) subscriptionName] |}, None).
Proof.
  intros H. unfold pass. rewrite sync_run. cbv zeta.
  destruct (notFound_decode SubscriptionFromUnstructured _ H) as [err Hd].
  unfold theSubscription. rewrite Hd, H. reflexivity.
Qed.

(** The lookup of the configuration resource is reached and reports
    not-found: the pass has made the subscription read and the five
    required reads, and ends there without an error. *)
Lemma pass_no_config (queueKey : string) :
  In (configRead queueKey) (calls (fst (pass c queueKey))) ->
  notFound (submarinerLister c (fst (SplitMetaNamespaceKey queueKey))
              (snd (SplitMetaNamespaceKey queueKey))) = true ->
  snd (pass c queueKey) = None /\
  calls (fst (pass c queueKey)) =
    (GetSubscription (namespace c) subscriptionName
       :: requiredReads c ++ [configRead queueKey])%list.
Proof.
  unfold pass. rewrite sync_run. cbv zeta. change (fresh init) with init.
  intros Hin Hnf.
  destruct (notFound_decode SubmarinerFromUnstructured _ Hnf) as [err Hd].
  fold (theSubmariner c queueKey) in Hd.
  destruct (theSubscription c) as [e|sub].
  { cbn in Hin. destruct Hin as [Hin|[]]. discriminate. }
  set (s1 := emit (emit init [] [GetSubscription (namespace c) subscriptionName])
               (installSignals sub) []) in *.
  destruct (andThen (checkDeployments c) (checkDaemonSets c) s1)
    as [s2 [e|]] eqn:Hreq.
  { exfalso.
    destruct (Effect_required c s1) as (sigs & cs & E & _ & R & _).
    rewrite Hreq in E. cbn [fst] in E, Hin. subst s2 s1.
    rewrite !emit_emit in Hin. cbn in Hin.
    destruct Hin as [Hin|Hin]; [discriminate|].
    rewrite ?app_nil_r in Hin.
    apply (requiredReads_no_config queueKey).
    eapply Subseq_In; eassumption. }
  pose proof (required_ok c s1) as Hok. rewrite Hreq in Hok.
  destruct Hok as [-> _].
  rewrite Hd, Hnf. cbn [fst snd]. split; [reflexivity|].
  subst s1. rewrite !emit_emit. cbn. rewrite ?app_nil_r. reflexivity.
Qed.
End SilentExits.

(** C5. A pass whose subscription read reports not-found stops there, before
    any check: it has made that one read, collected nothing, and returns no
    error.  A pass that reaches the lookup of the configuration resource of
    its key and gets not-found stops after the required checks: its log is
    the subscription read, the five required reads and the lookup, and it
    returns no error.  Neither hands a condition to the hub. *)
Theorem silent_exits `{AM : ApiMachinery}
    (c : deploymentStatusController) (queueKey : string) :
  (notFound (subscriptionLister c (namespace c) subscriptionName) = true ->
   pass c queueKey =
     ({| degradedConditionReasons := [];
         degradedConditionMessages := [];
         calls := [GetSubscription (namespace c) subscriptionName] |}, None)) /\
  (In (configRead queueKey) (calls (fst (pass c queueKey))) ->
   notFound (submarinerLister c (fst (SplitMetaNamespaceKey queueKey))
               (snd (SplitMetaNamespaceKey queueKey))) = true ->
   snd (pass c queueKey) = None /\
   calls (fst (pass c queueKey)) =
     (GetSubscription (namespace c) subscriptionName
        :: requiredReads c ++ [configRead queueKey])%list /\
   published (calls (fst (pass c queueKey))) = []).
Proof.
  split.
  - apply pass_no_subscription.
  - intros Hin Hnf.
    destruct (pass_no_config c queueKey Hin Hnf) as [Hret Hcalls].
    repeat split; trivial.
    rewrite Hcalls. reflexivity.
Qed.

Lemma silent_exits_witness :
  (notFound (subscriptionLister Fixture.noSubscription "submariner-operator"
               subscriptionName) = true /\
   pass Fixture.noSubscription Fixture.queueKey =
     ({| degradedConditionReasons := [];
         degradedConditionMessages := [];
         calls := [GetSubscription "submariner-operator" "submariner"] |}, None)) /\
  (In (configRead Fixture.queueKey)
      (calls (fst (pass Fixture.noConfig Fixture.queueKey))) /\
   notFound (submarinerLister Fixture.noConfig "submariner-operator" "submariner")
     = true /\
   snd (pass Fixture.noConfig Fixture.queueKey) = None /\
   published (calls (fst (pass Fixture.noConfig Fixture.queueKey))) = []).
Proof.
  assert (Hin : In (configRead Fixture.queueKey)
                  (calls (fst (pass Fixture.noConfig Fixture.queueKey)))).
  { vm_compute. do 6 right. left. reflexivity. }
  split.
  - split; [reflexivity|].
    exact (proj1 (silent_exits Fixture.noSubscription Fixture.queueKey) eq_refl).
  - destruct (proj2 (silent_exits Fixture.noConfig Fixture.queueKey) Hin eq_refl)
      as (Hret & _ & Hpub).
    auto.
Defined.

(** ** Which signals a pass collects *)

(** C7. When the subscription's installed CSV is empty, the first signal of
    the pass is [CSVNotInstalled], and its message names the starting CSV and
    the channel, each replaced by the word default when empty. *)
Theorem csv_not_installed_signal `{AM : ApiMachinery}
    (c : deploymentStatusController) (queueKey : string) (sub : Subscription.t) :
  theSubscription c = inr sub ->
  Subscription.InstalledCSV (Subscription.Status sub) = "" ->
  exists rs ms,
    degradedConditionReasons (fst (pass c queueKey)) = "CSVNotInstalled" :: rs /\
    degradedConditionMessages (fst (pass c queueKey)) =
      ("The submariner-operator CSV ("
         ++ (if Subscription.StartingCSV (Subscription.Spec sub) =? ""
             then "default" else Subscription.StartingCSV (Subscription.Spec sub))
         ++ ") is not installed from channel ("
         ++ (if Subscription.Channel (Subscription.Spec sub) =? ""
             then "default" else Subscription.Channel (Subscription.Spec sub))
         ++ ") in catalog source ("
         ++ Subscription.CatalogSourceNamespace (Subscription.Spec sub) ++ "/"
         ++ Subscription.CatalogSource (Subscription.Spec sub) ++ ")") :: ms.
Proof.
  intros Hsub Hcsv.
  destruct (pass_summary c queueKey)
    as (sigs & reads & tail & -> & _ & _ & _ & Hpre & _).
  destruct (Hpre sub Hsub) as [rest ->].
  rewrite emit_init. cbn [degradedConditionReasons degradedConditionMessages].
  unfold installSignals, orDefault. rewrite Hcsv.
  exists (map fst rest), (map snd rest). split; reflexivity.
Qed.

Lemma csv_not_installed_signal_witness :
  theSubscription Fixture.notInstalled = inr (Fixture.subscriptionOf "" "" "") /\
  Subscription.InstalledCSV (Subscription.Status (Fixture.subscriptionOf "" "" "")) = "" /\
  exists rs ms,
    degradedConditionReasons (fst (pass Fixture.notInstalled Fixture.queueKey))
      = "CSVNotInstalled" :: rs /\
    degradedConditionMessages (fst (pass Fixture.notInstalled Fixture.queueKey))
      = "The submariner-operator CSV (default) is not installed from channel (default) in catalog source (openshift-marketplace/redhat-operators)"
          :: ms.
Proof.
  split; [reflexivity|]. split; [reflexivity|].
  exact (csv_not_installed_signal Fixture.notInstalled Fixture.queueKey
           (Fixture.subscriptionOf "" "" "") eq_refl eq_refl).
Defined.

(** C6. With an empty global CIDR in the configuration resource, the
    conditional checks do not read the Globalnet deployment and append neither
    [NoGlobalnetDeployment] nor [NoGlobalnetAvailable]; the same holds for
    the whole pass, whatever the state of that deployment. *)
Theorem globalnet_check_skipped `{AM : ApiMachinery}
    (c : deploymentStatusController) (queueKey : string) (submariner : Submariner.t) :
  theSubmariner c queueKey = inr submariner ->
  Submariner.GlobalCIDR (Submariner.Spec submariner) = "" ->
  (forall s, exists sigs cs,
      fst (checkOptionalDeployments c submariner s) = emit s sigs cs /\
      ~ In (GetDeployment (namespace c) globalnetName) cs /\
      ~ In "NoGlobalnetDeployment" (map fst sigs) /\
      ~ In "NoGlobalnetAvailable" (map fst sigs)) /\
  ~ In (GetDeployment (namespace c) globalnetName) (calls (fst (pass c queueKey))) /\
  ~ In "NoGlobalnetDeployment" (degradedConditionReasons (fst (pass c queueKey))) /\
  ~ In "NoGlobalnetAvailable" (degradedConditionReasons (fst (pass c queueKey))).
Proof.
  intros Hcfg Hcidr.
  assert (Horder : forall x, In x (optionalOrder submariner) ->
                             x <> "NoGlobalnetDeployment" /\ x <> "NoGlobalnetAvailable").
  { unfold optionalOrder. rewrite Hcidr. cbn [String.eqb List.app].
    destruct (Submariner.NetworkPlugin (Submariner.Status submariner)
                =? networkPluginOVNKubernetes);
      simpl; intuition (subst; discriminate). }
  assert (Hreads : ~ In (GetDeployment (namespace c) globalnetName)
                       (optionalReads c submariner)).
  { unfold optionalReads. rewrite Hcidr. cbn [String.eqb List.app].
    destruct (Submariner.NetworkPlugin (Submariner.Status submariner)
                =? networkPluginOVNKubernetes);
      simpl; intuition discriminate. }
  split; [|split; [|split]].
  - intros s.
    destruct (Effect_optional c submariner s) as (sigs & cs & E & O & R & _).
    exists sigs, cs. repeat split; trivial.
    + intros H. apply Hreads. eapply Subseq_In; eassumption.
    + intros H. apply (Subseq_In _ _ _ O), Horder in H. now destruct H.
    + intros H. apply (Subseq_In _ _ _ O), Horder in H. now destruct H.
  - destruct (pass_summary c queueKey)
      as (sigs & reads & tail & -> & _ & R & _ & _ & T).
    rewrite emit_init. cbn [calls]. intros H.
    apply in_app_or in H. destruct H as [H|H].
    + apply (Subseq_In _ _ _ R) in H. unfold passReads in H. rewrite Hcfg in H.
      destruct H as [H|H]; [discriminate|].
      apply in_app_or in H. destruct H as [H|[H|H]].
      * unfold requiredReads in H. simpl in H. intuition discriminate.
      * discriminate.
      * contradiction.
    + destruct T as [->|(sub & sm & evs & _ & _ & _ & _ & -> & Hev)]; [destruct H|].
      destruct H as [H|H]; [discriminate|].
      destruct Hev as [->|[conds ->]]; [destruct H|].
      destruct H as [H|[]]. discriminate.
  - destruct (pass_summary c queueKey) as (sigs & reads & tail & -> & O & _).
    rewrite emit_init. cbn [degradedConditionReasons]. intros H.
    apply (Subseq_In _ _ _ O) in H. unfold passOrder in H. rewrite Hcfg in H.
    destruct H as [H|H]; [discriminate|].
    apply in_app_or in H. destruct H as [H|H].
    + unfold requiredOrder in H. simpl in H. intuition discriminate.
    + apply Horder in H. now destruct H.
  - destruct (pass_summary c queueKey) as (sigs & reads & tail & -> & O & _).
    rewrite emit_init. cbn [degradedConditionReasons]. intros H.
    apply (Subseq_In _ _ _ O) in H. unfold passOrder in H. rewrite Hcfg in H.
    destruct H as [H|H]; [discriminate|].
    apply in_app_or in H. destruct H as [H|H].
    + unfold requiredOrder in H. simpl in H. intuition discriminate.
    + apply Horder in H. now destruct H.
Qed.

Lemma globalnet_check_skipped_witness :
  theSubmariner Fixture.healthy Fixture.queueKey = inr (Fixture.submarinerOf "" "") /\
  notFound (deploymentLister Fixture.healthy "submariner-operator" globalnetName) = true /\
  ~ In (GetDeployment "submariner-operator" globalnetName)
       (calls (fst (pass Fixture.healthy Fixture.queueKey))) /\
  ~ In "NoGlobalnetDeployment"
       (degradedConditionReasons (fst (pass Fixture.healthy Fixture.queueKey))).
Proof.
  split; [reflexivity|]. split; [reflexivity|].
  destruct (globalnet_check_skipped Fixture.healthy Fixture.queueKey
              (Fixture.submarinerOf "" "") eq_refl eq_refl)
    as (_ & Hcalls & Hreasons & _).
  split; assumption.
Defined.

Section OperatorMissing.
Context {AM : ApiMachinery}.
Variable c : deploymentStatusController.

Lemma deploymentSignals_notFound (name reasonName : string) (r : error + Deployment.t) :
  notFound r = true ->
  map fst (deploymentSignals name reasonName r) = ["No" ++ reasonName ++ "Deployment"].
Proof.
  destruct r as [err|d]; simpl; [|discriminate]. now intros ->.
Qed.

Lemma deploymentSignals_unavailable (name reasonName : string) (d : Deployment.t) :
  Deployment.AvailableReplicas (Deployment.Status d) = 0%Z ->
  map fst (deploymentSignals name reasonName (inr d)) = ["No" ++ reasonName ++ "Available"].
Proof.
  intros H. simpl. now rewrite H.
Qed.

(** Where the operator's signal stands among the reasons of a pass whose
    checks all ran. *)
Lemma reasons_operator_missing (sub : Subscription.t) (submariner : Submariner.t) :
  notFound (deploymentLister c (namespace c) operatorName) = true ->
  exists rest,
    map fst (allSignals c sub submariner)
      = (map fst (installSignals sub)
           ++ "NoOperatorDeployment"
           :: map fst (deploymentSignals lighthouseAgentName "LighthouseAgent"
                         (deploymentLister c (namespace c) lighthouseAgentName))
           ++ rest)%list.
Proof.
  intros H. unfold allSignals, requiredSignals.
  rewrite !map_app.
  rewrite (deploymentSignals_notFound operatorName "Operator" _ H).
  eexists. cbn [List.app]. rewrite <- !app_assoc. reflexivity.
Qed.
End OperatorMissing.

(** C4. In a pass that hands a condition to the hub while the operator
    deployment is not found, the condition's reason contains
    [NoOperatorDeployment]; if moreover the lighthouse agent deployment is
    there with no replica available, the reason contains
    [NoOperatorDeployment,NoLighthouseAgentAvailable]: both codes, the
    operator's first, with a comma between them. *)
Theorem operator_missing_reason `{AM : ApiMachinery}
    (c : deploymentStatusController) (queueKey cn : string) (cond : Condition) :
  In (UpdateStatus cn cond) (calls (fst (pass c queueKey))) ->
  notFound (deploymentLister c (namespace c) operatorName) = true ->
  Contains (Reason cond) "NoOperatorDeployment" = true /\
  (forall agent,
      deploymentLister c (namespace c) lighthouseAgentName = inr agent ->
      Deployment.AvailableReplicas (Deployment.Status agent) = 0%Z ->
      Contains (Reason cond) "NoOperatorDeployment,NoLighthouseAgentAvailable" = true).
Proof.
  intros Hin Hnf.
  destruct (pass_published c queueKey cn cond Hin)
    as (sub & submariner & _ & _ & _ & _ & _ & ->).
  destruct (reasons_operator_missing c sub submariner Hnf) as [rest Hrs].
  rewrite Hrs. rewrite condition_degraded by (intros H; destruct (app_cons_not_nil _ _ _ (eq_sym H))).
  cbn [Reason]. split.
  - destruct (Join_member (map fst (installSignals sub)) "NoOperatorDeployment"
                (map fst (deploymentSignals lighthouseAgentName "LighthouseAgent"
                            (deploymentLister c (namespace c) lighthouseAgentName))
                   ++ rest)%list ",") as (a & b & ->).
    apply Contains_infix.
  - intros agent Hagent Hzero. rewrite Hagent.
    rewrite (deploymentSignals_unavailable lighthouseAgentName "LighthouseAgent" _ Hzero).
    change (Contains
              (Join (map fst (installSignals sub)
                       ++ "NoOperatorDeployment" :: "NoLighthouseAgentAvailable" :: rest)%list
                 ",")
              ("NoOperatorDeployment" ++ "," ++ "NoLighthouseAgentAvailable") = true).
    destruct (Join_neighbours (map fst (installSignals sub)) "NoOperatorDeployment"
                "NoLighthouseAgentAvailable" rest ",") as (a & b & ->).
    apply Contains_infix.
Qed.

Lemma operator_missing_reason_witness :
  In (UpdateStatus "cluster1"
        {| Type_ := "SubmarinerAgentDegraded";
           Status := ConditionTrue;
           Reason := "NoOperatorDeployment,NoLighthouseAgentAvailable";
           Message :=
             Join ["The submariner operator deployment does not exist";
                   "There are no submariner lighthouse agent replica available"]
               (String "010"%char EmptyString) |})
     (calls (fst (pass Fixture.noOperator Fixture.queueKey))) /\
  notFound (deploymentLister Fixture.noOperator "submariner-operator" operatorName)
    = true /\
  Contains "NoOperatorDeployment,NoLighthouseAgentAvailable" "NoOperatorDeployment"
    = true.
Proof.
  assert (H : In (UpdateStatus "cluster1"
                    {| Type_ := "SubmarinerAgentDegraded";
                       Status := ConditionTrue;
                       Reason := "NoOperatorDeployment,NoLighthouseAgentAvailable";
                       Message :=
                         Join ["The submariner operator deployment does not exist";
                               "There are no submariner lighthouse agent replica available"]
                           (String "010"%char EmptyString) |})
                 (calls (fst (pass Fixture.noOperator Fixture.queueKey)))).
  { vm_compute. do 7 right. left. reflexivity. }
  split; [exact H|]. split; [reflexivity|].
  exact (proj1 (operator_missing_reason Fixture.noOperator Fixture.queueKey _ _ H eq_refl)).
Defined.

(** ** The healthy pass *)

Section Healthy.
Context {AM : ApiMachinery}.
Variable c : deploymentStatusController.

Lemma deploymentAvailable_quiet (name reasonName : string) :
  deploymentAvailable c name = true ->
  deploymentSignals name reasonName (deploymentLister c (namespace c) name) = [] /\
  hardError (deploymentLister c (namespace c) name) = None.
Proof.
  unfold deploymentAvailable, deploymentSignals, hardError.
  destruct (deploymentLister c (namespace c) name) as [err|d]; [discriminate|].
  destruct (Deployment.AvailableReplicas (Deployment.Status d) =? 0)%Z;
    [discriminate | auto].
Qed.

Lemma gatewaysAvailable_quiet :
  gatewaysAvailable c = true ->
  gatewaySignals (daemonSetLister c (namespace c) gatewayName) = [] /\
  hardError (daemonSetLister c (namespace c) gatewayName) = None.
Proof.
  unfold gatewaysAvailable, gatewaySignals, hardError.
  destruct (daemonSetLister c (namespace c) gatewayName) as [err|d]; [discriminate|].
  destruct (DaemonSet.DesiredNumberScheduled (DaemonSet.Status d) =? 0)%Z;
    [discriminate|].
  destruct (DaemonSet.NumberUnavailable (DaemonSet.Status d) =? 0)%Z;
    [auto | discriminate].
Qed.

Lemma routeAgentsAvailable_quiet :
  routeAgentsAvailable c = true ->
  routeAgentSignals (daemonSetLister c (namespace c) routeAgentName) = [] /\
  hardError (daemonSetLister c (namespace c) routeAgentName) = None.
Proof.
  unfold routeAgentsAvailable, routeAgentSignals, hardError.
  destruct (daemonSetLister c (namespace c) routeAgentName) as [err|d]; [discriminate|].
  destruct (DaemonSet.NumberUnavailable (DaemonSet.Status d) =? 0)%Z;
    [auto | discriminate].
Qed.

(** When no required read fails, the required checks run to their end. *)
Lemma required_all (s : State) :
  Forall (fun cl => readError c cl = None) (requiredReads c) ->
  andThen (checkDeployments c) (checkDaemonSets c) s
    = (emit s (requiredSignals c) (requiredReads c), None).
Proof.
  intros H. unfold requiredReads in H.
  repeat match goal with
         | F : Forall _ (_ :: _) |- _ => inversion F; subst; clear F
         end.
  cbn [readError] in *.
  pose proof (required_ok c s) as Hok.
  rewrite (andThen_ext _
             (andThen (checkDeployment c operatorName "Operator")
                (andThen (checkDeployment c lighthouseAgentName "LighthouseAgent")
                   (checkDeployment c lighthouseCoreDNSName "LighthouseCoreDNS")))
             _ (andThen (checkGatewayDaemonSet c) (checkRouteAgentDaemonSet c))
             (checkDeployments_run c) (checkDaemonSets_run c)) in *.
  unfold andThen in *.
  repeat (rewrite ?checkDeployment_run, ?checkGatewayDaemonSet_run,
            ?checkRouteAgentDaemonSet_run in *;
          repeat match goal with
                 | E : hardError ?r = None |- _ => rewrite E in *; clear E
                 end;
          cbv beta iota zeta in *).
  destruct Hok as [Hok _]. now rewrite Hok.
Qed.

Lemma optional_all (submariner : Submariner.t) (s : State) :
  Forall (fun cl => readError c cl = None) (optionalReads c submariner) ->
  checkOptionalDeployments c submariner s
    = (emit s (optionalSignals c submariner) (optionalReads c submariner), None).
Proof.
  intros H.
  pose proof (optional_ok c submariner s) as Hok.
  rewrite checkOptionalDeployments_run in *.
  unfold andThen, skip, optionalReads, optionalSignals in *.
  destruct (Submariner.GlobalCIDR (Submariner.Spec submariner) =? "");
    destruct (Submariner.NetworkPlugin (Submariner.Status submariner)
                =? networkPluginOVNKubernetes);
    cbn [List.app] in H;
    repeat match goal with
           | F : Forall _ (_ :: _) |- _ => inversion F; subst; clear F
           end;
    cbn [readError] in *;
    repeat (rewrite ?checkDeployment_run in *;
            repeat match goal with
                   | E : hardError ?r = None |- _ => rewrite E in *; clear E
                   end;
            cbv beta iota zeta in * );
    destruct Hok as [Hok _]; f_equal; exact Hok.
Qed.

(** A pass whose reads all succeed or report not-found hands the hub the
    condition built from the signals of all the checks. *)
Lemma pass_success (queueKey : string) (sub : Subscription.t)
    (submariner : Submariner.t) :
  theSubscription c = inr sub ->
  theSubmariner c queueKey = inr submariner ->
  Forall (fun cl => readError c cl = None) (requiredReads c) ->
  Forall (fun cl => readError c cl = None) (optionalReads c submariner) ->
  degradedConditionReasons (fst (pass c queueKey))
    = map fst (allSignals c sub submariner) /\
  published (calls (fst (pass c queueKey)))
    = [submarinerAgentCondtion sub
         (map fst (allSignals c sub submariner))
         (map snd (allSignals c sub submariner))].
Proof.
  intros Hsub Hcfg Hreq Hopt.
  destruct (pass_summary c queueKey)
    as (sigs & reads & tail & E & _ & R & _ & _ & T).
  assert (Hpub : published reads = []).
  { apply published_reads. intros cl H.
    eapply passReads_isRead, Subseq_In; eassumption. }
  assert (Hrun : exists evs,
             published evs = [] /\
             fst (pass c queueKey)
             = emit (emit init (allSignals c sub submariner) (passReads c queueKey))
                 [] (UpdateStatus (clusterName c)
                       (submarinerAgentCondtion sub
                          (map fst (allSignals c sub submariner))
                          (map snd (allSignals c sub submariner))) :: evs)).
  { unfold pass. rewrite sync_run. cbv zeta. change (fresh init) with init.
    rewrite Hsub, required_all by assumption.
    rewrite Hcfg, optional_all by assumption.
    assert (Hstate :
              emit (emit (emit (emit (emit init []
                                        [GetSubscription (namespace c) subscriptionName])
                                  (installSignals sub) [])
                            (requiredSignals c) (requiredReads c))
                      [] [configRead queueKey])
                (optionalSignals c submariner) (optionalReads c submariner)
              = emit init (allSignals c sub submariner) (passReads c queueKey)).
    { rewrite !emit_emit. rewrite ?app_nil_r. cbn [List.app].
      unfold allSignals, passReads. rewrite Hcfg.
      rewrite <- ?app_assoc; reflexivity. }
    rewrite Hstate. unfold publish.
    change (degradedConditionReasons
              (emit init (allSignals c sub submariner) (passReads c queueKey)))
      with (map fst (allSignals c sub submariner)).
    change (degradedConditionMessages
              (emit init (allSignals c sub submariner) (passReads c queueKey)))
      with (map snd (allSignals c sub submariner)).
    destruct (addOnClient c (clusterName c)
                (submarinerAgentCondtion sub
                   (map fst (allSignals c sub submariner))
                   (map snd (allSignals c sub submariner)))) as [err|[conds updated]].
    - exists []. split; reflexivity.
    - exists (if updated
              then [Eventf "ManagedClusterAddOnStatusUpdated" conds] else []).
      split; [now destruct updated | reflexivity]. }
  destruct Hrun as (evs & Hevs & ->).
  rewrite emit_emit, emit_init.
  cbn [degradedConditionReasons calls]. rewrite app_nil_r.
  split; [reflexivity|].
  rewrite published_app.
  rewrite (published_reads (passReads c queueKey)) by apply passReads_isRead.
  cbn [published List.app]. now rewrite Hevs.
Qed.
End Healthy.

(** C1, as the code has it.  When the subscription reports an installed CSV
    and every required and every enabled conditional resource is available,
    the pass hands the hub exactly one condition: status False, reason
    [SubmarinerAgentDeployed], and a message that contains the installed
    CSV; no signal is collected. *)
Theorem healthy_condition `{AM : ApiMachinery}
    (c : deploymentStatusController) (queueKey : string) :
  allDeployed c queueKey = true ->
  exists sub,
    theSubscription c = inr sub /\
    degradedConditionReasons (fst (pass c queueKey)) = [] /\
    published (calls (fst (pass c queueKey))) =
      [{| Type_ := "SubmarinerAgentDegraded";
          Status := ConditionFalse;
          Reason := "SubmarinerAgentDeployed";
          Message := "Submariner ("
                       ++ Subscription.InstalledCSV (Subscription.Status sub)
                       ++ ") is deployed on managed cluster." |}] /\
    Contains ("Submariner ("
                ++ Subscription.InstalledCSV (Subscription.Status sub)
                ++ ") is deployed on managed cluster.")
      (Subscription.InstalledCSV (Subscription.Status sub)) = true.
Proof.
  unfold allDeployed. intros H.
  destruct (theSubscription c) as [?|sub] eqn:Hsub; [discriminate|].
  destruct (theSubmariner c queueKey) as [?|submariner] eqn:Hcfg; [discriminate|].
  repeat match type of H with
         | (_ && _)%bool = true => apply andb_prop in H; destruct H as [H ?]
         end.
  destruct (deploymentAvailable_quiet c operatorName "Operator") as [S1 E1]; trivial.
  destruct (deploymentAvailable_quiet c lighthouseAgentName "LighthouseAgent")
    as [S2 E2]; trivial.
  destruct (deploymentAvailable_quiet c lighthouseCoreDNSName "LighthouseCoreDNS")
    as [S3 E3]; trivial.
  destruct (gatewaysAvailable_quiet c) as [S4 E4]; trivial.
  destruct (routeAgentsAvailable_quiet c) as [S5 E5]; trivial.
  assert (Hreq : Forall (fun cl => readError c cl = None) (requiredReads c)).
  { unfold requiredReads. repeat constructor; assumption. }
  assert (Hopt : optionalSignals c submariner = [] /\
                 Forall (fun cl => readError c cl = None) (optionalReads c submariner)).
  { unfold optionalSignals, optionalReads.
    destruct (Submariner.GlobalCIDR (Submariner.Spec submariner) =? "");
      destruct (Submariner.NetworkPlugin (Submariner.Status submariner)
                  =? networkPluginOVNKubernetes);
      repeat match goal with
             | A : deploymentAvailable c ?n = true |- context [deploymentSignals ?n ?r _] =>
                 destruct (deploymentAvailable_quiet c n r A) as [-> ?]; clear A
             end;
      split; try reflexivity; repeat constructor; assumption. }
  destruct Hopt as [S6 Hopt].
  assert (Hall : allSignals c sub submariner = []).
  { unfold allSignals, requiredSignals, installSignals.
    rewrite S1, S2, S3, S4, S5, S6.
    destruct (Subscription.InstalledCSV (Subscription.Status sub) =? "");
      [discriminate | reflexivity]. }
  destruct (pass_success c queueKey sub submariner Hsub Hcfg Hreq Hopt) as [Hrs Hpub].
  rewrite Hall in Hrs, Hpub. cbn [map] in Hrs, Hpub.
  rewrite condition_deployed in Hpub.
  exists sub. repeat split; trivial.
  apply Contains_infix.
Qed.

Lemma healthy_condition_witness :
  allDeployed Fixture.healthy Fixture.queueKey = true /\
  published (calls (fst (pass Fixture.healthy Fixture.queueKey))) =
    [{| Type_ := "SubmarinerAgentDegraded";
        Status := ConditionFalse;
        Reason := "SubmarinerAgentDeployed";
        Message := "Submariner (submariner.v0.12.0) is deployed on managed cluster." |}].
Proof.
  split; [reflexivity|].
  destruct (healthy_condition Fixture.healthy Fixture.queueKey eq_refl)
    as (sub & Hsub & _ & Hpub & _).
  injection Hsub as <-. exact Hpub.
Defined.

(** C1, as the claim words it, fails: on a cluster where everything is
    deployed the reason handed to the hub is [SubmarinerAgentDeployed], not
    [Deployed]. *)
Lemma healthy_reason_is_not_Deployed :
  allDeployed Fixture.healthy Fixture.queueKey = true /\
  ~ (exists cn cond,
        In (UpdateStatus cn cond)
           (calls (fst (pass Fixture.healthy Fixture.queueKey))) /\
        Status cond = ConditionFalse /\
        Reason cond = "Deployed").
Proof.
  split; [reflexivity|].
  intros (cn & cond & Hin & _ & Hreason).
  vm_compute in Hin.
  repeat (destruct Hin as [Hin|Hin]; [try discriminate|]); [|destruct Hin].
  injection Hin as _ <-. discriminate.
Qed.

(** ** Determinism and order *)

Section SameSnapshot.
Context {AM : ApiMachinery}.
Variables c1 c2 : deploymentStatusController.
Variable queueKey : string.
Hypothesis same : sameSnapshot c1 c2 queueKey.

Lemma same_namespace : namespace c1 = namespace c2.
Proof. apply same. Qed.

Lemma same_subscription :
  subscriptionLister c1 (namespace c1) subscriptionName
    = subscriptionLister c2 (namespace c2) subscriptionName.
Proof. apply same. Qed.

Lemma same_config :
  submarinerLister c1 (fst (SplitMetaNamespaceKey queueKey))
      (snd (SplitMetaNamespaceKey queueKey))
    = submarinerLister c2 (fst (SplitMetaNamespaceKey queueKey))
        (snd (SplitMetaNamespaceKey queueKey)).
Proof. apply same. Qed.

Lemma same_checkDeployment (name reasonName : string) (s : State) :
  In name [operatorName; lighthouseAgentName; lighthouseCoreDNSName;
           globalnetName; networkPluginSyncerName] ->
  checkDeployment c1 name reasonName s = checkDeployment c2 name reasonName s.
Proof.
  intros Hname. rewrite !checkDeployment_run.
  destruct same as (Hns & _ & Hdep & _).
  rewrite (Hdep name Hname), Hns. reflexivity.
Qed.

Lemma same_checkGatewayDaemonSet (s : State) :
  checkGatewayDaemonSet c1 s = checkGatewayDaemonSet c2 s.
Proof.
  rewrite !checkGatewayDaemonSet_run.
  destruct same as (Hns & _ & _ & Hds & _).
  rewrite (Hds gatewayName) by (simpl; auto). rewrite Hns. reflexivity.
Qed.

Lemma same_checkRouteAgentDaemonSet (s : State) :
  checkRouteAgentDaemonSet c1 s = checkRouteAgentDaemonSet c2 s.
Proof.
  rewrite !checkRouteAgentDaemonSet_run.
  destruct same as (Hns & _ & _ & Hds & _).
  rewrite (Hds routeAgentName) by (simpl; auto). rewrite Hns. reflexivity.
Qed.

Lemma same_required (s : State) :
  andThen (checkDeployments c1) (checkDaemonSets c1) s
    = andThen (checkDeployments c2) (checkDaemonSets c2) s.
Proof.
  apply andThen_ext; clear s; intros s.
  - rewrite !checkDeployments_run.
    apply andThen_ext; [|apply andThen_ext]; intros s';
      apply same_checkDeployment; simpl; auto.
  - rewrite !checkDaemonSets_run.
    apply andThen_ext;
      [apply same_checkGatewayDaemonSet | apply same_checkRouteAgentDaemonSet].
Qed.

Lemma same_optional (submariner : Submariner.t) (s : State) :
  checkOptionalDeployments c1 submariner s = checkOptionalDeployments c2 submariner s.
Proof.
  rewrite !checkOptionalDeployments_run.
  apply andThen_ext; intros s'.
  - destruct (Submariner.GlobalCIDR (Submariner.Spec submariner) =? "");
      [reflexivity | apply same_checkDeployment; simpl; auto].
  - destruct (Submariner.NetworkPlugin (Submariner.Status submariner)
                =? networkPluginOVNKubernetes);
      [apply same_checkDeployment; simpl; auto 6 | reflexivity].
Qed.

(** What a pass shows of its work: the two slices and the conditions
    handed to the hub. *)
Lemma same_pass :
  degradedConditionReasons (fst (pass c1 queueKey))
    = degradedConditionReasons (fst (pass c2 queueKey)) /\
  degradedConditionMessages (fst (pass c1 queueKey))
    = degradedConditionMessages (fst (pass c2 queueKey)) /\
  published (calls (fst (pass c1 queueKey)))
    = published (calls (fst (pass c2 queueKey))).
Proof.
  unfold pass. rewrite !sync_run. cbv zeta.
  unfold theSubscription, theSubmariner.
  rewrite same_subscription, same_config, same_namespace.
  fold (theSubscription c2). fold (theSubmariner c2 queueKey).
  destruct (theSubscription c2) as [err|sub]; [auto|].
  rewrite same_required.
  destruct (andThen (checkDeployments c2) (checkDaemonSets c2)
              (emit (emit (fresh init) []
                       [GetSubscription (namespace c2) subscriptionName])
                 (installSignals sub) [])) as [s2 [err|]]; [auto|].
  destruct (theSubmariner c2 queueKey) as [err|submariner]; [auto|].
  rewrite same_optional.
  destruct (checkOptionalDeployments c2 submariner (emit s2 [] [configRead queueKey]))
    as [s4 [err|]]; [auto|].
  unfold publish.
  destruct (addOnClient c1 (clusterName c1)
              (submarinerAgentCondtion sub (degradedConditionReasons s4)
                 (degradedConditionMessages s4))) as [e1|[conds1 [|]]];
    destruct (addOnClient c2 (clusterName c2)
                (submarinerAgentCondtion sub (degradedConditionReasons s4)
                   (degradedConditionMessages s4))) as [e2|[conds2 [|]]];
    cbn [fst emit extend map degradedConditionReasons degradedConditionMessages calls];
    rewrite !published_app; repeat split; reflexivity.
Qed.
End SameSnapshot.

Section Order.
Context {AM : ApiMachinery}.
Variable c : deploymentStatusController.

Lemma optionalOrder_pipeline (submariner : Submariner.t) :
  Subseq (optionalOrder submariner)
    ["NoGlobalnetDeployment"; "NoGlobalnetAvailable";
     "NoNetworkPluginSyncerDeployment"; "NoNetworkPluginSyncerAvailable"].
Proof.
  unfold optionalOrder.
  apply (Subseq_app _ ["NoGlobalnetDeployment"; "NoGlobalnetAvailable"]).
  - destruct (Submariner.GlobalCIDR (Submariner.Spec submariner) =? "");
      [apply Subseq_nil_l | apply Subseq_refl].
  - destruct (Submariner.NetworkPlugin (Submariner.Status submariner)
                =? networkPluginOVNKubernetes);
      [apply Subseq_refl | apply Subseq_nil_l].
Qed.

Lemma passOrder_pipeline (queueKey : string) :
  Subseq (passOrder c queueKey) pipelineOrder.
Proof.
  unfold passOrder.
  apply Subseq_take.
  apply (Subseq_app requiredOrder requiredOrder); [apply Subseq_refl|].
  destruct (theSubmariner c queueKey);
    [apply Subseq_nil_l | apply optionalOrder_pipeline].
Qed.
End Order.

(** C8. A pass is a function of the snapshot it reads: two controllers that
    get the same answers for the subscription, the five deployments, the two
    daemon sets and the configuration resource of the key end with the same
    reasons and messages and hand the hub the same conditions; and the
    reasons of a pass always stand in the order of the pipeline. *)
Theorem pass_deterministic `{AM : ApiMachinery}
    (c1 c2 : deploymentStatusController) (queueKey : string) :
  sameSnapshot c1 c2 queueKey ->
  degradedConditionReasons (fst (pass c1 queueKey))
    = degradedConditionReasons (fst (pass c2 queueKey)) /\
  degradedConditionMessages (fst (pass c1 queueKey))
    = degradedConditionMessages (fst (pass c2 queueKey)) /\
  published (calls (fst (pass c1 queueKey)))
    = published (calls (fst (pass c2 queueKey))) /\
  Subseq (degradedConditionReasons (fst (pass c1 queueKey))) pipelineOrder.
Proof.
  intros same.
  destruct (same_pass c1 c2 queueKey same) as (Hr & Hm & Hp).
  repeat split; trivial.
  destruct (pass_summary c1 queueKey) as (sigs & reads & tail & -> & O & _).
  rewrite emit_init. cbn [degradedConditionReasons].
  eapply Subseq_trans; [exact O | apply passOrder_pipeline].
Qed.

Lemma pass_deterministic_witness :
  sameSnapshot Fixture.noOperator Fixture.noOperatorElsewhere Fixture.queueKey /\
  published (calls (fst (pass Fixture.noOperator Fixture.queueKey)))
    = published (calls (fst (pass Fixture.noOperatorElsewhere Fixture.queueKey))).
Proof.
  assert (same : sameSnapshot Fixture.noOperator Fixture.noOperatorElsewhere
                   Fixture.queueKey).
  { unfold sameSnapshot.
    split; [reflexivity|]. split; [reflexivity|]. split; [|split; [|reflexivity]].
    - intros name [<-|[<-|[<-|[<-|[<-|[]]]]]]; reflexivity.
    - intros name [<-|[<-|[]]]; reflexivity. }
  split; [exact same|].
  exact (proj1 (proj2 (proj2 (pass_deterministic _ _ _ same)))).
Defined.

(** * Further properties of the pass *)

Section Publication.
Context {AM : ApiMachinery}.
Variable c : deploymentStatusController.

Lemma published_In (cs : list Call) (cond : Condition) :
  In cond (published cs) -> exists cn, In (UpdateStatus cn cond) cs.
Proof.
  induction cs as [|cl cs IH]; simpl; [contradiction|].
  destruct cl; simpl; intros H;
    try (destruct (IH H) as [cn Hin]; exists cn; now right).
  destruct H as [<-|H]; [eexists; left; reflexivity|].
  destruct (IH H) as [cn Hin]. exists cn. now right.
Qed.

Lemma events_app (cs1 cs2 : list Call) :
  events (cs1 ++ cs2)%list = (events cs1 ++ events cs2)%list.
Proof.
  induction cs1 as [|cl cs1 IH]; [reflexivity|].
  destruct cl; simpl; now rewrite IH.
Qed.

Lemma events_reads (cs : list Call) :
  (forall cl, In cl cs -> isRead cl = true) -> events cs = [].
Proof.
  induction cs as [|cl cs IH]; intros H; [reflexivity|].
  assert (Hcl : isRead cl = true) by (apply H; now left).
  destruct cl; try discriminate; simpl; apply IH; intros; apply H; now right.
Qed.

Lemma passReads_split (queueKey : string) (submariner : Submariner.t) :
  theSubmariner c queueKey = inr submariner ->
  passReads c queueKey =
    (GetSubscription (namespace c) subscriptionName
       :: requiredReads c ++ configRead queueKey :: optionalReads c submariner)%list.
Proof.
  intros H. unfold passReads. now rewrite H.
Qed.

(** When the subscription and the configuration resource decode and no read
    fails, the pass is the publication of the signals of all the checks. *)
Lemma pass_publishes (queueKey : string) (sub : Subscription.t)
    (submariner : Submariner.t) :
  theSubscription c = inr sub ->
  theSubmariner c queueKey = inr submariner ->
  Forall (fun cl => readError c cl = None) (passReads c queueKey) ->
  pass c queueKey =
    publish c sub (emit init (allSignals c sub submariner) (passReads c queueKey)).
Proof.
  intros Hsub Hcfg Hall.
  rewrite (passReads_split queueKey submariner Hcfg) in Hall.
  apply Forall_cons_iff in Hall. destruct Hall as [_ Hall].
  apply Forall_app in Hall. destruct Hall as [Hreq Hrest].
  apply Forall_cons_iff in Hrest. destruct Hrest as [_ Hopt].
  unfold pass. rewrite sync_run. cbv zeta. change (fresh init) with init.
  rewrite Hsub, required_all by assumption.
  rewrite Hcfg, optional_all by assumption.
  f_equal.
  rewrite !emit_emit. rewrite ?app_nil_r. cbn [List.app].
  unfold allSignals. rewrite (passReads_split queueKey submariner Hcfg).
  rewrite <- ?app_assoc; reflexivity.
Qed.

(** A pass that has handed a condition to the hub has decoded the
    subscription and the configuration resource and has seen no read fail. *)
Lemma published_reads_ok (queueKey : string) :
  published (calls (fst (pass c queueKey))) <> [] ->
  exists sub submariner,
    theSubscription c = inr sub /\
    theSubmariner c queueKey = inr submariner /\
    Forall (fun cl => readError c cl = None) (passReads c queueKey).
Proof.
  destruct (pass_summary c queueKey)
    as (sigs & reads & tail & E & _ & R & F & _ & T).
  rewrite E, emit_init. cbn [calls]. rewrite published_app.
  rewrite (published_reads reads)
    by (intros cl H; eapply passReads_isRead, Subseq_In; eassumption).
  intros Hpub.
  destruct T as [->|(sub & submariner & evs & Hs & Hc & _ & -> & -> & _)];
    [now destruct Hpub|].
  exists sub, submariner. repeat split; trivial.
  eapply Forall_impl; [|exact F]. intros cl H. cbv beta in H.
  remember (readError c cl) as r eqn:Hr.
  destruct r as [e|]; [|reflexivity].
  destruct (H e eq_refl) as [_ Hnil]. discriminate.
Qed.
End Publication.

(** X1. A pass hands a condition to the hub exactly when the subscription
    and the configuration resource of its key are found and decode and no
    read of the pass fails with an error other than not-found; a deployment
    or daemon set that is not found never keeps the pass from publishing. *)
Theorem publication_iff_reads_ok `{AM : ApiMachinery}
    (c : deploymentStatusController) (queueKey : string) :
  published (calls (fst (pass c queueKey))) <> [] <->
  exists sub submariner,
    theSubscription c = inr sub /\
    theSubmariner c queueKey = inr submariner /\
    Forall (fun cl => readError c cl = None) (passReads c queueKey).
Proof.
  split.
  - apply published_reads_ok.
  - intros (sub & submariner & Hsub & Hcfg & Hall).
    rewrite (pass_publishes c queueKey sub submariner Hsub Hcfg Hall).
    unfold publish.
    destruct (addOnClient c (clusterName c) _) as [err|[conds updated]];
      cbn [fst emit extend calls]; rewrite published_app; cbn [published];
      intros H; apply app_eq_nil in H; destruct H as [_ H]; discriminate.
Qed.

(** X2. The hub's answer decides how a publishing pass ends.  The pass
    hands the hub one condition only; if the hub fails, the pass returns the
    hub's error and records no event; if the hub reports a change, the pass
    returns no error and records one event,
    [ManagedClusterAddOnStatusUpdated], with the hub's conditions; if the hub
    reports no change, the pass returns no error and records no event. *)
Theorem hub_answer_decides `{AM : ApiMachinery}
    (c : deploymentStatusController) (queueKey : string) (cond : Condition) :
  In cond (published (calls (fst (pass c queueKey)))) ->
  published (calls (fst (pass c queueKey))) = [cond] /\
  match addOnClient c (clusterName c) cond with
  | inl err =>
      snd (pass c queueKey) = Some err /\
      events (calls (fst (pass c queueKey))) = []
  | inr (conds, true) =>
      snd (pass c queueKey) = None /\
      events (calls (fst (pass c queueKey)))
        = [("ManagedClusterAddOnStatusUpdated", conds)]
  | inr (conds, false) =>
      snd (pass c queueKey) = None /\
      events (calls (fst (pass c queueKey))) = []
  end.
Proof.
  intros Hin.
  assert (Hne : published (calls (fst (pass c queueKey))) <> [])
    by (intros H; rewrite H in Hin; destruct Hin).
  destruct (published_reads_ok c queueKey Hne) as (sub & submariner & Hsub & Hcfg & Hall).
  rewrite (pass_publishes c queueKey sub submariner Hsub Hcfg Hall) in *.
  unfold publish in *.
  change (degradedConditionReasons
            (emit init (allSignals c sub submariner) (passReads c queueKey)))
    with (map fst (allSignals c sub submariner)) in *.
  change (degradedConditionMessages
            (emit init (allSignals c sub submariner) (passReads c queueKey)))
    with (map snd (allSignals c sub submariner)) in *.
  set (cond0 := submarinerAgentCondtion sub (map fst (allSignals c sub submariner))
                  (map snd (allSignals c sub submariner))) in *.
  assert (Hr : published (passReads c queueKey) = [])
    by (apply published_reads, passReads_isRead).
  assert (He : events (passReads c queueKey) = [])
    by (apply events_reads, passReads_isRead).
  assert (Hcond : cond = cond0).
  { destruct (addOnClient c (clusterName c) cond0) as [err|[conds [|]]];
      cbn [fst] in Hin; rewrite emit_emit, emit_init in Hin; cbn [calls] in Hin;
      rewrite published_app, Hr in Hin;
      cbn [published List.app] in Hin; destruct Hin as [<-|[]]; reflexivity. }
  subst cond.
  destruct (addOnClient c (clusterName c) cond0) as [err|[conds [|]]];
    cbn [fst snd]; rewrite emit_emit, emit_init; cbn [calls];
    rewrite published_app, events_app, Hr, He; repeat split; reflexivity.
Qed.

Lemma hub_answer_decides_witness :
  In {| Type_ := "SubmarinerAgentDegraded";
        Status := ConditionFalse;
        Reason := "SubmarinerAgentDeployed";
        Message := "Submariner (submariner.v0.12.0) is deployed on managed cluster." |}
     (published (calls (fst (pass Fixture.healthy Fixture.queueKey)))) /\
  snd (pass Fixture.healthy Fixture.queueKey) = None /\
  events (calls (fst (pass Fixture.healthy Fixture.queueKey))) =
    [("ManagedClusterAddOnStatusUpdated",
      [{| Type_ := "SubmarinerAgentDegraded";
          Status := ConditionFalse;
          Reason := "SubmarinerAgentDeployed";
          Message := "Submariner (submariner.v0.12.0) is deployed on managed cluster." |}])].
Proof.
  assert (Hin : In {| Type_ := "SubmarinerAgentDegraded";
                      Status := ConditionFalse;
                      Reason := "SubmarinerAgentDeployed";
                      Message := "Submariner (submariner.v0.12.0) is deployed on managed cluster." |}
                   (published (calls (fst (pass Fixture.healthy Fixture.queueKey))))).
  { vm_compute. left. reflexivity. }
  split; [exact Hin|].
  exact (proj2 (hub_answer_decides Fixture.healthy Fixture.queueKey _ Hin)).
Defined.

(** ** The order of the reads *)

Section ReadOrder.
Context {AM : ApiMachinery}.
Variable c : deploymentStatusController.

Lemma Prefix_refl {A} (l : list A) : Prefix l l.
Proof. exists []. now rewrite app_nil_r. Qed.

Lemma Prefix_cons {A} (x : A) (l order : list A) :
  Prefix l order -> Prefix (x :: l) (x :: order).
Proof. intros [rest ->]. now exists rest. Qed.

Lemma Prefix_app_l {A} (l order more : list A) :
  Prefix l order -> Prefix l (order ++ more)%list.
Proof. intros [rest ->]. exists (rest ++ more)%list. now rewrite app_assoc. Qed.

Lemma Prefix_app {A} (done l order : list A) :
  Prefix l order -> Prefix (done ++ l)%list (done ++ order)%list.
Proof. intros [rest ->]. exists rest. now rewrite app_assoc. Qed.

Lemma Prefix_NoDup {A} (l order : list A) : Prefix l order -> NoDup order -> NoDup l.
Proof. intros [rest ->]. apply NoDup_app_remove_r. Qed.

Lemma Prefix_In {A} (l order : list A) (x : A) : Prefix l order -> In x l -> In x order.
Proof. intros [rest ->] H. apply in_or_app. now left. Qed.

Lemma Runs_ext {R} (errOf : R -> option error) reads (f g : State -> State * R) :
  (forall s, f s = g s) -> Runs errOf reads f -> Runs errOf reads g.
Proof. intros Hfg Hf s. rewrite <- Hfg. apply Hf. Qed.

Lemma Runs_skip : Runs (fun e => e) [] skip.
Proof.
  intros s. exists []. unfold skip. cbn [fst snd].
  rewrite app_nil_r. auto using Prefix_refl.
Qed.

Lemma Runs_andThen reads1 reads2 f g :
  Runs (fun e => e) reads1 f -> Runs (fun e => e) reads2 g ->
  Runs (fun e => e) (reads1 ++ reads2)%list (andThen f g).
Proof.
  intros Hf Hg s. destruct (Hf s) as (cs1 & E1 & P1 & A1).
  unfold andThen. destruct (f s) as [s1 [e|]]; cbn [fst snd] in *.
  - exists cs1. repeat split; [assumption | now apply Prefix_app_l | discriminate].
  - specialize (A1 eq_refl). subst cs1.
    destruct (Hg s1) as (cs2 & E2 & P2 & A2).
    exists (reads1 ++ cs2)%list. repeat split.
    + rewrite E2, E1. now rewrite app_assoc.
    + now apply Prefix_app.
    + intros H. now rewrite (A2 H).
Qed.

Lemma Runs_checkDeployment (name reasonName : string) :
  Runs (fun e => e) [GetDeployment (namespace c) name] (checkDeployment c name reasonName).
Proof.
  intros s. rewrite checkDeployment_run. exists [GetDeployment (namespace c) name].
  cbn [fst snd emit extend calls]. auto using Prefix_refl.
Qed.

Lemma Runs_checkGatewayDaemonSet :
  Runs (fun e => e) [GetDaemonSet (namespace c) gatewayName] (checkGatewayDaemonSet c).
Proof.
  intros s. rewrite checkGatewayDaemonSet_run.
  exists [GetDaemonSet (namespace c) gatewayName].
  cbn [fst snd emit extend calls]. auto using Prefix_refl.
Qed.

Lemma Runs_checkRouteAgentDaemonSet :
  Runs (fun e => e) [GetDaemonSet (namespace c) routeAgentName]
    (checkRouteAgentDaemonSet c).
Proof.
  intros s. rewrite checkRouteAgentDaemonSet_run.
  exists [GetDaemonSet (namespace c) routeAgentName].
  cbn [fst snd emit extend calls]. auto using Prefix_refl.
Qed.

Lemma Runs_checkDeployments :
  Runs (fun e => e)
    [GetDeployment (namespace c) operatorName;
     GetDeployment (namespace c) lighthouseAgentName;
     GetDeployment (namespace c) lighthouseCoreDNSName]
    (checkDeployments c).
Proof.
  eapply Runs_ext; [intros s; symmetry; apply checkDeployments_run|].
  exact (Runs_andThen _ _ _ _ (Runs_checkDeployment operatorName "Operator")
           (Runs_andThen _ _ _ _
              (Runs_checkDeployment lighthouseAgentName "LighthouseAgent")
              (Runs_checkDeployment lighthouseCoreDNSName "LighthouseCoreDNS"))).
Qed.

Lemma Runs_checkDaemonSets :
  Runs (fun e => e)
    [GetDaemonSet (namespace c) gatewayName; GetDaemonSet (namespace c) routeAgentName]
    (checkDaemonSets c).
Proof.
  eapply Runs_ext; [intros s; symmetry; apply checkDaemonSets_run|].
  exact (Runs_andThen _ _ _ _ Runs_checkGatewayDaemonSet Runs_checkRouteAgentDaemonSet).
Qed.

Lemma Runs_required :
  Runs (fun e => e) (requiredReads c) (andThen (checkDeployments c) (checkDaemonSets c)).
Proof.
  exact (Runs_andThen _ _ _ _ Runs_checkDeployments Runs_checkDaemonSets).
Qed.

Lemma Runs_optional (submariner : Submariner.t) :
  Runs (fun e => e) (optionalReads c submariner) (checkOptionalDeployments c submariner).
Proof.
  eapply Runs_ext; [intros s; symmetry; apply checkOptionalDeployments_run|].
  unfold optionalReads. apply Runs_andThen.
  - destruct (Submariner.GlobalCIDR (Submariner.Spec submariner) =? "");
      [apply Runs_skip | apply Runs_checkDeployment].
  - destruct (Submariner.NetworkPlugin (Submariner.Status submariner)
                =? networkPluginOVNKubernetes);
      [apply Runs_checkDeployment | apply Runs_skip].
Qed.

Lemma optionalReads_NoDup (submariner : Submariner.t) :
  NoDup (optionalReads c submariner) /\
  forall cl, In cl (optionalReads c submariner) ->
             cl = GetDeployment (namespace c) globalnetName \/
             cl = GetDeployment (namespace c) networkPluginSyncerName.
Proof.
  unfold optionalReads.
  destruct (Submariner.GlobalCIDR (Submariner.Spec submariner) =? "");
    destruct (Submariner.NetworkPlugin (Submariner.Status submariner)
                =? networkPluginOVNKubernetes);
    cbn [List.app]; split;
    try (repeat constructor; simpl; intuition discriminate);
    simpl; intuition.
Qed.

Lemma passReads_NoDup (queueKey : string) : NoDup (passReads c queueKey).
Proof.
  assert (Hopt : forall l,
             NoDup l ->
             (forall cl, In cl l ->
                         cl = GetDeployment (namespace c) globalnetName \/
                         cl = GetDeployment (namespace c) networkPluginSyncerName) ->
             NoDup (GetSubscription (namespace c) subscriptionName
                      :: requiredReads c ++ configRead queueKey :: l)%list).
  { intros l Hl Hin. unfold requiredReads, configRead. cbn [List.app].
    repeat (constructor;
            [simpl; intros H;
             repeat (destruct H as [H|H]; [discriminate|]);
             apply Hin in H; destruct H; discriminate|]).
    assumption. }
  unfold passReads. destruct (theSubmariner c queueKey) as [err|submariner].
  - apply Hopt; [constructor | intros cl []].
  - destruct (optionalReads_NoDup submariner). now apply Hopt.
Qed.

(** The log of a pass: a beginning of the fixed sequence of reads, then, if
    all of them were made, one status update and at most one event. *)
Lemma pass_log (queueKey : string) :
  exists reads tail,
    calls (fst (pass c queueKey)) = (reads ++ tail)%list /\
    Prefix reads (passReads c queueKey) /\
    (tail = [] \/
     reads = passReads c queueKey /\
     exists cond evs,
       tail = UpdateStatus (clusterName c) cond :: evs /\
       (evs = [] \/ exists conds, evs = [Eventf "ManagedClusterAddOnStatusUpdated" conds])).
Proof.
  unfold pass. rewrite sync_run. cbv zeta. change (fresh init) with init.
  unfold passReads.
  set (sread := GetSubscription (namespace c) subscriptionName).
  destruct (theSubscription c) as [err|sub].
  { exists [sread], []. split; [reflexivity|]. split; [|now left].
    apply Prefix_cons. eexists. reflexivity. }
  set (s1 := emit (emit init [] [sread]) (installSignals sub) []).
  assert (Hs1 : calls s1 = [sread]) by reflexivity.
  destruct (Runs_required s1) as (cs & E & P & A).
  destruct (andThen (checkDeployments c) (checkDaemonSets c) s1) as [s2 [err|]];
    cbn [fst snd] in E, A.
  { exists (sread :: cs), []. cbn [fst]. rewrite E, Hs1, app_nil_r.
    split; [reflexivity|]. split; [|now left].
    apply Prefix_cons. now apply Prefix_app_l. }
  specialize (A eq_refl). subst cs. rewrite Hs1 in E.
  destruct (theSubmariner c queueKey) as [err|submariner].
  { exists (sread :: requiredReads c ++ [configRead queueKey])%list, [].
    cbn [fst emit extend calls]. rewrite E, app_nil_r.
    split; [|split; [apply Prefix_refl|now left]].
    cbn [List.app]. rewrite <- ?app_assoc. reflexivity. }
  set (s3 := emit s2 [] [configRead queueKey]).
  assert (Hs3 : calls s3 = (sread :: requiredReads c ++ [configRead queueKey])%list).
  { subst s3. cbn [emit extend calls]. rewrite E. cbn [List.app].
    rewrite <- ?app_assoc. reflexivity. }
  destruct (Runs_optional submariner s3) as (cs' & E' & P' & A').
  destruct (checkOptionalDeployments c submariner s3) as [s4 [err|]];
    cbn [fst snd] in E', A'.
  { exists (sread :: requiredReads c ++ configRead queueKey :: cs')%list, [].
    cbn [fst]. rewrite E', Hs3, app_nil_r.
    split; [|split; [|now left]].
    - cbn [List.app]. rewrite <- ?app_assoc. reflexivity.
    - apply Prefix_cons, Prefix_app, Prefix_cons. assumption. }
  specialize (A' eq_refl). subst cs'. rewrite Hs3 in E'.
  assert (Hs4 : calls s4
                = (sread :: requiredReads c
                     ++ configRead queueKey :: optionalReads c submariner)%list).
  { rewrite E'. cbn [List.app]. rewrite <- ?app_assoc. reflexivity. }
  unfold publish.
  destruct (addOnClient c (clusterName c)
              (submarinerAgentCondtion sub (degradedConditionReasons s4)
                 (degradedConditionMessages s4))) as [err|[conds updated]];
    eexists; eexists; cbn [fst emit extend calls]; rewrite Hs4;
    (split; [reflexivity|]); (split; [apply Prefix_refl|]);
    right; (split; [reflexivity|]); eexists; eexists; (split; [reflexivity|]).
  - now left.
  - destruct updated; [right; eauto | now left].
Qed.
End ReadOrder.

(** X3. A pass reads each resource at most once and in one fixed order: the
    subscription, the operator, lighthouse agent and lighthouse CoreDNS
    deployments, the gateway and route agent daemon sets, the configuration
    resource, then the Globalnet and the network plugin syncer deployments
    when enabled.  Its log is a beginning of that sequence followed by calls
    that are no reads, and no call occurs twice. *)
Theorem reads_once_in_order `{AM : ApiMachinery}
    (c : deploymentStatusController) (queueKey : string) :
  exists reads tail,
    calls (fst (pass c queueKey)) = (reads ++ tail)%list /\
    Prefix reads (passReads c queueKey) /\
    Forall (fun cl => isRead cl = false) tail /\
    NoDup (calls (fst (pass c queueKey))).
Proof.
  destruct (pass_log c queueKey) as (reads & tail & E & P & T).
  exists reads, tail. rewrite E.
  assert (Htail : Forall (fun cl => isRead cl = false) tail /\ NoDup tail).
  { destruct T as [->|(_ & cond & evs & -> & [->|[conds ->]])].
    - split; constructor.
    - split; repeat constructor; simpl; tauto.
    - split; repeat constructor; simpl; intuition discriminate. }
  destruct Htail as [Hrd Hnd].
  repeat split; trivial.
  apply NoDup_app; [eapply Prefix_NoDup, passReads_NoDup; eassumption | assumption |].
  intros cl Hin Hin'.
  apply (Prefix_In _ _ _ P), passReads_isRead in Hin.
  rewrite Forall_forall in Hrd. rewrite (Hrd cl Hin') in Hin. discriminate.
Qed.

(** ** Objects that do not decode *)

Section Undecodable.
Context {AM : ApiMachinery}.
Variable c : deploymentStatusController.

(** The subscription read gives no subscription: the pass ends there. *)
Lemma pass_subscription_failed (queueKey : string) (err : error) :
  theSubscription c = inl err ->
  pass c queueKey =
    ({| degradedConditionReasons := [];
        degradedConditionMessages := [];
        calls := [GetSubscription (namespace c) subscriptionName] |},
     if notFound (subscriptionLister c (namespace c) subscriptionName)
     then None else Some err).
Proof.
  intros H. unfold pass. rewrite sync_run. cbv zeta. now rewrite H.
Qed.

(** The lookup of the configuration resource is reached and gives no
    configuration: the pass ends there. *)
Lemma pass_config_failed (queueKey : string) (err : error) :
  In (configRead queueKey) (calls (fst (pass c queueKey))) ->
  theSubmariner c queueKey = inl err ->
  snd (pass c queueKey) =
    (if notFound (submarinerLister c (fst (SplitMetaNamespaceKey queueKey))
                    (snd (SplitMetaNamespaceKey queueKey)))
     then None else Some err) /\
  calls (fst (pass c queueKey)) =
    (GetSubscription (namespace c) subscriptionName
       :: requiredReads c ++ [configRead queueKey])%list.
Proof.
  intros Hin Hcfg.
  revert Hin. unfold pass. rewrite sync_run. cbv zeta.
  change (fresh init) with init. rewrite Hcfg.
  destruct (theSubscription c) as [e|sub].
  { cbn. intros [H|[]]. discriminate. }
  set (s1 := emit (emit init [] [GetSubscription (namespace c) subscriptionName])
               (installSignals sub) []).
  destruct (Runs_required c s1) as (cs & Ecs & Pcs & Acs).
  destruct (andThen (checkDeployments c) (checkDaemonSets c) s1) as [s2 [e|]];
    cbn [fst snd] in *.
  { intros Hin. exfalso. rewrite Ecs in Hin. cbn in Hin.
    destruct Hin as [Hin|Hin]; [discriminate|].
    apply (requiredReads_no_config c queueKey).
    eapply Prefix_In; eassumption. }
  intros _. split; [reflexivity|].
  rewrite (Acs eq_refl) in Ecs. cbn [emit extend calls]. rewrite Ecs.
  cbn [calls s1 List.app]. rewrite <- ?app_assoc. reflexivity.
Qed.
End Undecodable.

(** X4. Only the lister's not-found is silent.  An object that the
    subscription lister returns but that does not convert to a subscription
    ends the pass, after that one read, with the converter's error, whatever
    the kind of that error; and so does, after the required checks, an object
    of the configuration resource that does not convert.  Nothing is handed
    to the hub. *)
Theorem undecodable_object_aborts `{AM : ApiMachinery}
    (c : deploymentStatusController) (queueKey : string) (err : error) :
  (theSubscription c = inl err ->
   notFound (subscriptionLister c (namespace c) subscriptionName) = false ->
   pass c queueKey =
     ({| degradedConditionReasons := [];
         degradedConditionMessages := [];
         calls := [GetSubscription (namespace c) subscriptionName] |}, Some err)) /\
  (In (configRead queueKey) (calls (fst (pass c queueKey))) ->
   theSubmariner c queueKey = inl err ->
   notFound (submarinerLister c (fst (SplitMetaNamespaceKey queueKey))
               (snd (SplitMetaNamespaceKey queueKey))) = false ->
   snd (pass c queueKey) = Some err /\
   calls (fst (pass c queueKey)) =
     (GetSubscription (namespace c) subscriptionName
        :: requiredReads c ++ [configRead queueKey])%list).
Proof.
  split.
  - intros H Hnf. rewrite (pass_subscription_failed c queueKey err H), Hnf. reflexivity.
  - intros Hin H Hnf.
    destruct (pass_config_failed c queueKey err Hin H) as [Hret Hcalls].
    rewrite Hnf in Hret. auto.
Qed.

Lemma undecodable_object_aborts_witness :
  @IsNotFound Fixture.lossy (Fixture.NotFound "field") = true /\
  @theSubscription Fixture.lossy Fixture.unconvertible = inl (Fixture.NotFound "field") /\
  @pass Fixture.lossy Fixture.unconvertible Fixture.queueKey =
    ({| degradedConditionReasons := [];
        degradedConditionMessages := [];
        calls := [GetSubscription "submariner-operator" "submariner"] |},
     Some (Fixture.NotFound "field")).
Proof.
  split; [reflexivity|]. split; [reflexivity|].
  exact (proj1 (@undecodable_object_aborts Fixture.lossy Fixture.unconvertible
                  Fixture.queueKey (Fixture.NotFound "field"))
           eq_refl eq_refl).
Defined.

(** ** Single checks *)

(** X5. The route agent check looks at the number of unavailable pods only:
    a route agent daemon set with no pod unavailable gives no signal,
    whatever its number of scheduled nodes, zero included; with pods
    unavailable it gives the one signal [RouteAgentsUnavailable], whose
    message carries the count.  In both cases one read is made and no error
    returned. *)
Theorem route_agents_by_unavailable_only `{AM : ApiMachinery}
    (c : deploymentStatusController) (s : State) (routeAgent : DaemonSet.t) :
  daemonSetLister c (namespace c) routeAgentName = inr routeAgent ->
  checkRouteAgentDaemonSet c s =
    (if (DaemonSet.NumberUnavailable (DaemonSet.Status routeAgent) =? 0)%Z
     then extend s [] [] [GetDaemonSet (namespace c) routeAgentName]
     else extend s
            ["RouteAgentsUnavailable"]
            ["There are "
               ++ fmt_d (DaemonSet.NumberUnavailable (DaemonSet.Status routeAgent))
               ++ " unavailable route agents"]
            [GetDaemonSet (namespace c) routeAgentName],
     None).
Proof.
  intros Hget. rewrite checkRouteAgentDaemonSet_run, Hget.
  unfold routeAgentSignals, hardError.
  destruct (DaemonSet.NumberUnavailable (DaemonSet.Status routeAgent) =? 0)%Z;
    reflexivity.
Qed.

Lemma route_agents_by_unavailable_only_witness :
  daemonSetLister Fixture.idleRouteAgents "submariner-operator" routeAgentName
    = Fixture.daemonSet 0 0 /\
  checkRouteAgentDaemonSet Fixture.idleRouteAgents init =
    ({| degradedConditionReasons := [];
        degradedConditionMessages := [];
        calls := [GetDaemonSet "submariner-operator" "submariner-routeagent"] |},
     None).
Proof.
  split; [reflexivity|].
  exact (route_agents_by_unavailable_only Fixture.idleRouteAgents init
           {| DaemonSet.Status :=
                {| DaemonSet.DesiredNumberScheduled := 0;
                   DaemonSet.NumberUnavailable := 0 |} |}
           eq_refl).
Defined.

(** X6. Each single check makes exactly one read, appends at most one
    signal (the gateway check: at most two), and appends nothing when it
    returns an error. *)
Theorem single_check_footprint `{AM : ApiMachinery} (c : deploymentStatusController) :
  (forall name reasonName s, exists sigs,
      fst (checkDeployment c name reasonName s)
        = emit s sigs [GetDeployment (namespace c) name] /\
      List.length sigs <= 1 /\
      (snd (checkDeployment c name reasonName s) <> None -> sigs = [])) /\
  (forall s, exists sigs,
      fst (checkGatewayDaemonSet c s)
        = emit s sigs [GetDaemonSet (namespace c) gatewayName] /\
      List.length sigs <= 2 /\
      (snd (checkGatewayDaemonSet c s) <> None -> sigs = [])) /\
  (forall s, exists sigs,
      fst (checkRouteAgentDaemonSet c s)
        = emit s sigs [GetDaemonSet (namespace c) routeAgentName] /\
      List.length sigs <= 1 /\
      (snd (checkRouteAgentDaemonSet c s) <> None -> sigs = [])).
Proof.
  split; [|split].
  - intros name reasonName s. rewrite checkDeployment_run.
    eexists. split; [reflexivity|]. cbn [snd].
    unfold deploymentSignals, hardError.
    destruct (deploymentLister c (namespace c) name) as [err|d];
      [destruct (IsNotFound err)
      |destruct (Deployment.AvailableReplicas (Deployment.Status d) =? 0)%Z];
      simpl; split; auto; congruence.
  - intros s. rewrite checkGatewayDaemonSet_run.
    eexists. split; [reflexivity|]. cbn [snd].
    unfold gatewaySignals, hardError.
    destruct (daemonSetLister c (namespace c) gatewayName) as [err|d];
      [destruct (IsNotFound err)
      |destruct (DaemonSet.DesiredNumberScheduled (DaemonSet.Status d) =? 0)%Z;
       destruct (DaemonSet.NumberUnavailable (DaemonSet.Status d) =? 0)%Z];
      simpl; split; auto; congruence.
  - intros s. rewrite checkRouteAgentDaemonSet_run.
    eexists. split; [reflexivity|]. cbn [snd].
    unfold routeAgentSignals, hardError.
    destruct (daemonSetLister c (namespace c) routeAgentName) as [err|d];
      [destruct (IsNotFound err)
      |destruct (DaemonSet.NumberUnavailable (DaemonSet.Status d) =? 0)%Z];
      simpl; split; auto; congruence.
Qed.

(** ** The conditional checks *)

(** X7. The network plugin syncer is looked at for the plugin
    [OVNKubernetes] only, compared letter for letter: with any other plugin
    the pass neither reads the syncer deployment nor collects
    [NoNetworkPluginSyncerDeployment] or [NoNetworkPluginSyncerAvailable]. *)
Theorem syncer_check_only_for_ovn `{AM : ApiMachinery}
    (c : deploymentStatusController) (queueKey : string) (submariner : Submariner.t) :
  theSubmariner c queueKey = inr submariner ->
  Submariner.NetworkPlugin (Submariner.Status submariner) <> "OVNKubernetes" ->
  ~ In (GetDeployment (namespace c) networkPluginSyncerName)
       (calls (fst (pass c queueKey))) /\
  ~ In "NoNetworkPluginSyncerDeployment"
       (degradedConditionReasons (fst (pass c queueKey))) /\
  ~ In "NoNetworkPluginSyncerAvailable"
       (degradedConditionReasons (fst (pass c queueKey))).
Proof.
  intros Hcfg Hplugin.
  apply String.eqb_neq in Hplugin.
  assert (Horder : forall x, In x (optionalOrder submariner) ->
                             x <> "NoNetworkPluginSyncerDeployment" /\
                             x <> "NoNetworkPluginSyncerAvailable").
  { unfold optionalOrder, networkPluginOVNKubernetes. rewrite Hplugin.
    destruct (Submariner.GlobalCIDR (Submariner.Spec submariner) =? "");
      simpl; intuition (subst; discriminate). }
  assert (Hreads : ~ In (GetDeployment (namespace c) networkPluginSyncerName)
                       (optionalReads c submariner)).
  { unfold optionalReads, networkPluginOVNKubernetes. rewrite Hplugin.
    destruct (Submariner.GlobalCIDR (Submariner.Spec submariner) =? "");
      simpl; intuition discriminate. }
  destruct (pass_summary c queueKey)
    as (sigs & reads & tail & -> & O & R & _ & _ & T).
  rewrite emit_init. cbn [calls degradedConditionReasons].
  assert (Hreasons : forall x, In x (map fst sigs) ->
                               x <> "NoNetworkPluginSyncerDeployment" /\
                               x <> "NoNetworkPluginSyncerAvailable").
  { intros x H. apply (Subseq_In _ _ _ O) in H. unfold passOrder in H.
    rewrite Hcfg in H. destruct H as [<-|H]; [split; discriminate|].
    apply in_app_or in H. destruct H as [H|H]; [|now apply Horder].
    unfold requiredOrder in H. simpl in H. intuition (subst; discriminate). }
  split; [|split].
  - intros H. apply in_app_or in H. destruct H as [H|H].
    + apply (Subseq_In _ _ _ R) in H.
      rewrite (passReads_split c queueKey submariner Hcfg) in H.
      destruct H as [H|H]; [discriminate|].
      apply in_app_or in H. destruct H as [H|[H|H]].
      * unfold requiredReads in H. simpl in H. intuition discriminate.
      * discriminate.
      * contradiction.
    + destruct T as [->|(sub & sm & evs & _ & _ & _ & _ & -> & Hev)]; [destruct H|].
      destruct H as [H|H]; [discriminate|].
      destruct Hev as [->|[conds ->]]; [destruct H|].
      destruct H as [H|[]]. discriminate.
  - intros H. apply Hreasons in H. now destruct H.
  - intros H. apply Hreasons in H. now destruct H.
Qed.

Lemma syncer_check_only_for_ovn_witness :
  theSubmariner Fixture.otherPlugin Fixture.queueKey
    = inr (Fixture.submarinerOf "" "ovnkubernetes") /\
  notFound (deploymentLister Fixture.otherPlugin "submariner-operator"
              networkPluginSyncerName) = true /\
  ~ In (GetDeployment "submariner-operator" networkPluginSyncerName)
       (calls (fst (pass Fixture.otherPlugin Fixture.queueKey))) /\
  ~ In "NoNetworkPluginSyncerDeployment"
       (degradedConditionReasons (fst (pass Fixture.otherPlugin Fixture.queueKey))).
Proof.
  split; [reflexivity|]. split; [reflexivity|].
  destruct (syncer_check_only_for_ovn Fixture.otherPlugin Fixture.queueKey
              (Fixture.submarinerOf "" "ovnkubernetes") eq_refl
              (fun H : "ovnkubernetes" = "OVNKubernetes" =>
                 eq_ind "ovnkubernetes"
                   (fun s => match s with
                             | String "o"%char _ => True
                             | _ => False
                             end) I _ H))
    as (Hcalls & Hreasons & _).
  split; assumption.
Defined.

Section ConditionalSignals.
Context {AM : ApiMachinery}.
Variable c : deploymentStatusController.
Variable submariner : Submariner.t.

(** The reasons of the conditional checks when the enabled deployments are
    not found. *)
Lemma optionalSignals_globalnet_missing :
  Submariner.GlobalCIDR (Submariner.Spec submariner) <> "" ->
  notFound (deploymentLister c (namespace c) globalnetName) = true ->
  exists rest,
    map fst (optionalSignals c submariner) = "NoGlobalnetDeployment" :: rest /\
    (Submariner.NetworkPlugin (Submariner.Status submariner) = "OVNKubernetes" ->
     notFound (deploymentLister c (namespace c) networkPluginSyncerName) = true ->
     rest = ["NoNetworkPluginSyncerDeployment"]).
Proof.
  intros Hcidr Hnf. apply String.eqb_neq in Hcidr.
  unfold optionalSignals. rewrite Hcidr, map_app.
  rewrite (deploymentSignals_notFound globalnetName "Globalnet" _ Hnf).
  eexists. split; [reflexivity|].
  intros Hplugin Hnf'. unfold networkPluginOVNKubernetes.
  rewrite Hplugin, String.eqb_refl.
  apply (deploymentSignals_notFound networkPluginSyncerName "NetworkPluginSyncer" _ Hnf').
Qed.

Lemma optionalSignals_syncer_missing :
  Submariner.NetworkPlugin (Submariner.Status submariner) = "OVNKubernetes" ->
  notFound (deploymentLister c (namespace c) networkPluginSyncerName) = true ->
  exists before,
    map fst (optionalSignals c submariner)
      = (before ++ ["NoNetworkPluginSyncerDeployment"])%list.
Proof.
  intros Hplugin Hnf. unfold optionalSignals, networkPluginOVNKubernetes.
  rewrite Hplugin, String.eqb_refl, map_app.
  rewrite (deploymentSignals_notFound networkPluginSyncerName "NetworkPluginSyncer" _ Hnf).
  eexists. reflexivity.
Qed.
End ConditionalSignals.

(** X8. In a pass that hands a condition to the hub: with a global CIDR set
    and the Globalnet deployment not found, the reason contains
    [NoGlobalnetDeployment]; with the plugin [OVNKubernetes] and the syncer
    deployment not found, it contains [NoNetworkPluginSyncerDeployment]; with
    both, the two codes stand next to each other, Globalnet's first. *)
Theorem conditional_deployments_missing `{AM : ApiMachinery}
    (c : deploymentStatusController) (queueKey cn : string) (cond : Condition)
    (submariner : Submariner.t) :
  In (UpdateStatus cn cond) (calls (fst (pass c queueKey))) ->
  theSubmariner c queueKey = inr submariner ->
  (Submariner.GlobalCIDR (Submariner.Spec submariner) <> "" ->
   notFound (deploymentLister c (namespace c) globalnetName) = true ->
   Contains (Reason cond) "NoGlobalnetDeployment" = true /\
   (Submariner.NetworkPlugin (Submariner.Status submariner) = "OVNKubernetes" ->
    notFound (deploymentLister c (namespace c) networkPluginSyncerName) = true ->
    Contains (Reason cond) "NoGlobalnetDeployment,NoNetworkPluginSyncerDeployment"
      = true)) /\
  (Submariner.NetworkPlugin (Submariner.Status submariner) = "OVNKubernetes" ->
   notFound (deploymentLister c (namespace c) networkPluginSyncerName) = true ->
   Contains (Reason cond) "NoNetworkPluginSyncerDeployment" = true).
Proof.
  intros Hin Hcfg.
  destruct (pass_published c queueKey cn cond Hin)
    as (sub & sm & _ & Hcfg' & _ & _ & _ & ->).
  rewrite Hcfg in Hcfg'. injection Hcfg' as <-.
  unfold allSignals. rewrite app_assoc, map_app.
  set (pre := map fst (installSignals sub ++ requiredSignals c)).
  split.
  - intros Hcidr Hnf.
    destruct (optionalSignals_globalnet_missing c submariner Hcidr Hnf)
      as (rest & -> & Hrest).
    rewrite condition_degraded
      by (intros H; destruct (app_cons_not_nil _ _ _ (eq_sym H))).
    cbn [Reason]. split.
    + destruct (Join_member pre "NoGlobalnetDeployment" rest ",") as (a & b & ->).
      apply Contains_infix.
    + intros Hplugin Hnf'. rewrite (Hrest Hplugin Hnf').
      destruct (Join_neighbours pre "NoGlobalnetDeployment"
                  "NoNetworkPluginSyncerDeployment" [] ",") as (a & b & ->).
      apply (Contains_infix a
               ("NoGlobalnetDeployment" ++ "," ++ "NoNetworkPluginSyncerDeployment") b).
  - intros Hplugin Hnf.
    destruct (optionalSignals_syncer_missing c submariner Hplugin Hnf) as (before & ->).
    rewrite app_assoc.
    rewrite condition_degraded
      by (intros H; destruct (app_cons_not_nil _ _ _ (eq_sym H))).
    cbn [Reason].
    destruct (Join_member (pre ++ before)%list "NoNetworkPluginSyncerDeployment" [] ",")
      as (a & b & ->).
    apply Contains_infix.
Qed.

Lemma conditional_deployments_missing_witness :
  In (UpdateStatus "cluster1"
        {| Type_ := "SubmarinerAgentDegraded";
           Status := ConditionTrue;
           Reason := "NoGlobalnetDeployment,NoNetworkPluginSyncerDeployment";
           Message :=
             Join ["The submariner globalnet deployment does not exist";
                   "The submariner networkplugin syncer deployment does not exist"]
               (String "010"%char EmptyString) |})
     (calls (fst (pass Fixture.conditionalMissing Fixture.queueKey))) /\
  theSubmariner Fixture.conditionalMissing Fixture.queueKey
    = inr (Fixture.submarinerOf "242.0.0.0/8" "OVNKubernetes") /\
  Contains "NoGlobalnetDeployment,NoNetworkPluginSyncerDeployment"
    "NoNetworkPluginSyncerDeployment" = true.
Proof.
  assert (H : In (UpdateStatus "cluster1"
                    {| Type_ := "SubmarinerAgentDegraded";
                       Status := ConditionTrue;
                       Reason := "NoGlobalnetDeployment,NoNetworkPluginSyncerDeployment";
                       Message :=
                         Join ["The submariner globalnet deployment does not exist";
                               "The submariner networkplugin syncer deployment does not exist"]
                           (String "010"%char EmptyString) |})
                 (calls (fst (pass Fixture.conditionalMissing Fixture.queueKey)))).
  { vm_compute. do 9 right. left. reflexivity. }
  split; [exact H|]. split; [reflexivity|].
  exact (proj2 (conditional_deployments_missing Fixture.conditionalMissing
                  Fixture.queueKey _ _
                  (Fixture.submarinerOf "242.0.0.0/8" "OVNKubernetes") H eq_refl)
           eq_refl eq_refl).
Defined.

(** ** The condition handed to the hub *)

Section WellFormed.
Context {AM : ApiMachinery}.
Variable c : deploymentStatusController.

Lemma deploymentSignals_filled (name reasonName : string) r :
  Forall filled (deploymentSignals name reasonName r).
Proof.
  unfold deploymentSignals.
  destruct r as [err|d];
    [destruct (IsNotFound err)
    |destruct (Deployment.AvailableReplicas (Deployment.Status d) =? 0)%Z];
    repeat constructor; simpl; discriminate.
Qed.

Lemma gatewaySignals_filled r : Forall filled (gatewaySignals r).
Proof.
  unfold gatewaySignals.
  destruct r as [err|d];
    [destruct (IsNotFound err)
    |destruct (DaemonSet.DesiredNumberScheduled (DaemonSet.Status d) =? 0)%Z;
     destruct (DaemonSet.NumberUnavailable (DaemonSet.Status d) =? 0)%Z];
    repeat constructor; simpl; discriminate.
Qed.

Lemma routeAgentSignals_filled r : Forall filled (routeAgentSignals r).
Proof.
  unfold routeAgentSignals.
  destruct r as [err|d];
    [destruct (IsNotFound err)
    |destruct (DaemonSet.NumberUnavailable (DaemonSet.Status d) =? 0)%Z];
    repeat constructor; simpl; discriminate.
Qed.

Lemma installSignals_filled (sub : Subscription.t) : Forall filled (installSignals sub).
Proof.
  unfold installSignals.
  destruct (Subscription.InstalledCSV (Subscription.Status sub) =? "");
    repeat constructor; simpl; discriminate.
Qed.

Lemma allSignals_filled (sub : Subscription.t) (submariner : Submariner.t) :
  Forall filled (allSignals c sub submariner).
Proof.
  unfold allSignals, requiredSignals, optionalSignals.
  repeat (apply Forall_app; split);
    auto using installSignals_filled, deploymentSignals_filled,
      gatewaySignals_filled, routeAgentSignals_filled.
  - destruct (Submariner.GlobalCIDR (Submariner.Spec submariner) =? "");
      [constructor | apply deploymentSignals_filled].
  - destruct (Submariner.NetworkPlugin (Submariner.Status submariner)
                =? networkPluginOVNKubernetes);
      [apply deploymentSignals_filled | constructor].
Qed.

Lemma Join_filled (x : string) (l : list string) (sep : string) :
  x <> "" -> Join (x :: l) sep <> "".
Proof.
  destruct x as [|ch x]; [congruence|]. intros _.
  destruct l; simpl; discriminate.
Qed.
End WellFormed.

(** X9. Every condition a pass hands to the hub is addressed to the
    controller's cluster, has the type [SubmarinerAgentDegraded], a status
    that is True or False and never Unknown, a reason that is not empty and
    a message that is not empty. *)
Theorem published_condition_well_formed `{AM : ApiMachinery}
    (c : deploymentStatusController) (queueKey cn : string) (cond : Condition) :
  In (UpdateStatus cn cond) (calls (fst (pass c queueKey))) ->
  cn = clusterName c /\
  Type_ cond = "SubmarinerAgentDegraded" /\
  (Status cond = ConditionTrue \/ Status cond = ConditionFalse) /\
  Reason cond <> "" /\
  Message cond <> "".
Proof.
  intros Hin.
  destruct (pass_published c queueKey cn cond Hin)
    as (sub & submariner & _ & _ & _ & _ & -> & ->).
  pose proof (allSignals_filled c sub submariner) as Hfilled.
  destruct (allSignals c sub submariner) as [|[r m] sigs].
  - rewrite condition_deployed. cbn [Type_ Status Reason Message].
    repeat split; auto; discriminate.
  - apply Forall_cons_iff in Hfilled. destruct Hfilled as [[Hr Hm] _].
    cbn [fst snd] in Hr, Hm. cbn [map fst snd].
    rewrite condition_degraded by discriminate. cbn [Type_ Status Reason Message].
    repeat split; auto using Join_filled.
Qed.

Lemma published_condition_well_formed_witness :
  In (UpdateStatus "cluster1"
        {| Type_ := "SubmarinerAgentDegraded";
           Status := ConditionTrue;
           Reason := "NoOperatorDeployment,NoLighthouseAgentAvailable";
           Message :=
             Join ["The submariner operator deployment does not exist";
                   "There are no submariner lighthouse agent replica available"]
               (String "010"%char EmptyString) |})
     (calls (fst (pass Fixture.noOperator Fixture.queueKey))) /\
  "cluster1" = clusterName Fixture.noOperator.
Proof.
  assert (H : In (UpdateStatus "cluster1"
                    {| Type_ := "SubmarinerAgentDegraded";
                       Status := ConditionTrue;
                       Reason := "NoOperatorDeployment,NoLighthouseAgentAvailable";
                       Message :=
                         Join ["The submariner operator deployment does not exist";
                               "There are no submariner lighthouse agent replica available"]
                           (String "010"%char EmptyString) |})
                 (calls (fst (pass Fixture.noOperator Fixture.queueKey)))).
  { vm_compute. do 7 right. left. reflexivity. }
  split; [exact H|].
  exact (proj1 (published_condition_well_formed Fixture.noOperator Fixture.queueKey
                  _ _ H)).
Defined.

(** ** Queue keys *)

Section QueueKeys.
Context {AM : ApiMachinery}.
Variable c : deploymentStatusController.

Lemma splitSlash_last (cur s : string) :
  noSlash s = true -> splitSlash cur s = [cur ++ s].
Proof.
  revert cur. induction s as [|ch s IH]; intros cur H; simpl in *.
  - now rewrite append_nil_r.
  - apply andb_prop in H. destruct H as [Hch Hs].
    apply negb_true_iff in Hch. rewrite Hch.
    rewrite (IH _ Hs), append_assoc. reflexivity.
Qed.

Lemma splitSlash_part (cur a rest : string) :
  noSlash a = true ->
  splitSlash cur (a ++ String "/" rest) = (cur ++ a) :: splitSlash "" rest.
Proof.
  revert cur. induction a as [|ch a IH]; intros cur H; simpl in *.
  - now rewrite append_nil_r.
  - apply andb_prop in H. destruct H as [Hch Ha].
    apply negb_true_iff in Hch. rewrite Hch.
    rewrite (IH _ Ha), append_assoc. reflexivity.
Qed.

Lemma splitSlash_nonempty (cur s : string) : splitSlash cur s <> [].
Proof.
  revert cur. induction s as [|ch s IH]; intros cur; simpl; [discriminate|].
  destruct (Ascii.eqb ch "/"); [discriminate | apply IH].
Qed.

Lemma Split_namespaced (ns name : string) :
  noSlash ns = true -> noSlash name = true ->
  SplitMetaNamespaceKey (ns ++ String "/" name) = (ns, name).
Proof.
  intros Hns Hname. unfold SplitMetaNamespaceKey.
  rewrite (splitSlash_part "" ns name Hns), (splitSlash_last "" name Hname).
  reflexivity.
Qed.

Lemma Split_bare (name : string) :
  noSlash name = true -> SplitMetaNamespaceKey name = ("", name).
Proof.
  intros H. unfold SplitMetaNamespaceKey. now rewrite (splitSlash_last "" name H).
Qed.

Lemma Split_malformed (a b rest : string) :
  noSlash a = true -> noSlash b = true ->
  SplitMetaNamespaceKey (a ++ String "/" (b ++ String "/" rest)) = ("", "").
Proof.
  intros Ha Hb. unfold SplitMetaNamespaceKey.
  rewrite (splitSlash_part "" a _ Ha), (splitSlash_part "" b _ Hb).
  destruct (splitSlash "" rest) eqn:E; [|reflexivity].
  now apply splitSlash_nonempty in E.
Qed.
End QueueKeys.

(** X10. Which configuration resource a key names.  For a key made of a
    namespace, a slash and a name, [getSubmariner] looks up that name in that
    namespace; for a key without a slash it looks up the key as a name in
    the empty namespace; for a key with two slashes or more it still makes a
    lookup and reports no error of its own: the lookup is for the empty name
    in the empty namespace. *)
Theorem getSubmariner_lookup_by_key `{AM : ApiMachinery}
    (c : deploymentStatusController) (s : State) (a b rest : string) :
  noSlash a = true ->
  noSlash b = true ->
  calls (fst (getSubmariner c (a ++ String "/" b) s))
    = (calls s ++ [GetSubmariner a b])%list /\
  calls (fst (getSubmariner c a s)) = (calls s ++ [GetSubmariner "" a])%list /\
  calls (fst (getSubmariner c (a ++ String "/" (b ++ String "/" rest)) s))
    = (calls s ++ [GetSubmariner "" ""])%list.
Proof.
  intros Ha Hb.
  rewrite !getSubmariner_run. unfold configRead.
  rewrite (Split_namespaced a b Ha Hb), (Split_bare a Ha), (Split_malformed a b rest Ha Hb).
  cbn [fst snd emit extend calls]. auto.
Qed.

Lemma getSubmariner_lookup_by_key_witness :
  calls (fst (getSubmariner Fixture.healthy "submariner-operator/submariner" init))
    = [GetSubmariner "submariner-operator" "submariner"] /\
  calls (fst (getSubmariner Fixture.healthy "submariner-operator" init))
    = [GetSubmariner "" "submariner-operator"] /\
  calls (fst (getSubmariner Fixture.healthy "submariner-operator/submariner/status" init))
    = [GetSubmariner "" ""].
Proof.
  exact (getSubmariner_lookup_by_key Fixture.healthy init
           "submariner-operator" "submariner" "status" eq_refl eq_refl).
Defined.

(** * The fake client *)

Section FakeList.
Import FakeClient.
Context {FM : Machinery}.

Lemma appendMatching_filter (label : Selector) (items acc : list AddOn) :
  appendMatching label items acc
    = (acc ++ filter (fun item => Matches label (LabelsOf item)) items)%list.
Proof.
  revert acc. induction items as [|item items IH]; intros acc; simpl.
  - now rewrite app_nil_r.
  - rewrite IH. destruct (Matches label (LabelsOf item)); [|reflexivity].
    now rewrite <- app_assoc.
Qed.
End FakeList.

(** X11. When the tracker answers a list, [List] returns, together with the
    tracker's error, a new list with the tracker's list metadata, an empty
    type metadata, and exactly the tracker's items whose labels match the
    selector of the options, in the tracker's order; an item is in the
    result if and only if it is in the tracker's list and matches. *)
Theorem fake_list_returns_matching `{FM : FakeClient.Machinery}
    (c : FakeClient.FakeClusterManagementAddOns) (opts : FakeClient.ListOptions)
    (objList : FakeClient.ClusterManagementAddOnList)
    (err : option FakeClient.error) :
  FakeClient.Invokes (FakeClient.Fake c)
    (FakeClient.RootListAction FakeClient.clustermanagementaddonsResource
       FakeClient.clustermanagementaddonsKind opts)
    (FakeClient.ListObject FakeClient.emptyList)
    = (Some (FakeClient.ListObject objList), err) ->
  exists items,
    FakeClient.List c opts =
      FakeClient.Returns
        (Some {| FakeClient.ListTypeMeta :=
                   {| FakeClient.Kind := ""; FakeClient.APIVersion := "" |};
                 FakeClient.ListListMeta := FakeClient.ListListMeta objList;
                 FakeClient.Items := items |},
         err) /\
    items = filter (fun item => FakeClient.Matches (FakeClient.selectorOf opts)
                                  (FakeClient.LabelsOf item))
              (FakeClient.Items objList) /\
    (forall item,
        In item items <->
        In item (FakeClient.Items objList) /\
        FakeClient.Matches (FakeClient.selectorOf opts) (FakeClient.LabelsOf item) = true).
Proof.
  intros Hinv. eexists. split; [|split; [reflexivity|]].
  - unfold FakeClient.List. rewrite Hinv. cbv zeta.
    rewrite appendMatching_filter. reflexivity.
  - intros item. apply filter_In.
Qed.

Lemma fake_list_returns_matching_witness :
  FakeClient.List FakeClient.listing (Some ("team", "net")) =
    FakeClient.Returns
      (Some {| FakeClient.ListTypeMeta :=
                 {| FakeClient.Kind := ""; FakeClient.APIVersion := "" |};
               FakeClient.ListListMeta := "resourceVersion 7";
               FakeClient.Items :=
                 [ ("submariner", [("team", "net")]);
                   ("lighthouse", [("tier", "dns"); ("team", "net")]) ] |},
       None).
Proof.
  destruct (fake_list_returns_matching FakeClient.listing (Some ("team", "net"))
              FakeClient.threeAddOns None eq_refl) as (items & Hlist & Hitems & _).
  rewrite Hlist, Hitems. reflexivity.
Defined.

(** X12. When the options carry no label selector and the selector
    [labels.Everything()] matches every label set, [List] returns all the
    items of the tracker's list, in the same order. *)
Theorem fake_list_without_selector `{FM : FakeClient.Machinery}
    (c : FakeClient.FakeClusterManagementAddOns) (opts : FakeClient.ListOptions)
    (objList : FakeClient.ClusterManagementAddOnList)
    (err : option FakeClient.error) :
  (forall labels, FakeClient.Matches FakeClient.Everything labels = true) ->
  FakeClient.ExtractFromListOptions opts = None ->
  FakeClient.Invokes (FakeClient.Fake c)
    (FakeClient.RootListAction FakeClient.clustermanagementaddonsResource
       FakeClient.clustermanagementaddonsKind opts)
    (FakeClient.ListObject FakeClient.emptyList)
    = (Some (FakeClient.ListObject objList), err) ->
  FakeClient.List c opts =
    FakeClient.Returns
      (Some {| FakeClient.ListTypeMeta :=
                 {| FakeClient.Kind := ""; FakeClient.APIVersion := "" |};
               FakeClient.ListListMeta := FakeClient.ListListMeta objList;
               FakeClient.Items := FakeClient.Items objList |},
       err).
Proof.
  intros Hall Hnil Hinv.
  unfold FakeClient.List. rewrite Hinv. cbv zeta.
  rewrite appendMatching_filter. unfold FakeClient.selectorOf. rewrite Hnil.
  assert (Hf : forall items,
             filter (fun item => FakeClient.Matches FakeClient.Everything
                                   (FakeClient.LabelsOf item)) items = items).
  { induction items as [|item items IH]; simpl; [reflexivity|].
    rewrite Hall, IH. reflexivity. }
  rewrite Hf. reflexivity.
Qed.

Lemma fake_list_without_selector_witness :
  FakeClient.List FakeClient.listing None =
    FakeClient.Returns
      (Some {| FakeClient.ListTypeMeta :=
                 {| FakeClient.Kind := ""; FakeClient.APIVersion := "" |};
               FakeClient.ListListMeta := "resourceVersion 7";
               FakeClient.Items := FakeClient.Items FakeClient.threeAddOns |},
       None).
Proof.
  exact (fake_list_without_selector FakeClient.listing None FakeClient.threeAddOns None
           (fun _ => eq_refl) eq_refl eq_refl).
Defined.

(** * Where errors come from, and what is published *)

Section Blame.
Context {AM : ApiMachinery}.
Variable c : deploymentStatusController.

Lemma Blames_ext f g : (forall s, f s = g s) -> Blames c f -> Blames c g.
Proof. intros Hfg Hf s. rewrite <- Hfg. apply Hf. Qed.

Lemma Blames_skip : Blames c skip.
Proof. intros s e H. discriminate. Qed.

Lemma Blames_andThen f g : Blames c f -> Blames c g -> Blames c (andThen f g).
Proof.
  intros Hf Hg s e. unfold andThen.
  specialize (Hf s). destruct (f s) as [s1 [e1|]]; cbn [fst snd] in *.
  - intros [= <-]. now apply Hf.
  - apply Hg.
Qed.

Lemma Blames_checkDeployment (name reasonName : string) :
  Blames c (checkDeployment c name reasonName).
Proof.
  intros s e. rewrite checkDeployment_run. cbn [fst snd emit extend calls]. intros H.
  exists (GetDeployment (namespace c) name). split; [|exact H].
  apply in_or_app. right. now left.
Qed.

Lemma Blames_checkGatewayDaemonSet : Blames c (checkGatewayDaemonSet c).
Proof.
  intros s e. rewrite checkGatewayDaemonSet_run. cbn [fst snd emit extend calls].
  intros H. exists (GetDaemonSet (namespace c) gatewayName). split; [|exact H].
  apply in_or_app. right. now left.
Qed.

Lemma Blames_checkRouteAgentDaemonSet : Blames c (checkRouteAgentDaemonSet c).
Proof.
  intros s e. rewrite checkRouteAgentDaemonSet_run. cbn [fst snd emit extend calls].
  intros H. exists (GetDaemonSet (namespace c) routeAgentName). split; [|exact H].
  apply in_or_app. right. now left.
Qed.

Lemma Blames_required : Blames c (andThen (checkDeployments c) (checkDaemonSets c)).
Proof.
  apply Blames_andThen.
  - eapply Blames_ext; [intros s; symmetry; apply checkDeployments_run|].
    repeat apply Blames_andThen; apply Blames_checkDeployment.
  - eapply Blames_ext; [intros s; symmetry; apply checkDaemonSets_run|].
    apply Blames_andThen;
      [apply Blames_checkGatewayDaemonSet | apply Blames_checkRouteAgentDaemonSet].
Qed.

Lemma Blames_optional (submariner : Submariner.t) :
  Blames c (checkOptionalDeployments c submariner).
Proof.
  eapply Blames_ext; [intros s; symmetry; apply checkOptionalDeployments_run|].
  apply Blames_andThen.
  - destruct (Submariner.GlobalCIDR (Submariner.Spec submariner) =? "");
      [apply Blames_skip | apply Blames_checkDeployment].
  - destruct (Submariner.NetworkPlugin (Submariner.Status submariner)
                =? networkPluginOVNKubernetes);
      [apply Blames_checkDeployment | apply Blames_skip].
Qed.
End Blame.

(** X13. A pass makes up no error.  The error it returns is the error of a
    read in its log, or the error with which the subscription or the
    configuration resource failed to be read and decoded, or the error of
    the hub for the condition handed to it. *)
Theorem returned_error_has_a_source `{AM : ApiMachinery}
    (c : deploymentStatusController) (queueKey : string) (err : error) :
  snd (pass c queueKey) = Some err ->
  (exists cl, In cl (calls (fst (pass c queueKey))) /\ readError c cl = Some err) \/
  theSubscription c = inl err \/
  theSubmariner c queueKey = inl err \/
  (exists cond,
      published (calls (fst (pass c queueKey))) = [cond] /\
      addOnClient c (clusterName c) cond = inl err).
Proof.
  destruct (published (calls (fst (pass c queueKey)))) as [|cond rest] eqn:Hpub.
  - (* nothing was published *)
    revert Hpub. unfold pass. rewrite sync_run. cbv zeta.
    destruct (theSubscription c) as [e|sub].
    { cbn [snd]. destruct (notFound _); [discriminate|].
      intros _ [= <-]. auto. }
    pose proof (Blames_required c
                  (emit (emit (fresh init) []
                           [GetSubscription (namespace c) subscriptionName])
                     (installSignals sub) [])) as Hreq.
    destruct (andThen (checkDeployments c) (checkDaemonSets c) _) as [s2 [e|]];
      cbn [fst snd] in *.
    { intros _ [= <-]. left. now apply Hreq. }
    destruct (theSubmariner c queueKey) as [e|submariner].
    { cbn [snd]. destruct (notFound _); [discriminate|].
      intros _ [= <-]. auto. }
    pose proof (Blames_optional c submariner (emit s2 [] [configRead queueKey])) as Hopt.
    destruct (checkOptionalDeployments c submariner _) as [s4 [e|]];
      cbn [fst snd] in *.
    { intros _ [= <-]. left. now apply Hopt. }
    unfold publish.
    destruct (addOnClient c (clusterName c) _) as [e|[conds updated]];
      cbn [fst snd emit extend calls]; rewrite published_app; cbn [published];
      intros H; apply app_eq_nil in H; destruct H as [_ H]; discriminate.
  - (* a condition was published: the hub decides *)
    intros Hret.
    destruct (published_reads_ok c queueKey)
      as (sub & submariner & Hsub & Hcfg & Hall); [rewrite Hpub; discriminate|].
    set (cond0 := submarinerAgentCondtion sub (map fst (allSignals c sub submariner))
                    (map snd (allSignals c sub submariner))).
    assert (Hp : published (calls (fst (pass c queueKey))) = [cond0] /\
                 snd (pass c queueKey)
                 = match addOnClient c (clusterName c) cond0 with
                   | inl e => Some e
                   | inr _ => None
                   end).
    { rewrite (pass_publishes c queueKey sub submariner Hsub Hcfg Hall).
      unfold publish.
      change (degradedConditionReasons
                (emit init (allSignals c sub submariner) (passReads c queueKey)))
        with (map fst (allSignals c sub submariner)).
      change (degradedConditionMessages
                (emit init (allSignals c sub submariner) (passReads c queueKey)))
        with (map snd (allSignals c sub submariner)).
      fold cond0.
      destruct (addOnClient c (clusterName c) cond0) as [e|[conds [|]]];
        cbn [fst snd]; rewrite emit_emit, emit_init; cbn [calls];
        rewrite published_app, (published_reads (passReads c queueKey))
          by apply passReads_isRead;
        split; reflexivity. }
    destruct Hp as [Hone Hhub].
    do 3 right. exists cond0. split; [rewrite <- Hpub; exact Hone|].
    rewrite Hret in Hhub.
    destruct (addOnClient c (clusterName c) cond0) as [e|?]; congruence.
Qed.

Lemma returned_error_has_a_source_witness :
  snd (pass Fixture.brokenGateway Fixture.queueKey)
    = Some (Fixture.Internal "decode failure") /\
  ((exists cl,
       In cl (calls (fst (pass Fixture.brokenGateway Fixture.queueKey))) /\
       readError Fixture.brokenGateway cl = Some (Fixture.Internal "decode failure")) \/
   theSubscription Fixture.brokenGateway = inl (Fixture.Internal "decode failure") \/
   theSubmariner Fixture.brokenGateway Fixture.queueKey
     = inl (Fixture.Internal "decode failure") \/
   (exists cond,
       published (calls (fst (pass Fixture.brokenGateway Fixture.queueKey))) = [cond] /\
       addOnClient Fixture.brokenGateway (clusterName Fixture.brokenGateway) cond
         = inl (Fixture.Internal "decode failure"))).
Proof.
  split; [reflexivity|].
  exact (returned_error_has_a_source Fixture.brokenGateway Fixture.queueKey
           (Fixture.Internal "decode failure") eq_refl).
Defined.

(** X14. What a publishing pass publishes.  When the subscription and the
    configuration resource decode and no read fails, the pass hands the hub
    one condition, built from the signals of the checks laid end to end in
    program order: the installed-CSV test, the operator, lighthouse agent and
    lighthouse CoreDNS deployments, the gateway and the route agent daemon
    sets, then the enabled conditional deployments.  Each check contributes
    according to its own resource alone, whatever the other checks found. *)
Theorem published_condition_exact `{AM : ApiMachinery}
    (c : deploymentStatusController) (queueKey : string)
    (sub : Subscription.t) (submariner : Submariner.t) :
  theSubscription c = inr sub ->
  theSubmariner c queueKey = inr submariner ->
  Forall (fun cl => readError c cl = None) (passReads c queueKey) ->
  let sigs :=
    (installSignals sub
       ++ deploymentSignals operatorName "Operator"
            (deploymentLister c (namespace c) operatorName)
       ++ deploymentSignals lighthouseAgentName "LighthouseAgent"
            (deploymentLister c (namespace c) lighthouseAgentName)
       ++ deploymentSignals lighthouseCoreDNSName "LighthouseCoreDNS"
            (deploymentLister c (namespace c) lighthouseCoreDNSName)
       ++ gatewaySignals (daemonSetLister c (namespace c) gatewayName)
       ++ routeAgentSignals (daemonSetLister c (namespace c) routeAgentName)
       ++ (if Submariner.GlobalCIDR (Submariner.Spec submariner) =? "" then []
           else deploymentSignals globalnetName "Globalnet"
                  (deploymentLister c (namespace c) globalnetName))
       ++ (if Submariner.NetworkPlugin (Submariner.Status submariner)
                =? "OVNKubernetes"
           then deploymentSignals networkPluginSyncerName "NetworkPluginSyncer"
                  (deploymentLister c (namespace c) networkPluginSyncerName)
           else []))%list in
  degradedConditionReasons (fst (pass c queueKey)) = map fst sigs /\
  degradedConditionMessages (fst (pass c queueKey)) = map snd sigs /\
  published (calls (fst (pass c queueKey)))
    = [submarinerAgentCondtion sub (map fst sigs) (map snd sigs)].
Proof.
  intros Hsub Hcfg Hall sigs.
  assert (Hsigs : sigs = allSignals c sub submariner).
  { subst sigs. unfold allSignals, requiredSignals, optionalSignals.
    rewrite <- ?app_assoc. reflexivity. }
  rewrite Hsigs.
  rewrite (pass_publishes c queueKey sub submariner Hsub Hcfg Hall).
  unfold publish.
  change (degradedConditionReasons
            (emit init (allSignals c sub submariner) (passReads c queueKey)))
    with (map fst (allSignals c sub submariner)).
  change (degradedConditionMessages
            (emit init (allSignals c sub submariner) (passReads c queueKey)))
    with (map snd (allSignals c sub submariner)).
  destruct (addOnClient c (clusterName c) _) as [e|[conds [|]]];
    cbn [fst snd]; rewrite emit_emit, emit_init;
    cbn [calls degradedConditionReasons degradedConditionMessages];
    rewrite published_app, (published_reads (passReads c queueKey))
      by apply passReads_isRead;
    rewrite !app_nil_r; repeat split; reflexivity.
Qed.

Lemma published_condition_exact_witness :
  theSubscription Fixture.noOperator
    = inr (Fixture.subscriptionOf "submariner.v0.12.0" "" "") /\
  theSubmariner Fixture.noOperator Fixture.queueKey = inr (Fixture.submarinerOf "" "") /\
  degradedConditionReasons (fst (pass Fixture.noOperator Fixture.queueKey))
    = ["NoOperatorDeployment"; "NoLighthouseAgentAvailable"].
Proof.
  split; [reflexivity|]. split; [reflexivity|].
  exact (proj1 (published_condition_exact Fixture.noOperator Fixture.queueKey
                  (Fixture.subscriptionOf "submariner.v0.12.0" "" "")
                  (Fixture.submarinerOf "" "") eq_refl eq_refl
                  ltac:(repeat constructor))).
Defined.
